(** * Metal3DataTemplate manager: index allocation and status bookkeeping

    A shallow embedding of [baremetal/metal3datatemplate_manager.go] and the
    properties of its status record (the [Indexes] and [DataNames] maps of a
    Metal3DataTemplate).

    Conventions of the embedding.
    - Go [int] values are [Z]; [strconv.Itoa] is the decimal rendering.
    - [map[string]string] is a [gmap string string].  A nil map and an empty
      map answer lookups, [len], [range] and [delete] alike, and both places
      that write to the status maps allocate them first (lines 99-100 and
      186-191), so nil is identified with the empty map.
    - The manager mutates the template it points to; here every method
      takes the manager and returns the manager it leaves behind, together
      with its Go return value.
    - The API server, the helpers [createObject] and [getM3Machine] (which
      live in other files of the package) and the clock are collaborators:
      they are reached through the [Client] interface, and every call made
      through it is recorded in the manager's [calls]. *)

From Stdlib Require Import ZArith Lia Ascii String.
From stdpp Require Import gmap strings list fin_maps pretty.

Open Scope Z_scope.

(** ** Errors *)

(** The Go [error] values the manager tells apart: the package's
    [RequeueAfterError], API errors for which [apierrors.IsNotFound] holds,
    and everything else. *)
Inductive error : Type :=
| RequeueAfterError
| StatusNotFound (msg : string)
| ErrorString (msg : string).

(** [errors.Cause(err).(HasRequeueAfterError)] *)
Definition HasRequeueAfterError (e : error) : bool :=
  match e with RequeueAfterError => true | _ => false end.

(** [apierrors.IsNotFound(err)] *)
Definition IsNotFound (e : error) : bool :=
  match e with StatusNotFound _ => true | _ => false end.

(** ** API types *)

Definition Time := nat.

Module GroupVersion.
Record t := mk { Group : string; Version : string }.
End GroupVersion.

Module OwnerReference.
Record t := mk {
  APIVersion : string;
  Kind : string;
  Name : string;
  UID : string;
  Controller : option bool }.
End OwnerReference.

Module ObjectReference.
Record t := mk { Name : string; Namespace : string }.
End ObjectReference.

Module ObjectKey.
Record t := mk { Name : string; Namespace : string }.
End ObjectKey.

Module Metal3Data.
Record Metal3DataSpec := mkSpec {
  Index : Z;
  DataTemplate : option ObjectReference.t;
  Metal3Machine : option ObjectReference.t }.
Record t := mk {
  Kind : string;
  APIVersion : string;
  Name : string;
  Namespace : string;
  Labels : gmap string string;
  OwnerReferences : list OwnerReference.t;
  Spec : Metal3DataSpec }.
End Metal3Data.

Module Metal3Machine.
Record t := mk { Name : string; Namespace : string }.
End Metal3Machine.

Module Metal3DataTemplate.
Record Metal3DataTemplateStatus := mkStatus {
  Indexes : gmap string string;
  DataNames : gmap string string;
  LastUpdated : option Time }.
Record t := mk {
  Kind : string;
  APIVersion : string;
  Name : string;
  Namespace : string;
  UID : string;
  Labels : gmap string string;
  OwnerReferences : list OwnerReference.t;
  Status : Metal3DataTemplateStatus }.

Definition setStatus (s : Metal3DataTemplateStatus) (d : t) : t :=
  mk (Kind d) (APIVersion d) (Name d) (Namespace d) (UID d) (Labels d)
     (OwnerReferences d) s.

Definition setOwnerReferences (refs : list OwnerReference.t) (d : t) : t :=
  mk (Kind d) (APIVersion d) (Name d) (Namespace d) (UID d) (Labels d)
     refs (Status d).
End Metal3DataTemplate.

Import Metal3DataTemplate (Indexes, DataNames, LastUpdated, Status).

(** [capm3.GroupVersion]: the group is the one named by the comment at
    lines 155-156, the version the one of the imported [api/v1alpha4]. *)
Definition capm3_GroupVersion : GroupVersion.t :=
  GroupVersion.mk "infrastructure.cluster.x-k8s.io" "v1alpha4".

(** [capm3.GroupVersion.String()] *)
Definition capm3_GroupVersion_String : string :=
  GroupVersion.Group capm3_GroupVersion +:+ "/" +:+
  GroupVersion.Version capm3_GroupVersion.

(** [capi.ClusterLabelName] of cluster-api v1alpha3. *)
Definition ClusterLabelName : string := "cluster.x-k8s.io/cluster-name".

(** [strconv.Itoa] *)
Definition Itoa (i : Z) : string := pretty i.

(** [len(m)] for a Go map. *)
Definition len (m : gmap string string) : Z := Z.of_nat (size m).

(** ** Index allocation (CreateDatas, lines 194-204)

    [findGap] is the [for index := 0; index < len(Indexes); index++] loop:
    [steps] counts the iterations left, [index] is the loop variable and
    [machineIndexInt] the variable assigned in the body. *)
Fixpoint findGap (indexes : gmap string string) (steps : nat) (index : Z)
    (machineIndexInt : Z) : Z :=
  match steps with
  | O => machineIndexInt
  | S steps' =>
      if bool_decide (is_Some (indexes !! Itoa index)) then
        findGap indexes steps' (index + 1) machineIndexInt
      else if machineIndexInt =? len indexes then
        index (* machineIndexInt = index; break *)
      else
        findGap indexes steps' (index + 1) machineIndexInt
  end.

Definition nextIndex (indexes : gmap string string) : Z :=
  findGap indexes (size indexes) 0 (len indexes).

(** ** Collaborators *)

(** [schema.ParseGroupVersion] of k8s.io/apimachinery.  Its errors are
    plain [fmt.Errorf] errors: [inl msg] stands for the error with message
    [msg]. *)
Class Schema := ParseGroupVersion : string → string + GroupVersion.t.

(** The order in which a [for k, v := range m] visits a map.  Go leaves it
    unspecified; all that is known is that every entry is visited once. *)
Class MapRange := {
  range : gmap string string → list (string * string);
  range_perm : ∀ m, range m ≡ₚ map_to_list m }.

(** The calls the manager makes to its collaborators. *)
Inductive Call : Type :=
| CallList (namespace : string)
| CallGet (key : ObjectKey.t)
| CallDelete (obj : Metal3Data.t)
| CallCreate (obj : Metal3Data.t)
| CallGetM3Machine (name namespace : string)
| CallNow.

(** [client.Client] as the manager uses it, with the two package helpers
    that take the client ([createObject], [getM3Machine]) and the clock
    ([metav1.Now]).  [C] is the state of the outside world; a Go
    [(value, error)] result is [error + value], a Go [error] result is
    [option error] with [None] for nil. *)
Class Client (C : Type) := {
  client_List : C → string → C * (error + list Metal3Data.t);
  client_Get : C → ObjectKey.t → C * (error + Metal3Data.t);
  client_Delete : C → Metal3Data.t → C * option error;
  createObject : C → Metal3Data.t → C * option error;
  getM3Machine : C → string → string → Metal3DataTemplate.t →
                 C * (error + option Metal3Machine.t);
  metav1_Now : C → C * Time }.

(** ** The manager *)

(** [DataTemplateManager]: the client, the template it manages, and the
    calls made so far (most recent first). *)
Record DataTemplateManager (C : Type) := mkManager {
  client : C;
  DataTemplate : Metal3DataTemplate.t;
  calls : list Call }.
Arguments mkManager {C}.
Arguments client {C}.
Arguments DataTemplate {C}.
Arguments calls {C}.

(** How a loop body leaves: on to the next iteration, carrying
    [requeueNeeded], or out of the function with an error. *)
Inductive Flow : Type :=
| Next (requeueNeeded : bool)
| Return (err : error).

Section Manager.
Context `{Schema} `{MapRange} {C : Type} `{Client C}.
Implicit Types (m : DataTemplateManager C).

Definition setDataTemplate (d : Metal3DataTemplate.t) m :
    DataTemplateManager C :=
  mkManager (client m) d (calls m).

Definition setStatus (s : Metal3DataTemplate.Metal3DataTemplateStatus) m :
    DataTemplateManager C :=
  setDataTemplate (Metal3DataTemplate.setStatus s (DataTemplate m)) m.

(** [m.client.List(ctx, &dataObjects, opts)] *)
Definition doList m (namespace : string) :
    DataTemplateManager C * (error + list Metal3Data.t) :=
  let '(c, r) := client_List (client m) namespace in
  (mkManager c (DataTemplate m) (CallList namespace :: calls m), r).

(** [m.client.Get(ctx, key, tmpM3Data)] *)
Definition doGet m (key : ObjectKey.t) :
    DataTemplateManager C * (error + Metal3Data.t) :=
  let '(c, r) := client_Get (client m) key in
  (mkManager c (DataTemplate m) (CallGet key :: calls m), r).

(** [m.client.Delete(ctx, tmpM3Data)] *)
Definition doDelete m (obj : Metal3Data.t) :
    DataTemplateManager C * option error :=
  let '(c, r) := client_Delete (client m) obj in
  (mkManager c (DataTemplate m) (CallDelete obj :: calls m), r).

(** [createObject(m.client, ctx, dataObject)] *)
Definition doCreate m (obj : Metal3Data.t) :
    DataTemplateManager C * option error :=
  let '(c, r) := createObject (client m) obj in
  (mkManager c (DataTemplate m) (CallCreate obj :: calls m), r).

(** [getM3Machine(ctx, m.client, m.Log, name, namespace, m.DataTemplate, false)] *)
Definition doGetM3Machine m (name namespace : string) :
    DataTemplateManager C * (error + option Metal3Machine.t) :=
  let '(c, r) := getM3Machine (client m) name namespace (DataTemplate m) in
  (mkManager c (DataTemplate m) (CallGetM3Machine name namespace :: calls m), r).

(** [updateStatusTimestamp] (lines 139-142) *)
Definition updateStatusTimestamp m : DataTemplateManager C :=
  let '(c, now) := metav1_Now (client m) in
  let st := Status (DataTemplate m) in
  mkManager c
    (Metal3DataTemplate.setStatus
       (Metal3DataTemplate.mkStatus (Indexes st) (DataNames st) (Some now))
       (DataTemplate m))
    (CallNow :: calls m).

(** The machine name recorded for a Metal3Data (lines 127-130). *)
Definition machineNameOf (dataObject : Metal3Data.t) : string :=
  match Metal3Data.Metal3Machine (Metal3Data.Spec dataObject) with
  | Some ref => ObjectReference.Name ref
  | None => ""
  end.

(** Whether a Metal3Data points to the template called [templateName]
    (the two [continue]s at lines 118-123 are taken when it does not). *)
Definition pointsTo (templateName : string) (dataObject : Metal3Data.t) : bool :=
  match Metal3Data.DataTemplate (Metal3Data.Spec dataObject) with
  | None => false
  | Some ref => bool_decide (ObjectReference.Name ref = templateName)
  end.

(** One iteration of the loop of RecreateStatus (lines 115-133). *)
Definition recordData (templateName : string)
    (st : Metal3DataTemplate.Metal3DataTemplateStatus)
    (dataObject : Metal3Data.t) : Metal3DataTemplate.Metal3DataTemplateStatus :=
  if pointsTo templateName dataObject then
    let machineName := machineNameOf dataObject in
    Metal3DataTemplate.mkStatus
      (<[Itoa (Metal3Data.Index (Metal3Data.Spec dataObject)) := machineName]>
         (Indexes st))
      (<[machineName := Metal3Data.Name dataObject]> (DataNames st))
      (LastUpdated st)
  else st.

(** [RecreateStatus] (lines 94-137) *)
Definition RecreateStatus m : DataTemplateManager C * option error :=
  let m := setStatus
             (Metal3DataTemplate.mkStatus ∅ ∅
                (LastUpdated (Status (DataTemplate m)))) m in
  let '(m, r) := doList m (Metal3DataTemplate.Namespace (DataTemplate m)) in
  match r with
  | inl err => (m, Some err)
  | inr items =>
      let st := foldl (recordData (Metal3DataTemplate.Name (DataTemplate m)))
                      (Status (DataTemplate m)) items in
      (updateStatusTimestamp (setStatus st m), None)
  end.

(** [LastUpdated.IsZero()]: a nil pointer or the zero time. *)
Definition IsZero (t : option Time) : bool :=
  match t with None => true | Some t => Nat.eqb t 0 end.

(** [RecreateStatusConditionally] (lines 83-91) *)
Definition RecreateStatusConditionally m : DataTemplateManager C * option error :=
  if IsZero (LastUpdated (Status (DataTemplate m))) then RecreateStatus m
  else (m, None).

(** The owner-reference test shared by CreateDatas and DeleteDatas
    (lines 157-158 and 286-287, whose [continue] is taken when this is
    false). *)
Definition isMetal3Machine (ref : OwnerReference.t) (gv : GroupVersion.t) : bool :=
  bool_decide (OwnerReference.Kind ref = "Metal3Machine") &&
  bool_decide (GroupVersion.Group gv = GroupVersion.Group capm3_GroupVersion).

(** The Metal3Data built at lines 216-248. *)
Definition newMetal3Data (d : Metal3DataTemplate.t) (curOwnerRef : OwnerReference.t)
    (clusterName : string) (machineIndexInt : Z) (dataName : string) : Metal3Data.t :=
  Metal3Data.mk "Metal3Data" capm3_GroupVersion_String
    dataName (Metal3DataTemplate.Namespace d)
    {[ ClusterLabelName := clusterName ]}
    [ curOwnerRef;
      OwnerReference.mk (Metal3DataTemplate.APIVersion d)
        (Metal3DataTemplate.Kind d) (Metal3DataTemplate.Name d)
        (Metal3DataTemplate.UID d) (Some true) ]
    (Metal3Data.mkSpec machineIndexInt
       (Some (ObjectReference.mk (Metal3DataTemplate.Name d)
                (Metal3DataTemplate.Namespace d)))
       (Some (ObjectReference.mk (OwnerReference.Name curOwnerRef)
                (Metal3DataTemplate.Namespace d)))).

(** Lines 206-210: the status with the new index and name recorded. *)
Definition recordIndex (st : Metal3DataTemplate.Metal3DataTemplateStatus)
    (machineIndex ownerName dataName : string) :
    Metal3DataTemplate.Metal3DataTemplateStatus :=
  Metal3DataTemplate.mkStatus
    (<[machineIndex := ownerName]> (Indexes st))
    (<[ownerName := dataName]> (DataNames st))
    (LastUpdated st).

(** The body of the loop of CreateDatas (lines 150-263). *)
Definition CreateDatas_body (curOwnerRef : OwnerReference.t)
    (requeueNeeded : bool) m : DataTemplateManager C * Flow :=
  match ParseGroupVersion (OwnerReference.APIVersion curOwnerRef) with
  | inl err => (m, Return (ErrorString err))
  | inr curOwnerRefGV =>
    if negb (isMetal3Machine curOwnerRef curOwnerRefGV) then
      (m, Next requeueNeeded)
    else if bool_decide (is_Some (DataNames (Status (DataTemplate m))
                                    !! OwnerReference.Name curOwnerRef)) then
      (m, Next requeueNeeded)
    else
      let '(m, r) := doGetM3Machine m (OwnerReference.Name curOwnerRef)
                       (Metal3DataTemplate.Namespace (DataTemplate m)) in
      match r with
      | inl err => (m, Return err)
      | inr None => (m, Next requeueNeeded)
      | inr (Some m3Machine) =>
        match Metal3DataTemplate.Labels (DataTemplate m) !! ClusterLabelName with
        | None =>
            (m, Return (ErrorString
                          "No cluster name found on Metal3DataTemplate object"))
        | Some clusterName =>
          let machineIndexInt := nextIndex (Indexes (Status (DataTemplate m))) in
          let machineIndex := Itoa machineIndexInt in
          let dataName :=
            Metal3DataTemplate.Name (DataTemplate m) +:+ "-" +:+ machineIndex in
          let m := setStatus
                     (recordIndex (Status (DataTemplate m)) machineIndex
                        (OwnerReference.Name curOwnerRef) dataName) m in
          let dataObject :=
            newMetal3Data (DataTemplate m) curOwnerRef clusterName
              machineIndexInt dataName in
          let '(m, cerr) := doCreate m dataObject in
          match cerr with
          | Some err =>
              if HasRequeueAfterError err then
                let '(m, rerr) := RecreateStatus m in
                match rerr with
                | Some err => (m, Return err)
                | None => (m, Next true)
                end
              else (m, Return err)
          | None => (m, Next requeueNeeded)
          end
        end
      end
  end.

(** The loop of CreateDatas over the owner references (line 149). *)
Fixpoint CreateDatas_loop (refs : list OwnerReference.t) (requeueNeeded : bool)
    m : DataTemplateManager C * Flow :=
  match refs with
  | [] => (m, Next requeueNeeded)
  | curOwnerRef :: refs' =>
      match CreateDatas_body curOwnerRef requeueNeeded m with
      | (m, Next requeueNeeded) => CreateDatas_loop refs' requeueNeeded m
      | (m, Return err) => (m, Return err)
      end
  end.

(** [CreateDatas] (lines 145-270) *)
Definition CreateDatas m : DataTemplateManager C * option error :=
  match CreateDatas_loop
          (Metal3DataTemplate.OwnerReferences (DataTemplate m)) false m with
  | (m, Return err) => (m, Some err)
  | (m, Next requeueNeeded) =>
      let m := updateStatusTimestamp m in
      if requeueNeeded then (m, Some RequeueAfterError) else (m, None)
  end.

(** The inner loop of DeleteDatas (lines 277-296): [inr present], or the
    parse error it returns. *)
Fixpoint ownerPresent (refs : list OwnerReference.t) (machineName : string) :
    error + bool :=
  match refs with
  | [] => inr false
  | curOwnerRef :: refs' =>
      match ParseGroupVersion (OwnerReference.APIVersion curOwnerRef) with
      | inl err => inl (ErrorString err)
      | inr curOwnerRefGV =>
          if negb (isMetal3Machine curOwnerRef curOwnerRefGV) then
            ownerPresent refs' machineName
          else if bool_decide (machineName = OwnerReference.Name curOwnerRef) then
            inr true
          else ownerPresent refs' machineName
      end
  end.

(** Lines 322-327: the last index visited whose entry names the machine. *)
Definition findDeletionIndex (entries : list (string * string))
    (machineName : string) : string :=
  foldl (λ deletionIndex '(index, name),
           if bool_decide (name = machineName) then index else deletionIndex)
        "" entries.

(** Lines 322-329: the two entries of a machine leave the status. *)
Definition forgetMachine (st : Metal3DataTemplate.Metal3DataTemplateStatus)
    (machineName : string) : Metal3DataTemplate.Metal3DataTemplateStatus :=
  let deletionIndex := findDeletionIndex (range (Indexes st)) machineName in
  Metal3DataTemplate.mkStatus
    (delete deletionIndex (Indexes st))
    (delete machineName (DataNames st))
    (LastUpdated st).

(** The body of the loop of DeleteDatas (lines 277-330); [Some err] is
    [return err]. *)
Definition DeleteDatas_body (machineName dataName : string) m :
    DataTemplateManager C * option error :=
  match ownerPresent (Metal3DataTemplate.OwnerReferences (DataTemplate m))
          machineName with
  | inl err => (m, Some err)
  | inr true => (m, None)
  | inr false =>
      let key := ObjectKey.mk dataName
                   (Metal3DataTemplate.Namespace (DataTemplate m)) in
      let '(m, r) := doGet m key in
      let forget m := (setStatus (forgetMachine (Status (DataTemplate m))
                                    machineName) m, None) in
      match r with
      | inl err => if IsNotFound err then forget m else (m, Some err)
      | inr tmpM3Data =>
          let '(m, derr) := doDelete m tmpM3Data in
          match derr with
          | Some err => if IsNotFound err then forget m else (m, Some err)
          | None => forget m
          end
      end
  end.

(** The loop of DeleteDatas over the entries of [DataNames] (line 276).
    Only the entry being visited is ever deleted, so the entries visited
    are those the map had when the loop started. *)
Fixpoint DeleteDatas_loop (entries : list (string * string)) m :
    DataTemplateManager C * option error :=
  match entries with
  | [] => (m, None)
  | (machineName, dataName) :: entries' =>
      match DeleteDatas_body machineName dataName m with
      | (m, None) => DeleteDatas_loop entries' m
      | (m, Some err) => (m, Some err)
      end
  end.

(** [DeleteDatas] (lines 273-334) *)
Definition DeleteDatas m : DataTemplateManager C * option error :=
  match DeleteDatas_loop (range (DataNames (Status (DataTemplate m)))) m with
  | (m, Some err) => (m, Some err)
  | (m, None) => (updateStatusTimestamp m, None)
  end.

(** The loop of [DeleteReady] (lines 339-350). *)
Fixpoint DeleteReady_loop (refs : list OwnerReference.t) : bool * option error :=
  match refs with
  | [] => (true, None)
  | curOwnerRef :: refs' =>
      match ParseGroupVersion (OwnerReference.APIVersion curOwnerRef) with
      | inl err => (false, Some (ErrorString err))
      | inr curOwnerRefGV =>
          if bool_decide (OwnerReference.Kind curOwnerRef = "Metal3Machine") ||
             bool_decide (GroupVersion.Group curOwnerRefGV =
                          GroupVersion.Group capm3_GroupVersion)
          then (false, None)
          else DeleteReady_loop refs'
      end
  end.

(** [DeleteReady] (lines 338-353) *)
Definition DeleteReady m : bool * option error :=
  DeleteReady_loop (Metal3DataTemplate.OwnerReferences (DataTemplate m)).

End Manager.

(** ** Properties of the status record *)

(** The two maps name the same owners: the keys of [DataNames] are the
    values of [Indexes]. *)
Definition consistent (st : Metal3DataTemplate.Metal3DataTemplateStatus) : Prop :=
  dom (DataNames st) = (map_img (Indexes st) : gset string).

(** No owner holds two indexes. *)
Definition oneIndexPerOwner
    (st : Metal3DataTemplate.Metal3DataTemplateStatus) : Prop :=
  ∀ i j o, Indexes st !! i = Some o → Indexes st !! j = Some o → i = j.

(** The half of consistency that every pass keeps: the owners that hold an
    index have a name. *)
Definition indexedOwnersNamed
    (st : Metal3DataTemplate.Metal3DataTemplateStatus) : Prop :=
  ∀ i o, Indexes st !! i = Some o → is_Some (DataNames st !! o).

(** A result that is no hard error: nil, or a requeue error. *)
Definition noHardError (r : option error) : bool :=
  match r with None => true | Some err => HasRequeueAfterError err end.

(** Calls to the clock among [cs]. *)
Definition isCallNow (c : Call) : bool :=
  match c with CallNow => true | _ => false end.

Definition countNow (cs : list Call) : nat :=
  length (List.filter isCallNow cs).

(** ** Instances used to run the manager *)

(** [strings.Split(s, sep)] for a one-character separator. *)
Fixpoint splitOn (sep : ascii) (s : string) : list string :=
  match s with
  | EmptyString => [EmptyString]
  | String c s' =>
      if Ascii.eqb c sep then EmptyString :: splitOn sep s'
      else match splitOn sep s' with
           | [] => [String c EmptyString]
           | w :: ws => String c w :: ws
           end
  end.

(** The parser of k8s.io/apimachinery: no slash gives a version only, one
    slash a group and a version, more is an error. *)
Definition k8sParseGroupVersion : Schema := λ gv,
  if bool_decide (gv = "" ∨ gv = "/") then inr (GroupVersion.mk "" "")
  else match splitOn "/" gv with
       | [v] => inr (GroupVersion.mk "" v)
       | [g; v] => inr (GroupVersion.mk g v)
       | _ => inl ("unexpected GroupVersion string: " +:+ gv)
       end.

(** Visiting a map in the order of [map_to_list]. *)
Definition listOrder : MapRange :=
  {| range := map_to_list; range_perm := λ m, reflexivity (map_to_list m) |}.

(** An in-memory server in the manner of controller-runtime's fake client:
    the Metal3Data and Metal3Machine objects it holds, its clock, and an
    error to answer with for each kind of call, if any. *)
Record FakeClient := mkFake {
  fakeDatas : list Metal3Data.t;
  fakeMachines : list Metal3Machine.t;
  fakeClock : Time;
  failList : option error;
  failGet : option error;
  failDelete : option error;
  failCreate : option error }.

Definition dataNamed (name namespace : string) (d : Metal3Data.t) : bool :=
  bool_decide (Metal3Data.Name d = name) &&
  bool_decide (Metal3Data.Namespace d = namespace).

Definition machineNamed (name namespace : string) (x : Metal3Machine.t) : bool :=
  bool_decide (Metal3Machine.Name x = name) &&
  bool_decide (Metal3Machine.Namespace x = namespace).

Definition setFakeDatas (ds : list Metal3Data.t) (c : FakeClient) : FakeClient :=
  mkFake ds (fakeMachines c) (fakeClock c) (failList c) (failGet c)
    (failDelete c) (failCreate c).

Definition fakeList (c : FakeClient) (namespace : string) :
    FakeClient * (error + list Metal3Data.t) :=
  match failList c with
  | Some err => (c, inl err)
  | None =>
      (c, inr (List.filter
                 (λ d, bool_decide (Metal3Data.Namespace d = namespace))
                 (fakeDatas c)))
  end.

Definition fakeGet (c : FakeClient) (key : ObjectKey.t) :
    FakeClient * (error + Metal3Data.t) :=
  match failGet c with
  | Some err => (c, inl err)
  | None =>
      match List.find (dataNamed (ObjectKey.Name key) (ObjectKey.Namespace key))
                      (fakeDatas c) with
      | Some d => (c, inr d)
      | None => (c, inl (StatusNotFound (ObjectKey.Name key)))
      end
  end.

Definition fakeDelete (c : FakeClient) (obj : Metal3Data.t) :
    FakeClient * option error :=
  match failDelete c with
  | Some err => (c, Some err)
  | None =>
      let same := dataNamed (Metal3Data.Name obj) (Metal3Data.Namespace obj) in
      if existsb same (fakeDatas c) then
        (setFakeDatas (List.filter (λ d, negb (same d)) (fakeDatas c)) c, None)
      else (c, Some (StatusNotFound (Metal3Data.Name obj)))
  end.

(** Modelled from the spec: [createObject] is in another file of the
    package.  Creating an object whose identity is taken is the conflict,
    which the caller recognises as a [RequeueAfterError] (lines 250-254);
    otherwise the object is stored. *)
Definition fakeCreate (c : FakeClient) (obj : Metal3Data.t) :
    FakeClient * option error :=
  match failCreate c with
  | Some err => (c, Some err)
  | None =>
      if existsb (dataNamed (Metal3Data.Name obj) (Metal3Data.Namespace obj))
                 (fakeDatas c)
      then (c, Some RequeueAfterError)
      else (setFakeDatas (fakeDatas c ++ [obj]) c, None)
  end.

(** Modelled from the spec: [getM3Machine] is in another file of the
    package.  It resolves the owner to the machine of that name; a machine
    that is not found is no error, and no machine is returned. *)
Definition fakeGetM3Machine (c : FakeClient) (name namespace : string)
    (d : Metal3DataTemplate.t) : FakeClient * (error + option Metal3Machine.t) :=
  (c, inr (List.find (machineNamed name namespace) (fakeMachines c))).

Definition fakeNow (c : FakeClient) : FakeClient * Time :=
  (mkFake (fakeDatas c) (fakeMachines c) (S (fakeClock c)) (failList c)
     (failGet c) (failDelete c) (failCreate c),
   S (fakeClock c)).

Definition fakeClient : Client FakeClient :=
  {| client_List := fakeList;
     client_Get := fakeGet;
     client_Delete := fakeDelete;
     createObject := fakeCreate;
     getM3Machine := fakeGetM3Machine;
     metav1_Now := fakeNow |}.

(** *** Sample objects *)

Definition machineRef (name : string) : OwnerReference.t :=
  OwnerReference.mk capm3_GroupVersion_String "Metal3Machine" name
    ("uid-" +:+ name) None.

Definition sampleTemplate (labels : gmap string string)
    (refs : list OwnerReference.t)
    (st : Metal3DataTemplate.Metal3DataTemplateStatus) : Metal3DataTemplate.t :=
  Metal3DataTemplate.mk "Metal3DataTemplate" capm3_GroupVersion_String
    "tpl" "ns" "uid-tpl" labels refs st.

Definition clusterLabels : gmap string string :=
  {[ ClusterLabelName := "cluster" ]}.

Definition emptyStatus : Metal3DataTemplate.Metal3DataTemplateStatus :=
  Metal3DataTemplate.mkStatus ∅ ∅ None.

Definition sampleData (name : string) (index : Z) (template : string)
    (machine : option string) : Metal3Data.t :=
  Metal3Data.mk "Metal3Data" capm3_GroupVersion_String name "ns" ∅ []
    (Metal3Data.mkSpec index (Some (ObjectReference.mk template "ns"))
       ((λ n, ObjectReference.mk n "ns") <$> machine)).

Definition sampleServer (datas : list Metal3Data.t) (machines : list string) :
    FakeClient :=
  mkFake datas ((λ n, Metal3Machine.mk n "ns") <$> machines) 0%nat
    None None None None.

Definition sampleManager (c : FakeClient) (d : Metal3DataTemplate.t) :
    DataTemplateManager FakeClient :=
  mkManager c d [].

(** *** Worlds for the reconstruction *)

(** Two Metal3Data of the template [tpl] that name no machine. *)
Definition orphans : list Metal3Data.t :=
  [sampleData "tpl-0" 0 "tpl" None; sampleData "tpl-1" 1 "tpl" None].

Definition orphanManager : DataTemplateManager FakeClient :=
  sampleManager (sampleServer orphans [])
    (sampleTemplate clusterLabels [] emptyStatus).

(** One Metal3Data of [tpl] and one of another template. *)
Definition mixedDatas : list Metal3Data.t :=
  [sampleData "tpl-0" 0 "tpl" (Some "m1");
   sampleData "other-0" 0 "other" (Some "m9")].

Definition mixedManager : DataTemplateManager FakeClient :=
  sampleManager (sampleServer mixedDatas [])
    (sampleTemplate clusterLabels [] emptyStatus).

(** *** Worlds for the creation pass *)

(** A template whose only owner, [m1], has its entries. *)
Definition provisionedManager : DataTemplateManager FakeClient :=
  sampleManager
    (sampleServer [sampleData "tpl-0" 0 "tpl" (Some "m1")] ["m1"])
    (sampleTemplate clusterLabels [machineRef "m1"]
       (Metal3DataTemplate.mkStatus {[ "0" := "m1" ]} {[ "m1" := "tpl-0" ]}
          (Some 7%nat))).

(** A server on which every create call fails with a plain error. *)
Definition createFailsManager : DataTemplateManager FakeClient :=
  sampleManager
    (mkFake [] [Metal3Machine.mk "m1" "ns"] 0%nat None None None
       (Some (ErrorString "create failed")))
    (sampleTemplate clusterLabels [machineRef "m1"] emptyStatus).

(** A server that already holds [tpl-0], made for a machine [m0] the
    status knows nothing about: creating [tpl-0] for [m1] is a conflict. *)
Definition conflictManager : DataTemplateManager FakeClient :=
  sampleManager
    (sampleServer [sampleData "tpl-0" 0 "tpl" (Some "m0")] ["m1"; "m2"])
    (sampleTemplate clusterLabels [machineRef "m1"; machineRef "m2"]
       emptyStatus).

(** The same, on a server whose listing fails. *)
Definition conflictListFailsManager : DataTemplateManager FakeClient :=
  sampleManager
    (mkFake [sampleData "tpl-0" 0 "tpl" (Some "m0")]
       [Metal3Machine.mk "m1" "ns"; Metal3Machine.mk "m2" "ns"] 0%nat
       (Some (ErrorString "list failed")) None None None)
    (sampleTemplate clusterLabels [machineRef "m1"; machineRef "m2"]
       emptyStatus).

(** The Metal3Data that CreateDatas builds for [m1] at index 0 of [tpl]. *)
Definition firstData : Metal3Data.t :=
  newMetal3Data (sampleTemplate clusterLabels [] emptyStatus)
    (machineRef "m1") "cluster" 0 "tpl-0".

(** *** Worlds for the deletion pass *)

(** The status still names [m1], which owns the template no more, and the
    server no longer holds [tpl-0]: the fetch answers not found. *)
Definition goneManager : DataTemplateManager FakeClient :=
  sampleManager (sampleServer [] [])
    (sampleTemplate clusterLabels []
       (Metal3DataTemplate.mkStatus {[ "0" := "m1" ]} {[ "m1" := "tpl-0" ]}
          (Some 7%nat))).

(** The server holds [tpl-0] when it is fetched, and answers not found to
    the delete. *)
Definition raceManager : DataTemplateManager FakeClient :=
  sampleManager
    (mkFake [sampleData "tpl-0" 0 "tpl" (Some "m1")] [] 0%nat
       None None (Some (StatusNotFound "tpl-0")) None)
    (sampleTemplate clusterLabels []
       (Metal3DataTemplate.mkStatus {[ "0" := "m1" ]} {[ "m1" := "tpl-0" ]}
          (Some 7%nat))).

(** *** Worlds for the consistency of the maps *)

(** A server holding two Metal3Data of [tpl] with the same index, made for
    two machines [a] and [b]; the template is owned by [m1] and its status
    is empty. *)
Definition sharedIndexManager : DataTemplateManager FakeClient :=
  sampleManager
    (sampleServer [sampleData "tpl-0" 0 "tpl" (Some "a");
                   sampleData "tpl-x" 0 "tpl" (Some "b")] ["m1"])
    (sampleTemplate clusterLabels [machineRef "m1"] emptyStatus).

(** A status in which [m1] holds the indexes 0 and 1, on a template that
    [m1] no longer owns. *)
Definition twoIndexesManager : DataTemplateManager FakeClient :=
  sampleManager
    (sampleServer [sampleData "tpl-1" 1 "tpl" (Some "m1")] [])
    (sampleTemplate clusterLabels []
       (Metal3DataTemplate.mkStatus {[ "0" := "m1"; "1" := "m1" ]}
          {[ "m1" := "tpl-1" ]} (Some 7%nat))).

(** *** Worlds for the deletion readiness and the end-to-end run *)

(** An owner reference of the group that is not a Metal3Machine. *)
Definition clusterRef : OwnerReference.t :=
  OwnerReference.mk capm3_GroupVersion_String "Metal3Cluster" "c" "uid-c" None.

Definition clusterOwnedManager : DataTemplateManager FakeClient :=
  sampleManager (sampleServer [] [])
    (sampleTemplate clusterLabels [clusterRef] emptyStatus).

(** The template [tpl] owned by [m1] and [m2], with the cluster label and
    an empty status, on a server that knows both machines and holds no
    Metal3Data. *)
Definition endToEndManager : DataTemplateManager FakeClient :=
  sampleManager (sampleServer [] ["m1"; "m2"])
    (sampleTemplate clusterLabels [machineRef "m1"; machineRef "m2"]
       emptyStatus).

(** The same without the cluster label. *)
Definition unlabelledManager : DataTemplateManager FakeClient :=
  sampleManager (sampleServer [] ["m1"; "m2"])
    (sampleTemplate ∅ [machineRef "m1"; machineRef "m2"] emptyStatus).

(** The manager after the owner references of its template are replaced. *)
Definition withOwnerReferences {C : Type} (refs : list OwnerReference.t)
    (m : DataTemplateManager C) : DataTemplateManager C :=
  mkManager (client m)
    (Metal3DataTemplate.setOwnerReferences refs (DataTemplate m)) (calls m).

(** The end-to-end manager after its creation pass, with [m1] removed from
    the owner references, on a server whose Get fails. *)
Definition afterCreation : DataTemplateManager FakeClient :=
  (@CreateDatas k8sParseGroupVersion FakeClient fakeClient endToEndManager).1.

Definition getFailsManager : DataTemplateManager FakeClient :=
  mkManager
    (mkFake (fakeDatas (client afterCreation))
       (fakeMachines (client afterCreation))
       (fakeClock (client afterCreation))
       None (Some (ErrorString "get failed")) None None)
    (Metal3DataTemplate.setOwnerReferences [machineRef "m2"]
       (DataTemplate afterCreation))
    (calls afterCreation).

(** ** Further properties of calls, statuses and owner references *)

(** Calls that fetch or delete a Metal3Data. *)
Definition isCallGetOrDelete (c : Call) : bool :=
  match c with CallGet _ | CallDelete _ => true | _ => false end.

(** Every name in [DataNames] is the template name followed by the index
    under which [Indexes] records its owner. *)
Definition namesFollowIndexes (templateName : string)
    (st : Metal3DataTemplate.Metal3DataTemplateStatus) : Prop :=
  ∀ o n, DataNames st !! o = Some n →
    ∃ i, 0 ≤ i ∧ n = templateName +:+ "-" +:+ Itoa i ∧
         Indexes st !! Itoa i = Some o.

(** What makes DeleteReady answer false for a reference. *)
Definition blocksDeletion (ref : OwnerReference.t) (gv : GroupVersion.t) : bool :=
  bool_decide (OwnerReference.Kind ref = "Metal3Machine") ||
  bool_decide (GroupVersion.Group gv = GroupVersion.Group capm3_GroupVersion).

(** *** A world for the template without member *)

(** An owner reference that is neither a Metal3Machine nor of the group. *)
Definition capiClusterRef : OwnerReference.t :=
  OwnerReference.mk "cluster.x-k8s.io/v1alpha3" "Cluster" "c" "uid-c" None.

(** The template owned by that cluster only, whose status still names
    [m1]; the server holds [tpl-0]. *)
Definition capiOwnedManager : DataTemplateManager FakeClient :=
  sampleManager
    (sampleServer [sampleData "tpl-0" 0 "tpl" (Some "m1")] [])
    (sampleTemplate clusterLabels [capiClusterRef]
       (Metal3DataTemplate.mkStatus {[ "0" := "m1" ]} {[ "m1" := "tpl-0" ]}
          (Some 7%nat))).

(** * Theorems *)

(** ** Index allocation *)

Section Allocator.
Implicit Types (indexes : gmap string string) (i j : Z).

Global Instance Itoa_inj : Inj (=) (=) Itoa.
Proof. unfold Itoa. apply _. Qed.

(** What [findGap] returns when started with the default still in place:
    either the first free index of the range it walks, or the default when
    every index of that range is taken. *)
Lemma findGap_spec indexes steps index :
  let r := findGap indexes steps index (len indexes) in
  (index ≤ r < index + Z.of_nat steps ∧ indexes !! Itoa r = None ∧
   ∀ j, index ≤ j < r → is_Some (indexes !! Itoa j)) ∨
  (r = len indexes ∧
   ∀ j, index ≤ j < index + Z.of_nat steps → is_Some (indexes !! Itoa j)).
Proof.
  revert index. induction steps as [|steps IH]; intros index; simpl.
  - right. split; [done | intros; lia].
  - case_bool_decide as Htaken.
    + destruct (IH (index + 1)) as [(Hr & Hn & Hlow) | [Hr Hall]].
      * left. split; [lia |]. split; [done |]. intros j Hj.
        destruct (decide (j = index)) as [-> | Hne]; [done |].
        apply Hlow. lia.
      * right. split; [done |]. intros j Hj.
        destruct (decide (j = index)) as [-> | Hne]; [done |].
        apply Hall. lia.
    + rewrite Z.eqb_refl. left. split; [lia |]. split; [| intros; lia].
      by apply eq_None_not_Some.
Qed.

(** All of [Itoa 0 .. Itoa (n-1)] being keys of a map with [n] entries
    leaves no room for any other key. *)
Lemma full_prefix_excludes indexes :
  (∀ j, 0 ≤ j < len indexes → is_Some (indexes !! Itoa j)) →
  indexes !! Itoa (len indexes) = None.
Proof.
  intros Hall.
  set (prefix := list_to_set (Itoa ∘ Z.of_nat <$> seq 0 (size indexes))
                 : gset string).
  assert (Hsub : prefix ⊆ dom indexes).
  { intros k. unfold prefix. rewrite elem_of_list_to_set, list_elem_of_fmap.
    intros (n & -> & Hn). apply elem_of_seq in Hn. simpl.
    apply elem_of_dom, Hall. unfold len. lia. }
  assert (Hsize : size prefix = size indexes).
  { unfold prefix. rewrite size_list_to_set.
    - by rewrite length_fmap, length_seq.
    - apply NoDup_fmap_2; [| apply NoDup_seq].
      intros a b Hab. simpl in Hab. apply (inj Itoa) in Hab. lia. }
  assert (Heq : prefix = dom indexes).
  { apply set_subseteq_size_eq; [done |]. rewrite size_dom. lia. }
  apply not_elem_of_dom. rewrite <- Heq. unfold prefix.
  rewrite elem_of_list_to_set, list_elem_of_fmap.
  intros (n & Hn & Hin). apply elem_of_seq in Hin. simpl in Hn.
  apply (inj Itoa) in Hn. unfold len in Hn. lia.
Qed.

Lemma nextIndex_range indexes : 0 ≤ nextIndex indexes ≤ len indexes.
Proof.
  unfold nextIndex.
  destruct (findGap_spec indexes (size indexes) 0) as [(? & _) | [-> _]];
    unfold len in *; lia.
Qed.

Lemma nextIndex_free indexes : indexes !! Itoa (nextIndex indexes) = None.
Proof.
  unfold nextIndex.
  destruct (findGap_spec indexes (size indexes) 0) as [(_ & ? & _) | [-> Hall]];
    [done |].
  apply full_prefix_excludes. intros j Hj. apply Hall. unfold len in *. lia.
Qed.

Lemma nextIndex_below indexes j :
  0 ≤ j < nextIndex indexes → is_Some (indexes !! Itoa j).
Proof.
  unfold nextIndex. intros Hj.
  destruct (findGap_spec indexes (size indexes) 0)
    as [(_ & _ & Hlow) | [Hr Hall]].
  - by apply Hlow.
  - apply Hall. rewrite Hr in Hj. unfold len in *. lia.
Qed.


(** C1. The index chosen by CreateDatas (lines 194-204) is the lowest
    non-negative integer whose decimal string is not a key of [Indexes]: it
    is free, everything below it is taken, and it is at most the size [n]
    of the map, so it is the smallest gap in 0..n-1 when there is one and
    [n] otherwise.  With entries 0, 1 and 3 it is 2; with 0, 1 and 2 it
    is 3. *)
Theorem C1_lowest_free_index :
  (∀ indexes,
     0 ≤ nextIndex indexes ≤ len indexes ∧
     indexes !! Itoa (nextIndex indexes) = None ∧
     (∀ j, 0 ≤ j < nextIndex indexes → is_Some (indexes !! Itoa j)) ∧
     (∀ i, 0 ≤ i → indexes !! Itoa i = None → nextIndex indexes ≤ i) ∧
     (nextIndex indexes = len indexes ↔
      ∀ j, 0 ≤ j < len indexes → is_Some (indexes !! Itoa j))) ∧
  (∀ a b c : string,
     nextIndex (<["0" := a]> (<["1" := b]> (<["3" := c]> ∅))) = 2) ∧
  (∀ a b c : string,
     nextIndex (<["0" := a]> (<["1" := b]> (<["2" := c]> ∅))) = 3).
Proof.
  split; [| split; intros a b c; reflexivity].
  intros indexes.
  pose proof (nextIndex_range indexes) as Hrange.
  pose proof (nextIndex_free indexes) as Hfree.
  pose proof (nextIndex_below indexes) as Hbelow.
  split; [done |]. split; [done |]. split; [done |]. split.
  - intros i Hi Hnone.
    destruct (Z_le_gt_dec (nextIndex indexes) i) as [Hle | Hgt]; [done |].
    destruct (Hbelow i) as [x Hx]; [lia | congruence].
  - split.
    + intros Heq j Hj. apply Hbelow. lia.
    + intros Hall.
      destruct (Z_le_gt_dec (len indexes) (nextIndex indexes)); [lia |].
      destruct (Hall (nextIndex indexes)) as [x Hx]; [lia | congruence].
Qed.

End Allocator.

(** ** Reconstruction of the status *)

Section Reconstruction.
Context `{Schema} `{MapRange} {C : Type} `{Client C}.
Implicit Types (m : DataTemplateManager C) (d : Metal3Data.t)
  (st : Metal3DataTemplate.Metal3DataTemplateStatus).

Lemma recordData_LastUpdated n st d :
  LastUpdated (recordData n st d) = LastUpdated st.
Proof. unfold recordData. by destruct (pointsTo n d). Qed.

Lemma foldl_recordData_LastUpdated n items st :
  LastUpdated (foldl (recordData n) st items) = LastUpdated st.
Proof.
  revert st. induction items as [|d items IH]; intros st; simpl; [done |].
  by rewrite IH, recordData_LastUpdated.
Qed.

(** The maps built by the loop do not depend on the timestamp carried
    along. *)
Lemma foldl_recordData_maps n items st st' :
  Indexes st = Indexes st' → DataNames st = DataNames st' →
  Indexes (foldl (recordData n) st items) =
    Indexes (foldl (recordData n) st' items) ∧
  DataNames (foldl (recordData n) st items) =
    DataNames (foldl (recordData n) st' items).
Proof.
  revert st st'. induction items as [|d items IH]; intros st st' Hi Hd; simpl;
    [done |].
  apply IH; unfold recordData; destruct (pointsTo n d); simpl; congruence.
Qed.

(** Entries survive the rest of the loop unless a later object writes the
    same key. *)
Lemma foldl_recordData_Indexes_keep n items st k o :
  Indexes st !! k = Some o →
  (∀ d, d ∈ items → pointsTo n d = true →
        Itoa (Metal3Data.Index (Metal3Data.Spec d)) ≠ k) →
  Indexes (foldl (recordData n) st items) !! k = Some o.
Proof.
  revert st. induction items as [|d items IH]; intros st Hk Hne; simpl;
    [done |].
  apply IH.
  - unfold recordData. destruct (pointsTo n d) eqn:Hp; [| done]. simpl.
    rewrite lookup_insert_ne; [done |]. apply Hne; [left | done].
  - intros d' Hd'. apply Hne. by right.
Qed.

Lemma foldl_recordData_DataNames_keep n items st k o :
  DataNames st !! k = Some o →
  (∀ d, d ∈ items → pointsTo n d = true → machineNameOf d ≠ k) →
  DataNames (foldl (recordData n) st items) !! k = Some o.
Proof.
  revert st. induction items as [|d items IH]; intros st Hk Hne; simpl;
    [done |].
  apply IH.
  - unfold recordData. destruct (pointsTo n d) eqn:Hp; [| done]. simpl.
    rewrite lookup_insert_ne; [done |]. apply Hne; [left | done].
  - intros d' Hd'. apply Hne. by right.
Qed.

(** Keys are never removed by the loop. *)
Lemma foldl_recordData_Indexes_mono n items st k :
  is_Some (Indexes st !! k) →
  is_Some (Indexes (foldl (recordData n) st items) !! k).
Proof.
  revert st. induction items as [|d items IH]; intros st Hk; simpl; [done |].
  apply IH. unfold recordData. destruct (pointsTo n d); [| done]. simpl.
  rewrite lookup_insert_is_Some'. by right.
Qed.

Lemma foldl_recordData_DataNames_mono n items st k :
  is_Some (DataNames st !! k) →
  is_Some (DataNames (foldl (recordData n) st items) !! k).
Proof.
  revert st. induction items as [|d items IH]; intros st Hk; simpl; [done |].
  apply IH. unfold recordData. destruct (pointsTo n d); [| done]. simpl.
  rewrite lookup_insert_is_Some'. by right.
Qed.

(** Every entry the loop leaves was there before or was written for one of
    the objects that point to the template. *)
Lemma foldl_recordData_Indexes_origin n items st k o :
  Indexes (foldl (recordData n) st items) !! k = Some o →
  Indexes st !! k = Some o ∨
  ∃ d, d ∈ items ∧ pointsTo n d = true ∧
       k = Itoa (Metal3Data.Index (Metal3Data.Spec d)) ∧ o = machineNameOf d.
Proof.
  revert st. induction items as [|d items IH]; intros st Hk; simpl in *;
    [by left |].
  destruct (IH _ Hk) as [Hst | (d' & Hin & Hp & -> & ->)].
  - unfold recordData in Hst. destruct (pointsTo n d) eqn:Hp; [| by left].
    simpl in Hst. apply lookup_insert_Some in Hst as [[<- <-] | [_ Hst]].
    + right. exists d. split; [left | done].
    + by left.
  - right. exists d'. split; [by right | done].
Qed.

Lemma foldl_recordData_DataNames_origin n items st k o :
  DataNames (foldl (recordData n) st items) !! k = Some o →
  DataNames st !! k = Some o ∨
  ∃ d, d ∈ items ∧ pointsTo n d = true ∧
       k = machineNameOf d ∧ o = Metal3Data.Name d.
Proof.
  revert st. induction items as [|d items IH]; intros st Hk; simpl in *;
    [by left |].
  destruct (IH _ Hk) as [Hst | (d' & Hin & Hp & -> & ->)].
  - unfold recordData in Hst. destruct (pointsTo n d) eqn:Hp; [| by left].
    simpl in Hst. apply lookup_insert_Some in Hst as [[<- <-] | [_ Hst]].
    + right. exists d. split; [left | done].
    + by left.
  - right. exists d'. split; [by right | done].
Qed.

(** Every value of the rebuilt [Indexes] is a key of the rebuilt
    [DataNames]. *)
Lemma foldl_recordData_img_dom n items st :
  (∀ k o, Indexes st !! k = Some o → is_Some (DataNames st !! o)) →
  ∀ k o, Indexes (foldl (recordData n) st items) !! k = Some o →
         is_Some (DataNames (foldl (recordData n) st items) !! o).
Proof.
  revert st. induction items as [|d items IH]; intros st Hst; simpl; [done |].
  apply IH. intros k o. unfold recordData.
  destruct (pointsTo n d); [| apply Hst]. simpl.
  rewrite lookup_insert_Some, lookup_insert_is_Some'.
  intros [[_ <-] | [_ Hk]]; [by left | right; eauto].
Qed.

(** RecreateStatus, case by case on what the listing answers. *)
Lemma RecreateStatus_listed m c items :
  client_List (client m) (Metal3DataTemplate.Namespace (DataTemplate m))
    = (c, inr items) →
  RecreateStatus m =
    (let st := foldl (recordData (Metal3DataTemplate.Name (DataTemplate m)))
                 (Metal3DataTemplate.mkStatus ∅ ∅
                    (LastUpdated (Status (DataTemplate m)))) items in
     mkManager (metav1_Now c).1
       (Metal3DataTemplate.setStatus
          (Metal3DataTemplate.mkStatus (Indexes st) (DataNames st)
             (Some (metav1_Now c).2))
          (DataTemplate m))
       (CallNow ::
        CallList (Metal3DataTemplate.Namespace (DataTemplate m)) :: calls m),
     None).
Proof.
  intros Hlist. unfold RecreateStatus, doList, updateStatusTimestamp. simpl.
  rewrite Hlist. simpl. by destruct (metav1_Now c).
Qed.

Lemma RecreateStatus_failed m c err :
  client_List (client m) (Metal3DataTemplate.Namespace (DataTemplate m))
    = (c, inl err) →
  RecreateStatus m =
    (mkManager c
       (Metal3DataTemplate.setStatus
          (Metal3DataTemplate.mkStatus ∅ ∅
             (LastUpdated (Status (DataTemplate m))))
          (DataTemplate m))
       (CallList (Metal3DataTemplate.Namespace (DataTemplate m)) :: calls m),
     Some err).
Proof.
  intros Hlist. unfold RecreateStatus, doList. simpl. by rewrite Hlist.
Qed.

(** RecreateStatus touches nothing of the template but its status. *)
Lemma RecreateStatus_template m :
  Metal3DataTemplate.setStatus (Status (DataTemplate m))
    (DataTemplate (RecreateStatus m).1) = DataTemplate m.
Proof.
  destruct (client_List (client m)
              (Metal3DataTemplate.Namespace (DataTemplate m)))
    as [c [err | items]] eqn:Hlist.
  - rewrite (RecreateStatus_failed _ _ _ Hlist). simpl.
    by destruct (DataTemplate m).
  - rewrite (RecreateStatus_listed _ _ _ Hlist). simpl.
    by destruct (DataTemplate m).
Qed.

Lemma RecreateStatus_Name m :
  Metal3DataTemplate.Name (DataTemplate (RecreateStatus m).1) =
  Metal3DataTemplate.Name (DataTemplate m).
Proof.
  pose proof (RecreateStatus_template m) as E.
  destruct (DataTemplate (RecreateStatus m).1). by rewrite <- E.
Qed.

Lemma RecreateStatus_Namespace m :
  Metal3DataTemplate.Namespace (DataTemplate (RecreateStatus m).1) =
  Metal3DataTemplate.Namespace (DataTemplate m).
Proof.
  pose proof (RecreateStatus_template m) as E.
  destruct (DataTemplate (RecreateStatus m).1). by rewrite <- E.
Qed.

(** What a run leaves depends on the previous status in no way: the maps
    and the error are a function of what the listing answers. *)
Lemma RecreateStatus_outcome m :
  let name := Metal3DataTemplate.Name (DataTemplate m) in
  let r := (client_List (client m)
              (Metal3DataTemplate.Namespace (DataTemplate m))).2 in
  let st' := Status (DataTemplate (RecreateStatus m).1) in
  Indexes st' =
    match r with
    | inl _ => ∅
    | inr items => Indexes (foldl (recordData name) emptyStatus items)
    end ∧
  DataNames st' =
    match r with
    | inl _ => ∅
    | inr items => DataNames (foldl (recordData name) emptyStatus items)
    end ∧
  (RecreateStatus m).2 =
    match r with inl err => Some err | inr _ => None end.
Proof.
  intros name r st'. subst r st'.
  destruct (client_List (client m)
              (Metal3DataTemplate.Namespace (DataTemplate m)))
    as [c [err | items]] eqn:Hlist.
  - by rewrite (RecreateStatus_failed _ _ _ Hlist).
  - rewrite (RecreateStatus_listed _ _ _ Hlist). simpl.
    split_and!; [| | done]; by apply foldl_recordData_maps.
Qed.

(** With a timestamp set, the conditional reconstruction does nothing;
    without one it is the reconstruction. *)
Lemma RecreateStatusConditionally_cases m :
  RecreateStatusConditionally m =
    match LastUpdated (Status (DataTemplate m)) with
    | Some (S _) => (m, None)
    | _ => RecreateStatus m
    end.
Proof.
  unfold RecreateStatusConditionally, IsZero.
  by destruct (LastUpdated (Status (DataTemplate m))) as [[|t] |].
Qed.

(** C5 (amended). When the listing succeeds, RecreateStatus rebuilds the
    status from the Metal3Data objects listed that point to this template,
    written in listing order: for each of them the key [Itoa index] is in
    [Indexes] and the owner name (the empty string when the object names no
    Metal3Machine) is in [DataNames]; the entry read back for a key is the
    one of the last such object listed with that index, respectively with
    that owner name; every entry comes from such an object; and the
    timestamp is set by one reading of the clock made after the listing. *)
Theorem C5_RecreateStatus_rebuilds m c items :
  client_List (client m) (Metal3DataTemplate.Namespace (DataTemplate m))
    = (c, inr items) →
  let name := Metal3DataTemplate.Name (DataTemplate m) in
  let m' := (RecreateStatus m).1 in
  let st' := Status (DataTemplate m') in
  (RecreateStatus m).2 = None ∧
  (∀ d, Metal3Data.Metal3Machine (Metal3Data.Spec d) = None →
        machineNameOf d = "") ∧
  (∀ d, d ∈ items → pointsTo name d = true →
        is_Some (Indexes st' !! Itoa (Metal3Data.Index (Metal3Data.Spec d))) ∧
        is_Some (DataNames st' !! machineNameOf d)) ∧
  (∀ l1 d l2, items = l1 ++ d :: l2 → pointsTo name d = true →
     ((∀ d', d' ∈ l2 → pointsTo name d' = true →
             Metal3Data.Index (Metal3Data.Spec d') ≠
             Metal3Data.Index (Metal3Data.Spec d)) →
      Indexes st' !! Itoa (Metal3Data.Index (Metal3Data.Spec d))
        = Some (machineNameOf d)) ∧
     ((∀ d', d' ∈ l2 → pointsTo name d' = true →
             machineNameOf d' ≠ machineNameOf d) →
      DataNames st' !! machineNameOf d = Some (Metal3Data.Name d))) ∧
  (∀ k o, Indexes st' !! k = Some o →
     ∃ d, d ∈ items ∧ pointsTo name d = true ∧
          k = Itoa (Metal3Data.Index (Metal3Data.Spec d)) ∧
          o = machineNameOf d) ∧
  (∀ o n, DataNames st' !! o = Some n →
     ∃ d, d ∈ items ∧ pointsTo name d = true ∧
          o = machineNameOf d ∧ n = Metal3Data.Name d) ∧
  LastUpdated st' = Some (metav1_Now c).2 ∧
  calls m' =
    CallNow :: CallList (Metal3DataTemplate.Namespace (DataTemplate m))
            :: calls m.
Proof.
  intros Hlist name m' st'. subst m' st'.
  rewrite (RecreateStatus_listed _ _ _ Hlist). simpl. fold name.
  set (st0 := Metal3DataTemplate.mkStatus ∅ ∅
                (LastUpdated (Status (DataTemplate m)))).
  assert (Hlast : ∀ l1 d l2 st, pointsTo name d = true →
    let st1 := foldl (recordData name) st (l1 ++ d :: l2) in
    ((∀ d', d' ∈ l2 → pointsTo name d' = true →
            Metal3Data.Index (Metal3Data.Spec d') ≠
            Metal3Data.Index (Metal3Data.Spec d)) →
     Indexes st1 !! Itoa (Metal3Data.Index (Metal3Data.Spec d))
       = Some (machineNameOf d)) ∧
    ((∀ d', d' ∈ l2 → pointsTo name d' = true →
            machineNameOf d' ≠ machineNameOf d) →
     DataNames st1 !! machineNameOf d = Some (Metal3Data.Name d))).
  { intros l1 d l2 st Hp st1. subst st1. rewrite foldl_app. simpl.
    set (st2 := foldl (recordData name) st l1).
    assert (Hrec : recordData name st2 d =
      Metal3DataTemplate.mkStatus
        (<[Itoa (Metal3Data.Index (Metal3Data.Spec d)) := machineNameOf d]>
           (Indexes st2))
        (<[machineNameOf d := Metal3Data.Name d]> (DataNames st2))
        (LastUpdated st2)).
    { unfold recordData. by rewrite Hp. }
    rewrite Hrec. split; intros Hne.
    - apply foldl_recordData_Indexes_keep; simpl.
      + apply lookup_insert_eq.
      + intros d' Hd' Hp' Heq. apply (inj Itoa) in Heq. by eapply Hne.
    - apply foldl_recordData_DataNames_keep; simpl.
      + apply lookup_insert_eq.
      + intros d' Hd' Hp'. by apply Hne. }
  split; [done |]. split.
  { intros d Hd. unfold machineNameOf. by rewrite Hd. }
  split.
  { intros d Hd Hp. apply list_elem_of_split in Hd as (l1 & l2 & ->).
    rewrite foldl_app. simpl.
    assert (Hrec : recordData name (foldl (recordData name) st0 l1) d =
      Metal3DataTemplate.mkStatus
        (<[Itoa (Metal3Data.Index (Metal3Data.Spec d)) := machineNameOf d]>
           (Indexes (foldl (recordData name) st0 l1)))
        (<[machineNameOf d := Metal3Data.Name d]>
           (DataNames (foldl (recordData name) st0 l1)))
        (LastUpdated (foldl (recordData name) st0 l1))).
    { unfold recordData. by rewrite Hp. }
    rewrite Hrec. split.
    - apply foldl_recordData_Indexes_mono. simpl.
      rewrite lookup_insert_eq. eauto.
    - apply foldl_recordData_DataNames_mono. simpl.
      rewrite lookup_insert_eq. eauto. }
  split.
  { intros l1 d l2 -> Hp. by apply Hlast. }
  split.
  { intros k o Hk.
    apply foldl_recordData_Indexes_origin in Hk as [Hk | Hk]; [| done].
    simpl in Hk. by rewrite lookup_empty in Hk. }
  split; [| done].
  intros o n Hk.
  apply foldl_recordData_DataNames_origin in Hk as [Hk | Hk]; [| done].
  simpl in Hk. by rewrite lookup_empty in Hk.
Qed.

(** C7. RecreateStatus is idempotent: when the second listing answers what
    the first one answered, a second run leaves the same [Indexes] and
    [DataNames] (and returns what the first run returned). *)
Theorem C7_RecreateStatus_idempotent m :
  let namespace := Metal3DataTemplate.Namespace (DataTemplate m) in
  let m1 := (RecreateStatus m).1 in
  let m2 := (RecreateStatus m1).1 in
  (client_List (client m1) namespace).2 =
    (client_List (client m) namespace).2 →
  Indexes (Status (DataTemplate m2)) = Indexes (Status (DataTemplate m1)) ∧
  DataNames (Status (DataTemplate m2)) = DataNames (Status (DataTemplate m1)) ∧
  (RecreateStatus m1).2 = (RecreateStatus m).2.
Proof.
  intros namespace m1 m2 Hsame. subst m2.
  assert (Hns : Metal3DataTemplate.Namespace (DataTemplate m1) = namespace).
  { apply RecreateStatus_Namespace. }
  assert (Hname : Metal3DataTemplate.Name (DataTemplate m1) =
                  Metal3DataTemplate.Name (DataTemplate m)).
  { apply RecreateStatus_Name. }
  destruct (RecreateStatus_outcome m1) as (Hi1 & Hd1 & Hr1).
  destruct (RecreateStatus_outcome m) as (Hi & Hd & Hr).
  fold m1 in Hi, Hd. fold namespace in Hi, Hd, Hr.
  rewrite Hns, Hname, Hsame in Hi1, Hd1. rewrite Hns, Hsame in Hr1.
  rewrite Hi1, Hd1, Hr1, Hi, Hd, Hr. done.
Qed.

End Reconstruction.

Section ReconstructionExamples.
Local Existing Instance fakeClient.

Lemma C5_RecreateStatus_rebuilds_witness :
  client_List (client mixedManager) "ns" = (client mixedManager, inr mixedDatas) ∧
  (RecreateStatus mixedManager).2 = None ∧
  LastUpdated (Status (DataTemplate (RecreateStatus mixedManager).1))
    = Some 1%nat.
Proof.
  assert (Hlist : client_List (client mixedManager)
            (Metal3DataTemplate.Namespace (DataTemplate mixedManager))
          = (client mixedManager, inr mixedDatas)) by reflexivity.
  split; [exact Hlist |].
  destruct (C5_RecreateStatus_rebuilds mixedManager _ _ Hlist)
    as (Hr & _ & _ & _ & _ & _ & Ht & _).
  split; [exact Hr | exact Ht].
Defined.

(** C5 as stated fails when two objects of the template share an owner
    name: of two objects that name no machine, both listed and both
    pointing to the template, only the second is the one [DataNames]
    records under the empty name. *)
Lemma C5_counterexample :
  client_List (client orphanManager) "ns" = (client orphanManager, inr orphans) ∧
  ¬ (∀ d, d ∈ orphans → pointsTo "tpl" d = true →
          Indexes (Status (DataTemplate (RecreateStatus orphanManager).1))
            !! Itoa (Metal3Data.Index (Metal3Data.Spec d))
            = Some (machineNameOf d) ∧
          DataNames (Status (DataTemplate (RecreateStatus orphanManager).1))
            !! machineNameOf d = Some (Metal3Data.Name d)).
Proof.
  split; [reflexivity |]. intros Hall.
  destruct (Hall (sampleData "tpl-0" 0 "tpl" None)) as [_ Hname];
    [left | reflexivity |].
  vm_compute in Hname. discriminate.
Qed.

Lemma C7_RecreateStatus_idempotent_witness :
  (client_List (client (RecreateStatus mixedManager).1) "ns").2
    = (client_List (client mixedManager) "ns").2 ∧
  Indexes (Status (DataTemplate
                     (RecreateStatus (RecreateStatus mixedManager).1).1))
    = Indexes (Status (DataTemplate (RecreateStatus mixedManager).1)) ∧
  DataNames (Status (DataTemplate
                       (RecreateStatus (RecreateStatus mixedManager).1).1))
    = DataNames (Status (DataTemplate (RecreateStatus mixedManager).1)) ∧
  (RecreateStatus (RecreateStatus mixedManager).1).2
    = (RecreateStatus mixedManager).2.
Proof.
  assert (Hsame :
    (client_List (client (RecreateStatus mixedManager).1)
       (Metal3DataTemplate.Namespace (DataTemplate mixedManager))).2 =
    (client_List (client mixedManager)
       (Metal3DataTemplate.Namespace (DataTemplate mixedManager))).2)
    by reflexivity.
  split; [exact Hsame |].
  exact (C7_RecreateStatus_idempotent mixedManager Hsame).
Defined.

End ReconstructionExamples.

(** ** The creation pass *)

Section Creation.
Context `{Schema} `{MapRange} {C : Type} `{Client C}.
Implicit Types (m : DataTemplateManager C) (ref : OwnerReference.t)
  (st : Metal3DataTemplate.Metal3DataTemplateStatus).

(** The loop over [pre ++ post] is the loop over [pre] followed, unless it
    returned, by the loop over [post]. *)
Lemma CreateDatas_loop_app pre post rq m :
  CreateDatas_loop (pre ++ post) rq m =
    match CreateDatas_loop pre rq m with
    | (m1, Next rq1) => CreateDatas_loop post rq1 m1
    | (m1, Return err) => (m1, Return err)
    end.
Proof.
  revert rq m. induction pre as [|ref pre IH]; intros rq m; simpl; [done |].
  destruct (CreateDatas_body ref rq m) as [m1 [rq1 | err]]; [apply IH | done].
Qed.

(** An owner reference that is not a Metal3Machine of the group, or whose
    owner has its entry already, is passed over. *)
Lemma CreateDatas_body_skip ref rq m :
  (∀ gv, ParseGroupVersion (OwnerReference.APIVersion ref) = inr gv →
         isMetal3Machine ref gv = true →
         is_Some (DataNames (Status (DataTemplate m))
                    !! OwnerReference.Name ref)) →
  CreateDatas_body ref rq m =
    (m, match ParseGroupVersion (OwnerReference.APIVersion ref) with
        | inl msg => Return (ErrorString msg)
        | inr _ => Next rq
        end).
Proof.
  intros Hprov. unfold CreateDatas_body.
  destruct (ParseGroupVersion (OwnerReference.APIVersion ref)) as [msg | gv];
    [done |].
  destruct (isMetal3Machine ref gv) eqn:Hm; simpl; [| done].
  rewrite bool_decide_eq_true_2; [done |]. by apply (Hprov gv).
Qed.

(** The body for an owner that gets as far as the create call: lines
    192-263 as one equation. *)
Lemma CreateDatas_body_create ref rq m gv c2 mach clusterName :
  ParseGroupVersion (OwnerReference.APIVersion ref) = inr gv →
  isMetal3Machine ref gv = true →
  DataNames (Status (DataTemplate m)) !! OwnerReference.Name ref = None →
  getM3Machine (client m) (OwnerReference.Name ref)
    (Metal3DataTemplate.Namespace (DataTemplate m)) (DataTemplate m)
    = (c2, inr (Some mach)) →
  Metal3DataTemplate.Labels (DataTemplate m) !! ClusterLabelName
    = Some clusterName →
  let i := nextIndex (Indexes (Status (DataTemplate m))) in
  let dataName := Metal3DataTemplate.Name (DataTemplate m) +:+ "-" +:+ Itoa i in
  let d' := Metal3DataTemplate.setStatus
              (recordIndex (Status (DataTemplate m)) (Itoa i)
                 (OwnerReference.Name ref) dataName) (DataTemplate m) in
  let obj := newMetal3Data d' ref clusterName i dataName in
  let mc := mkManager (createObject c2 obj).1 d'
              (CallCreate obj ::
               CallGetM3Machine (OwnerReference.Name ref)
                 (Metal3DataTemplate.Namespace (DataTemplate m)) :: calls m) in
  CreateDatas_body ref rq m =
    match (createObject c2 obj).2 with
    | None => (mc, Next rq)
    | Some err =>
        if HasRequeueAfterError err then
          match RecreateStatus mc with
          | (m2, Some lerr) => (m2, Return lerr)
          | (m2, None) => (m2, Next true)
          end
        else (mc, Return err)
    end.
Proof.
  intros Hparse Hm Hnew Hget Hlabel i dataName d' obj mc.
  unfold CreateDatas_body. rewrite Hparse, Hm. simpl.
  rewrite bool_decide_eq_false_2 by (rewrite Hnew; by intros [? ?]).
  unfold doGetM3Machine. rewrite Hget. simpl. rewrite Hlabel.
  unfold doCreate, setStatus, setDataTemplate. simpl.
  fold i. fold dataName. fold d'. fold obj.
  subst mc.
  destruct (createObject c2 obj) as [c3 [err |]]; simpl; [| done].
  destruct (HasRequeueAfterError err); [| done].
  by destruct (RecreateStatus _) as [m2 [lerr |]].
Qed.

(** Once a requeue is needed it stays needed. *)
Lemma CreateDatas_body_requeue ref m m' rq' :
  CreateDatas_body ref true m = (m', Next rq') → rq' = true.
Proof.
  unfold CreateDatas_body. intros Hbody.
  repeat case_match; simplify_eq; done.
Qed.

Lemma CreateDatas_loop_requeue refs m m' rq' :
  CreateDatas_loop refs true m = (m', Next rq') → rq' = true.
Proof.
  revert m. induction refs as [|ref refs IH]; intros m; simpl.
  - by intros [= _ <-].
  - destruct (CreateDatas_body ref true m) as [m1 [rq1 | err]] eqn:Hbody;
      [| done].
    apply CreateDatas_body_requeue in Hbody as ->. apply IH.
Qed.

(** A body that leaves with no requeue needed has either left the template
    alone or recorded a fresh index for an owner that had no entry. *)
Lemma CreateDatas_body_quiet ref rq m m' :
  CreateDatas_body ref rq m = (m', Next false) →
  DataTemplate m' = DataTemplate m ∨
  DataNames (Status (DataTemplate m)) !! OwnerReference.Name ref = None ∧
  ∃ dataName,
    DataTemplate m' =
      Metal3DataTemplate.setStatus
        (recordIndex (Status (DataTemplate m))
           (Itoa (nextIndex (Indexes (Status (DataTemplate m)))))
           (OwnerReference.Name ref) dataName)
        (DataTemplate m).
Proof.
  unfold CreateDatas_body.
  destruct (ParseGroupVersion (OwnerReference.APIVersion ref)) as [msg | gv];
    [done |].
  destruct (isMetal3Machine ref gv); simpl; [| intros [= <- _]; by left].
  case_bool_decide as Hprov; [intros [= <- _]; by left |].
  unfold doGetM3Machine.
  destruct (getM3Machine _ _ _ _) as [c2 [err | [mach |]]]; simpl;
    [done | | intros [= <- _]; by left].
  destruct (Metal3DataTemplate.Labels (DataTemplate m) !! ClusterLabelName)
    as [clusterName |]; [| done].
  unfold doCreate. simpl.
  destruct (createObject _ _) as [c3 [err |]]; simpl.
  - destruct (HasRequeueAfterError err); [| done].
    by destruct (RecreateStatus _) as [m2 [lerr |]].
  - intros [= <- _]. right. split; [| by eexists].
    by apply eq_None_not_Some.
Qed.

(** Without a conflict the loop leaves the timestamp alone. *)
Lemma CreateDatas_loop_quiet_LastUpdated refs rq m m' :
  CreateDatas_loop refs rq m = (m', Next false) →
  LastUpdated (Status (DataTemplate m')) = LastUpdated (Status (DataTemplate m)).
Proof.
  revert rq m. induction refs as [|ref refs IH]; intros rq m; simpl.
  - by intros [= <- _].
  - destruct (CreateDatas_body ref rq m) as [m1 [rq1 | err]] eqn:Hbody;
      [| done].
    intros Hloop. destruct rq1.
    { by apply CreateDatas_loop_requeue in Hloop. }
    rewrite (IH _ _ Hloop).
    apply CreateDatas_body_quiet in Hbody as [-> | (_ & dataName & ->)];
      [done |].
    by destruct (DataTemplate m).
Qed.

(** The loop over owner references that need nothing changes nothing. *)
Lemma CreateDatas_loop_provisioned refs rq m :
  (∀ ref gv, ref ∈ refs →
     ParseGroupVersion (OwnerReference.APIVersion ref) = inr gv →
     isMetal3Machine ref gv = true →
     is_Some (DataNames (Status (DataTemplate m)) !! OwnerReference.Name ref)) →
  (∃ msg, CreateDatas_loop refs rq m = (m, Return (ErrorString msg)) ∧
          ∃ ref, ref ∈ refs ∧
                 ParseGroupVersion (OwnerReference.APIVersion ref) = inl msg) ∨
  CreateDatas_loop refs rq m = (m, Next rq).
Proof.
  induction refs as [|ref refs IH]; intros Hprov; simpl; [by right |].
  rewrite CreateDatas_body_skip
    by (intros gv; apply Hprov; left).
  destruct (ParseGroupVersion (OwnerReference.APIVersion ref)) as [msg | gv]
    eqn:Hparse.
  - left. exists msg. split; [done |]. exists ref. split; [left | done].
  - destruct IH as [(msg & Hloop & ref' & Hin & Hparse') | Hloop].
    + intros ref' gv' Hin. apply Hprov. by right.
    + left. exists msg. split; [done |]. exists ref'. split; [by right | done].
    + by right.
Qed.

(** C9. A creation pass over owner references that are all provisioned
    (every Metal3Machine reference of the group has its [DataNames] entry)
    creates nothing: it makes no call other than the final reading of the
    clock, leaves [Indexes] and [DataNames] as they were, and does not ask
    for a requeue; it returns nil unless an owner reference has an
    APIVersion that does not parse. *)
Theorem C9_CreateDatas_idempotent m :
  (∀ ref gv, ref ∈ Metal3DataTemplate.OwnerReferences (DataTemplate m) →
     ParseGroupVersion (OwnerReference.APIVersion ref) = inr gv →
     isMetal3Machine ref gv = true →
     is_Some (DataNames (Status (DataTemplate m)) !! OwnerReference.Name ref)) →
  let m' := (CreateDatas m).1 in
  Indexes (Status (DataTemplate m')) = Indexes (Status (DataTemplate m)) ∧
  DataNames (Status (DataTemplate m')) = DataNames (Status (DataTemplate m)) ∧
  (calls m' = calls m ∨ calls m' = CallNow :: calls m) ∧
  (∀ err, (CreateDatas m).2 = Some err → HasRequeueAfterError err = false) ∧
  ((∀ ref, ref ∈ Metal3DataTemplate.OwnerReferences (DataTemplate m) →
           ∃ gv, ParseGroupVersion (OwnerReference.APIVersion ref) = inr gv) →
   (CreateDatas m).2 = None ∧ calls m' = CallNow :: calls m).
Proof.
  intros Hprov m'. subst m'. unfold CreateDatas.
  destruct (CreateDatas_loop_provisioned _ false m Hprov)
    as [(msg & -> & ref & Hin & Hparse) | ->]; simpl.
  - split_and!; [done | done | by left | by intros err [= <-] |].
    intros Hall. destruct (Hall ref Hin) as [gv Hgv]. congruence.
  - unfold updateStatusTimestamp.
    destruct (metav1_Now (client m)) as [c now]. simpl.
    split_and!; [by destruct (DataTemplate m) | by destruct (DataTemplate m)
                 | by right | done | done].
Qed.

(** C10. When the create call for an owner fails with an error that is not
    a requeue error, CreateDatas returns that error; the index allocated
    for the owner stays recorded in [Indexes] and [DataNames]; the failed
    create is the last call made, so the clock is not read and the
    timestamp is the one the status had when the owner was reached, which
    is the one it had when the pass began if no conflict came before. *)
Theorem C10_create_failure_keeps_entry m pre ref post m1 rq gv c2 mach
    clusterName :
  Metal3DataTemplate.OwnerReferences (DataTemplate m) = pre ++ ref :: post →
  CreateDatas_loop pre false m = (m1, Next rq) →
  ParseGroupVersion (OwnerReference.APIVersion ref) = inr gv →
  isMetal3Machine ref gv = true →
  DataNames (Status (DataTemplate m1)) !! OwnerReference.Name ref = None →
  getM3Machine (client m1) (OwnerReference.Name ref)
    (Metal3DataTemplate.Namespace (DataTemplate m1)) (DataTemplate m1)
    = (c2, inr (Some mach)) →
  Metal3DataTemplate.Labels (DataTemplate m1) !! ClusterLabelName
    = Some clusterName →
  let i := nextIndex (Indexes (Status (DataTemplate m1))) in
  let dataName := Metal3DataTemplate.Name (DataTemplate m1) +:+ "-" +:+ Itoa i in
  let d' := Metal3DataTemplate.setStatus
              (recordIndex (Status (DataTemplate m1)) (Itoa i)
                 (OwnerReference.Name ref) dataName) (DataTemplate m1) in
  let obj := newMetal3Data d' ref clusterName i dataName in
  ∀ err, (createObject c2 obj).2 = Some err →
         HasRequeueAfterError err = false →
  let m' := (CreateDatas m).1 in
  (CreateDatas m).2 = Some err ∧
  Indexes (Status (DataTemplate m')) !! Itoa i = Some (OwnerReference.Name ref) ∧
  DataNames (Status (DataTemplate m')) !! OwnerReference.Name ref
    = Some dataName ∧
  DataTemplate m' = d' ∧
  calls m' =
    CallCreate obj ::
    CallGetM3Machine (OwnerReference.Name ref)
      (Metal3DataTemplate.Namespace (DataTemplate m1)) :: calls m1 ∧
  LastUpdated (Status (DataTemplate m'))
    = LastUpdated (Status (DataTemplate m1)) ∧
  (rq = false →
   LastUpdated (Status (DataTemplate m'))
     = LastUpdated (Status (DataTemplate m))).
Proof.
  intros Hrefs Hpre Hparse Hm Hnew Hget Hlabel i dataName d' obj err Hcreate
    Hhard m'.
  assert (Hrun : CreateDatas m =
    (mkManager (createObject c2 obj).1 d'
       (CallCreate obj ::
        CallGetM3Machine (OwnerReference.Name ref)
          (Metal3DataTemplate.Namespace (DataTemplate m1)) :: calls m1),
     Some err)).
  { unfold CreateDatas. rewrite Hrefs, CreateDatas_loop_app, Hpre. simpl.
    rewrite (CreateDatas_body_create _ _ _ _ _ _ _ Hparse Hm Hnew Hget Hlabel).
    fold i. fold dataName. fold d'. fold obj.
    by rewrite Hcreate, Hhard. }
  subst m'. rewrite Hrun. simpl.
  assert (Hstamp : LastUpdated (Status d')
                   = LastUpdated (Status (DataTemplate m1)))
    by (subst d'; by destruct (DataTemplate m1)).
  split_and!; [done | | | done | done | done |].
  - subst d'. destruct (DataTemplate m1). simpl. apply lookup_insert_eq.
  - subst d'. destruct (DataTemplate m1). simpl. apply lookup_insert_eq.
  - intros ->.
    transitivity (LastUpdated (Status (DataTemplate m1))); [exact Hstamp |].
    by apply (CreateDatas_loop_quiet_LastUpdated _ _ _ _ Hpre).
Qed.

(** The calls made by RecreateStatus: the listing and, when it succeeds,
    one reading of the clock. *)
Lemma RecreateStatus_calls m :
  calls (RecreateStatus m).1 =
    match (RecreateStatus m).2 with
    | None => [CallNow]
    | Some _ => []
    end ++
    CallList (Metal3DataTemplate.Namespace (DataTemplate m)) :: calls m.
Proof.
  destruct (client_List (client m)
              (Metal3DataTemplate.Namespace (DataTemplate m)))
    as [c [err | items]] eqn:Hlist.
  - by rewrite (RecreateStatus_failed _ _ _ Hlist).
  - by rewrite (RecreateStatus_listed _ _ _ Hlist).
Qed.

(** C3 (amended). When the create call for an owner fails with a requeue
    error (the conflict), CreateDatas calls RecreateStatus next.  If the
    reconstruction fails, its error is returned at once.  Otherwise the
    pass goes on with the remaining owner references from the rebuilt
    status, and returns the first hard error met there or, when there is
    none, the requeue error after updating the timestamp.  It never returns
    nil. *)
Theorem C3_conflict_requeues m pre ref post m1 rq gv c2 mach clusterName :
  Metal3DataTemplate.OwnerReferences (DataTemplate m) = pre ++ ref :: post →
  CreateDatas_loop pre false m = (m1, Next rq) →
  ParseGroupVersion (OwnerReference.APIVersion ref) = inr gv →
  isMetal3Machine ref gv = true →
  DataNames (Status (DataTemplate m1)) !! OwnerReference.Name ref = None →
  getM3Machine (client m1) (OwnerReference.Name ref)
    (Metal3DataTemplate.Namespace (DataTemplate m1)) (DataTemplate m1)
    = (c2, inr (Some mach)) →
  Metal3DataTemplate.Labels (DataTemplate m1) !! ClusterLabelName
    = Some clusterName →
  let i := nextIndex (Indexes (Status (DataTemplate m1))) in
  let dataName := Metal3DataTemplate.Name (DataTemplate m1) +:+ "-" +:+ Itoa i in
  let d' := Metal3DataTemplate.setStatus
              (recordIndex (Status (DataTemplate m1)) (Itoa i)
                 (OwnerReference.Name ref) dataName) (DataTemplate m1) in
  let obj := newMetal3Data d' ref clusterName i dataName in
  ∀ err, (createObject c2 obj).2 = Some err →
         HasRequeueAfterError err = true →
  let mc := mkManager (createObject c2 obj).1 d'
              (CallCreate obj ::
               CallGetM3Machine (OwnerReference.Name ref)
                 (Metal3DataTemplate.Namespace (DataTemplate m1)) :: calls m1) in
  let mr := (RecreateStatus mc).1 in
  calls mr =
    match (RecreateStatus mc).2 with None => [CallNow] | Some _ => [] end ++
    CallList (Metal3DataTemplate.Namespace (DataTemplate m1)) :: calls mc ∧
  CreateDatas m =
    match (RecreateStatus mc).2 with
    | Some lerr => (mr, Some lerr)
    | None =>
        match CreateDatas_loop post true mr with
        | (m3, Return e) => (m3, Some e)
        | (m3, Next _) => (updateStatusTimestamp m3, Some RequeueAfterError)
        end
    end ∧
  (CreateDatas m).2 ≠ None ∧
  ((RecreateStatus mc).2 = None →
   (∀ m3 e, CreateDatas_loop post true mr ≠ (m3, Return e)) →
   (CreateDatas m).2 = Some RequeueAfterError).
Proof.
  intros Hrefs Hpre Hparse Hm Hnew Hget Hlabel i dataName d' obj err Hcreate
    Hsoft mc mr.
  assert (Hrun : CreateDatas m =
    match (RecreateStatus mc).2 with
    | Some lerr => (mr, Some lerr)
    | None =>
        match CreateDatas_loop post true mr with
        | (m3, Return e) => (m3, Some e)
        | (m3, Next _) => (updateStatusTimestamp m3, Some RequeueAfterError)
        end
    end).
  { unfold CreateDatas. rewrite Hrefs, CreateDatas_loop_app, Hpre. simpl.
    rewrite (CreateDatas_body_create _ _ _ _ _ _ _ Hparse Hm Hnew Hget Hlabel).
    fold i. fold dataName. fold d'. fold obj. rewrite Hcreate, Hsoft.
    fold mc. subst mr.
    destruct (RecreateStatus mc) as [m2 [lerr |]]; simpl; [done |].
    destruct (CreateDatas_loop post true m2) as [m3 [rq3 | e]] eqn:Hpost;
      [| done].
    by rewrite (CreateDatas_loop_requeue _ _ _ _ Hpost). }
  split.
  { subst mr. rewrite RecreateStatus_calls. subst mc d'. simpl.
    by destruct (DataTemplate m1). }
  split; [exact Hrun |]. rewrite Hrun. split.
  - destruct ((RecreateStatus mc).2); [done |].
    by destruct (CreateDatas_loop post true mr) as [m3 [rq3 | e]].
  - intros -> Hpost.
    destruct (CreateDatas_loop post true mr) as [m3 [rq3 | e]]; [done |].
    by destruct (Hpost m3 e).
Qed.

End Creation.

Section CreationExamples.
Local Existing Instances k8sParseGroupVersion listOrder fakeClient.

Example CreateDatas_conflict_run :
  (CreateDatas conflictManager).2 = Some RequeueAfterError ∧
  Indexes (Status (DataTemplate (CreateDatas conflictManager).1))
    = {[ "0" := "m0"; "1" := "m2" ]} ∧
  DataNames (Status (DataTemplate (CreateDatas conflictManager).1))
    = {[ "m0" := "tpl-0"; "m2" := "tpl-1" ]}.
Proof. vm_compute. done. Qed.

Lemma C9_CreateDatas_idempotent_witness :
  (∀ ref gv,
     ref ∈ Metal3DataTemplate.OwnerReferences (DataTemplate provisionedManager) →
     ParseGroupVersion (OwnerReference.APIVersion ref) = inr gv →
     isMetal3Machine ref gv = true →
     is_Some (DataNames (Status (DataTemplate provisionedManager))
                !! OwnerReference.Name ref)) ∧
  Indexes (Status (DataTemplate (CreateDatas provisionedManager).1))
    = Indexes (Status (DataTemplate provisionedManager)) ∧
  DataNames (Status (DataTemplate (CreateDatas provisionedManager).1))
    = DataNames (Status (DataTemplate provisionedManager)) ∧
  (CreateDatas provisionedManager).2 = None ∧
  calls (CreateDatas provisionedManager).1 = [CallNow].
Proof.
  assert (Hprov : ∀ ref gv,
     ref ∈ Metal3DataTemplate.OwnerReferences (DataTemplate provisionedManager) →
     ParseGroupVersion (OwnerReference.APIVersion ref) = inr gv →
     isMetal3Machine ref gv = true →
     is_Some (DataNames (Status (DataTemplate provisionedManager))
                !! OwnerReference.Name ref)).
  { intros ref gv Hin _ _. apply list_elem_of_singleton in Hin as ->.
    exists "tpl-0". reflexivity. }
  destruct (C9_CreateDatas_idempotent provisionedManager Hprov)
    as (Hi & Hd & _ & _ & Hnil).
  destruct Hnil as [Hnil Hcalls].
  { intros ref Hin. apply list_elem_of_singleton in Hin as ->.
    eexists. reflexivity. }
  split; [exact Hprov |]. split; [exact Hi |]. split; [exact Hd |].
  split; [exact Hnil | exact Hcalls].
Defined.

Lemma C10_create_failure_keeps_entry_witness :
  (Metal3DataTemplate.OwnerReferences (DataTemplate createFailsManager)
     = [] ++ machineRef "m1" :: []) ∧
  CreateDatas_loop [] false createFailsManager
    = (createFailsManager, Next false) ∧
  ParseGroupVersion (OwnerReference.APIVersion (machineRef "m1"))
    = inr capm3_GroupVersion ∧
  isMetal3Machine (machineRef "m1") capm3_GroupVersion = true ∧
  DataNames (Status (DataTemplate createFailsManager)) !! "m1" = None ∧
  getM3Machine (client createFailsManager) "m1" "ns"
    (DataTemplate createFailsManager)
    = (client createFailsManager, inr (Some (Metal3Machine.mk "m1" "ns"))) ∧
  Metal3DataTemplate.Labels (DataTemplate createFailsManager)
    !! ClusterLabelName = Some "cluster" ∧
  (createObject (client createFailsManager) firstData).2
    = Some (ErrorString "create failed") ∧
  HasRequeueAfterError (ErrorString "create failed") = false ∧
  (CreateDatas createFailsManager).2 = Some (ErrorString "create failed") ∧
  Indexes (Status (DataTemplate (CreateDatas createFailsManager).1)) !! "0"
    = Some "m1" ∧
  DataNames (Status (DataTemplate (CreateDatas createFailsManager).1)) !! "m1"
    = Some "tpl-0" ∧
  LastUpdated (Status (DataTemplate (CreateDatas createFailsManager).1)) = None.
Proof.
  pose proof (C10_create_failure_keeps_entry createFailsManager []
                (machineRef "m1") [] createFailsManager false
                capm3_GroupVersion (client createFailsManager)
                (Metal3Machine.mk "m1" "ns") "cluster"
                eq_refl eq_refl eq_refl eq_refl eq_refl eq_refl eq_refl
                (ErrorString "create failed") eq_refl eq_refl)
    as (Hr & Hi & Hd & _ & _ & _ & Ht).
  do 9 (split; [reflexivity |]).
  split; [exact Hr |]. split; [exact Hi |]. split; [exact Hd |].
  exact (Ht eq_refl).
Defined.

Lemma C3_conflict_requeues_witness :
  (Metal3DataTemplate.OwnerReferences (DataTemplate conflictManager)
     = [] ++ machineRef "m1" :: [machineRef "m2"]) ∧
  CreateDatas_loop [] false conflictManager = (conflictManager, Next false) ∧
  ParseGroupVersion (OwnerReference.APIVersion (machineRef "m1"))
    = inr capm3_GroupVersion ∧
  isMetal3Machine (machineRef "m1") capm3_GroupVersion = true ∧
  DataNames (Status (DataTemplate conflictManager)) !! "m1" = None ∧
  getM3Machine (client conflictManager) "m1" "ns" (DataTemplate conflictManager)
    = (client conflictManager, inr (Some (Metal3Machine.mk "m1" "ns"))) ∧
  Metal3DataTemplate.Labels (DataTemplate conflictManager) !! ClusterLabelName
    = Some "cluster" ∧
  (createObject (client conflictManager) firstData).2
    = Some RequeueAfterError ∧
  HasRequeueAfterError RequeueAfterError = true ∧
  (CreateDatas conflictManager).2 ≠ None.
Proof.
  pose proof (C3_conflict_requeues conflictManager []
                (machineRef "m1") [machineRef "m2"] conflictManager false
                capm3_GroupVersion (client conflictManager)
                (Metal3Machine.mk "m1" "ns") "cluster"
                eq_refl eq_refl eq_refl eq_refl eq_refl eq_refl eq_refl
                RequeueAfterError eq_refl eq_refl)
    as (_ & _ & Hr & _).
  do 9 (split; [reflexivity |]).
  exact Hr.
Defined.

(** C3 as stated fails when the reconstruction cannot list: the create call
    for [m1] is a conflict, yet the pass ends with the listing's error, a
    hard error, and [m2] is never looked at. *)
Lemma C3_counterexample :
  (createObject (client conflictListFailsManager) firstData).2
    = Some RequeueAfterError ∧
  (CreateDatas conflictListFailsManager).2 = Some (ErrorString "list failed") ∧
  HasRequeueAfterError (ErrorString "list failed") = false ∧
  calls (CreateDatas conflictListFailsManager).1
    = [CallList "ns"; CallCreate firstData; CallGetM3Machine "m1" "ns"].
Proof. vm_compute. done. Qed.


Example CreateDatas_twice :
  (CreateDatas (CreateDatas endToEndManager).1).2 = None ∧
  Status (DataTemplate (CreateDatas (CreateDatas endToEndManager).1).1)
    = Metal3DataTemplate.mkStatus {[ "0" := "m1"; "1" := "m2" ]}
        {[ "m1" := "tpl-0"; "m2" := "tpl-1" ]} (Some 2%nat) ∧
  calls (CreateDatas (CreateDatas endToEndManager).1).1
    = CallNow :: calls (CreateDatas endToEndManager).1 ∧
  client (CreateDatas (CreateDatas endToEndManager).1).1
    = (fakeNow (client (CreateDatas endToEndManager).1)).1.
Proof. vm_compute. done. Qed.

End CreationExamples.

(** ** The deletion pass *)

Section Deletion.
Context `{Schema} `{MapRange} {C : Type} `{Client C}.
Implicit Types (m : DataTemplateManager C)
  (st : Metal3DataTemplate.Metal3DataTemplateStatus).

Lemma elem_of_range (indexes : gmap string string) i o :
  (i, o) ∈ range indexes ↔ indexes !! i = Some o.
Proof. rewrite (range_perm indexes). apply elem_of_map_to_list. Qed.

Lemma NoDup_range_keys (names : gmap string string) : NoDup (range names).*1.
Proof. rewrite (range_perm names). apply NoDup_fst_map_to_list. Qed.

Lemma elem_of_range_keys (names : gmap string string) o :
  o ∈ (range names).*1 ↔ is_Some (names !! o).
Proof.
  rewrite list_elem_of_fmap. split.
  - intros ([o' n] & -> & Hin). apply elem_of_range in Hin. eauto.
  - intros [n Hn]. exists (o, n). split; [done |]. by apply elem_of_range.
Qed.

(** The scan of lines 322-327 ends on an entry of the machine whenever
    there is one, and on the empty string otherwise. *)
Lemma findDeletionIndex_foldl (entries : list (string * string)) o acc :
  let r := foldl (λ deletionIndex '(index, name),
                    if bool_decide (name = o) then index else deletionIndex)
                 acc entries in
  (r = acc ∧ ∀ i, (i, o) ∉ entries) ∨ (r, o) ∈ entries.
Proof.
  revert acc. induction entries as [|[i n] entries IH]; intros acc; simpl.
  - left. split; [done |]. intros i. apply not_elem_of_nil.
  - destruct (IH (if bool_decide (n = o) then i else acc)) as [[Hr Hno] | Hin].
    + case_bool_decide as Hn.
      * right. rewrite Hr. subst n. left.
      * left. split; [done |]. intros i'. rewrite not_elem_of_cons.
        split; [congruence | apply Hno].
    + right. by right.
Qed.

Lemma findDeletionIndex_found (indexes : gmap string string) o i :
  indexes !! i = Some o →
  indexes !! findDeletionIndex (range indexes) o = Some o.
Proof.
  intros Hi. unfold findDeletionIndex.
  destruct (findDeletionIndex_foldl (range indexes) o "") as [[_ Hno] | Hin].
  - destruct (Hno i). by apply elem_of_range.
  - by apply elem_of_range.
Qed.

Lemma findDeletionIndex_none (indexes : gmap string string) o :
  (∀ i, indexes !! i ≠ Some o) → findDeletionIndex (range indexes) o = "".
Proof.
  intros Hno. unfold findDeletionIndex.
  destruct (findDeletionIndex_foldl (range indexes) o "") as [[Hr _] | Hin];
    [done |].
  apply elem_of_range in Hin. by destruct (Hno _ Hin).
Qed.

Lemma setStatus_Status (d : Metal3DataTemplate.t) :
  Metal3DataTemplate.setStatus (Status d) d = d.
Proof. by destruct d. Qed.

(** What the body of the loop can do: it reads the clock never, it returns
    no error for which [IsNotFound] holds, and when it returns none it has
    either kept the entry of a present owner or forgotten an absent one. *)
Lemma DeleteDatas_body_cases o d m m' r :
  DeleteDatas_body o d m = (m', r) →
  (∃ cs, calls m' = cs ++ calls m ∧ countNow cs = 0%nat) ∧
  match r with
  | Some err => IsNotFound err = false ∧ DataTemplate m' = DataTemplate m
  | None =>
      ownerPresent (Metal3DataTemplate.OwnerReferences (DataTemplate m)) o
        = inr true ∧ DataTemplate m' = DataTemplate m ∨
      ownerPresent (Metal3DataTemplate.OwnerReferences (DataTemplate m)) o
        = inr false ∧
      DataTemplate m' =
        Metal3DataTemplate.setStatus
          (forgetMachine (Status (DataTemplate m)) o) (DataTemplate m)
  end.
Proof.
  unfold DeleteDatas_body.
  destruct (ownerPresent _ o) as [err | [|]] eqn:Hpresent.
  - intros [= <- <-]. split; [by exists [] |].
    split; [| done]. clear -Hpresent.
    induction (Metal3DataTemplate.OwnerReferences (DataTemplate m))
      as [|ref refs IH]; simpl in Hpresent; [done |].
    destruct (ParseGroupVersion (OwnerReference.APIVersion ref)) as [msg | gv];
      [by simplify_eq |].
    destruct (negb (isMetal3Machine ref gv)); [by apply IH |].
    case_bool_decide; [done | by apply IH].
  - intros [= <- <-]. split; [by exists [] |]. by left.
  - unfold doGet. destruct (client_Get _ _) as [c [err | obj]]; simpl.
    + destruct (IsNotFound err) eqn:Hnf; intros [= <- <-].
      * split; [by eexists [_] |]. by right.
      * split; [by eexists [_] |]. done.
    + unfold doDelete. simpl.
      destruct (client_Delete c obj) as [c' [err |]]; simpl.
      * destruct (IsNotFound err) eqn:Hnf; intros [= <- <-].
        -- split; [by eexists [_; _] |]. by right.
        -- split; [by eexists [_; _] |]. done.
      * intros [= <- <-]. split; [by eexists [_; _] |]. by right.
Qed.

Lemma DeleteDatas_loop_calls entries m m' r :
  DeleteDatas_loop entries m = (m', r) →
  (∃ cs, calls m' = cs ++ calls m ∧ countNow cs = 0%nat) ∧
  (∀ err, r = Some err → IsNotFound err = false).
Proof.
  revert m. induction entries as [|[o d] entries IH]; intros m; simpl.
  - intros [= <- <-]. split; [by exists [] | done].
  - destruct (DeleteDatas_body o d m) as [m1 [err |]] eqn:Hbody.
    + intros [= <- <-].
      destruct (DeleteDatas_body_cases _ _ _ _ _ Hbody) as [Hcalls [Hnf _]].
      split; [done |]. by intros err' [= <-].
    + intros Hloop. destruct (IH _ Hloop) as [(cs & Hcs & Hnow) Hnf].
      destruct (DeleteDatas_body_cases _ _ _ _ _ Hbody)
        as [(cs1 & Hcs1 & Hnow1) _].
      split; [| done]. exists (cs ++ cs1).
      rewrite Hcs, Hcs1, <- app_assoc. split; [done |].
      unfold countNow in *. rewrite List.filter_app, length_app. lia.
Qed.

(** The loop, when it runs to its end: the entries of the owners found
    absent are gone from [DataNames], the others are as they were, and
    [Indexes] has only lost entries, among them the entry of every owner
    found absent that held a single index. *)
Lemma DeleteDatas_loop_spec entries m m' :
  DeleteDatas_loop entries m = (m', None) →
  let refs := Metal3DataTemplate.OwnerReferences (DataTemplate m) in
  let st := Status (DataTemplate m) in
  let st' := Status (DataTemplate m') in
  Metal3DataTemplate.setStatus st (DataTemplate m') = DataTemplate m ∧
  (∀ o, o ∈ entries.*1 → ∃ b, ownerPresent refs o = inr b) ∧
  Indexes st' ⊆ Indexes st ∧
  (∀ k, k ∈ entries.*1 → ownerPresent refs k = inr false →
        DataNames st' !! k = None) ∧
  (∀ k, ¬ (k ∈ entries.*1 ∧ ownerPresent refs k = inr false) →
        DataNames st' !! k = DataNames st !! k) ∧
  (∀ o i, o ∈ entries.*1 → ownerPresent refs o = inr false →
          Indexes st !! i = Some o →
          (∀ j, Indexes st !! j = Some o → j = i) →
          Indexes st' !! i = None).
Proof.
  revert m. induction entries as [|[o d] entries IH]; intros m; simpl.
  - intros [= <-]. split; [apply setStatus_Status |].
    split; [intros o Ho; by apply elem_of_nil in Ho |].
    split; [done |].
    split; [intros k Hk; by apply elem_of_nil in Hk |].
    split; [done |]. intros o i Ho. by apply elem_of_nil in Ho.
  - destruct (DeleteDatas_body o d m) as [m1 [err |]] eqn:Hbody; [done |].
    intros Hloop.
    destruct (IH _ Hloop) as (Hframe & Hparsed & Hsub & Hgone & Hkept & Hidx).
    clear IH.
    destruct (DeleteDatas_body_cases _ _ _ _ _ Hbody)
      as [_ [[Hpresent Hd1] | [Habsent Hd1]]]; rewrite Hd1 in *.
    + (* the owner is present: nothing changed *)
      split; [done |].
      split.
      { intros o' [-> | Ho']%elem_of_cons; [eauto | by apply Hparsed]. }
      split; [done |].
      split.
      { intros k [-> | Hk]%elem_of_cons Hk'; [congruence | by apply Hgone]. }
      split.
      { intros k Hk. apply Hkept. intros [Hin Hk']. apply Hk.
        split; [by right | done]. }
      intros o' i [-> | Ho']%elem_of_cons Ho'' Hi Huniq; [congruence |].
      by apply (Hidx o').
    + (* the owner is absent: its entries are forgotten *)
      simpl in *.
      split.
      { clear -Hframe. destruct (DataTemplate m), (DataTemplate m').
        simpl in *. by simplify_eq. }
      split.
      { intros o' [-> | Ho']%elem_of_cons; [eauto | by apply Hparsed]. }
      assert (Hsub' : Indexes (Status (DataTemplate m'))
                      ⊆ Indexes (Status (DataTemplate m))).
      { etrans; [exact Hsub | apply delete_subseteq]. }
      split; [done |].
      split.
      { intros k [-> | Hk]%elem_of_cons Hk'; [| by apply Hgone].
        destruct (decide (o ∈ entries.*1)) as [Hin | Hnin];
          [by apply Hgone |].
        rewrite Hkept by tauto. apply lookup_delete_eq. }
      split.
      { intros k Hk.
        assert (k ≠ o) as Hne.
        { intros ->. apply Hk. split; [left | done]. }
        rewrite Hkept.
        - by apply lookup_delete_ne.
        - intros [Hin Hk']. apply Hk. split; [by right | done]. }
      intros o' i Ho' Ho'' Hi Huniq.
      set (di := findDeletionIndex
                   (range (Indexes (Status (DataTemplate m)))) o) in *.
      destruct (decide (di = i)) as [Hdi | Hdi].
      { eapply lookup_weaken_None; [| exact Hsub].
        subst i. apply lookup_delete_eq. }
      apply elem_of_cons in Ho' as [-> | Ho'].
      { destruct Hdi. apply Huniq. by eapply findDeletionIndex_found. }
      apply (Hidx o'); [done | done | by rewrite lookup_delete_ne |].
      intros j Hj. apply Huniq.
      by apply lookup_delete_Some in Hj as [_ Hj].
Qed.

Lemma DeleteDatas_loop_LastUpdated entries m m' r :
  DeleteDatas_loop entries m = (m', r) →
  LastUpdated (Status (DataTemplate m')) = LastUpdated (Status (DataTemplate m)).
Proof.
  revert m. induction entries as [|[o d] entries IH]; intros m; simpl.
  - by intros [= <- _].
  - destruct (DeleteDatas_body o d m) as [m1 [err |]] eqn:Hbody.
    + intros [= <- _].
      by destruct (DeleteDatas_body_cases _ _ _ _ _ Hbody) as [_ [_ ->]].
    + intros Hloop. rewrite (IH _ Hloop).
      destruct (DeleteDatas_body_cases _ _ _ _ _ Hbody)
        as [_ [[_ ->] | [_ ->]]]; [done |].
      by destruct (DataTemplate m).
Qed.

(** What forgetting a machine removes. *)
Lemma forgetMachine_spec st o :
  DataNames (forgetMachine st o) = delete o (DataNames st) ∧
  (∃ deletionIndex,
     Indexes (forgetMachine st o) = delete deletionIndex (Indexes st) ∧
     ((∃ i, Indexes st !! i = Some o) →
      Indexes st !! deletionIndex = Some o) ∧
     ((∀ i, Indexes st !! i ≠ Some o) → deletionIndex = "")) ∧
  ∀ i, Indexes st !! i = Some o →
       (∀ j, Indexes st !! j = Some o → j = i) →
       Indexes (forgetMachine st o) !! i = None.
Proof.
  unfold forgetMachine. simpl. split; [done |]. split.
  - eexists. split; [done |]. split.
    + intros [i Hi]. by eapply findDeletionIndex_found.
    + apply findDeletionIndex_none.
  - intros i Hi Huniq.
    rewrite (Huniq _ (findDeletionIndex_found _ _ _ Hi)).
    apply lookup_delete_eq.
Qed.

(** C8. In the deletion pass an owner found absent from the owner
    references loses its entries whether its Metal3Data is fetched and
    deleted, is not found by the fetch, or is not found by the delete; no
    error for which [IsNotFound] holds is ever returned.  Forgetting an
    owner removes its [DataNames] entry and one [Indexes] entry that names
    it, which is the entry that names it when there is only one.  A pass
    that returns nil has removed these for every absent owner,
    kept the entries of the present ones, and read the clock exactly once,
    as its last call; a pass that returns an error has not read it. *)
Theorem C8_DeleteDatas_tolerates_not_found m :
  let refs := Metal3DataTemplate.OwnerReferences (DataTemplate m) in
  let namespace := Metal3DataTemplate.Namespace (DataTemplate m) in
  let st := Status (DataTemplate m) in
  let m' := (DeleteDatas m).1 in
  let st' := Status (DataTemplate m') in
  let forgotten o :=
    Metal3DataTemplate.setStatus (forgetMachine st o) (DataTemplate m) in
  (∀ err, (DeleteDatas m).2 = Some err → IsNotFound err = false) ∧
  (∀ o d c err,
     ownerPresent refs o = inr false →
     client_Get (client m) (ObjectKey.mk d namespace) = (c, inl err) →
     IsNotFound err = true →
     DeleteDatas_body o d m =
       (mkManager c (forgotten o)
          (CallGet (ObjectKey.mk d namespace) :: calls m), None)) ∧
  (∀ o d c obj c' derr,
     ownerPresent refs o = inr false →
     client_Get (client m) (ObjectKey.mk d namespace) = (c, inr obj) →
     client_Delete c obj = (c', derr) →
     (∀ err, derr = Some err → IsNotFound err = true) →
     DeleteDatas_body o d m =
       (mkManager c' (forgotten o)
          (CallDelete obj :: CallGet (ObjectKey.mk d namespace) :: calls m),
        None)) ∧
  (∀ o, DataNames (forgetMachine st o) = delete o (DataNames st) ∧
        (∃ deletionIndex,
           Indexes (forgetMachine st o) = delete deletionIndex (Indexes st) ∧
           ((∃ i, Indexes st !! i = Some o) →
            Indexes st !! deletionIndex = Some o) ∧
           ((∀ i, Indexes st !! i ≠ Some o) → deletionIndex = "")) ∧
        ∀ i, Indexes st !! i = Some o →
             (∀ j, Indexes st !! j = Some o → j = i) →
             Indexes (forgetMachine st o) !! i = None) ∧
  ((DeleteDatas m).2 = None →
   (∀ o, is_Some (DataNames st !! o) → ownerPresent refs o = inr false →
         DataNames st' !! o = None ∧
         ∀ i, Indexes st !! i = Some o →
              (∀ j, Indexes st !! j = Some o → j = i) →
              Indexes st' !! i = None) ∧
   (∀ o, ownerPresent refs o = inr true →
         DataNames st' !! o = DataNames st !! o) ∧
   is_Some (LastUpdated st') ∧
   ∃ cs, calls m' = CallNow :: cs ++ calls m ∧ countNow cs = 0%nat) ∧
  (∀ err, (DeleteDatas m).2 = Some err →
   LastUpdated st' = LastUpdated st ∧
   ∃ cs, calls m' = cs ++ calls m ∧ countNow cs = 0%nat).
Proof.
  intros refs namespace st m' st' forgotten.
  subst m' st'. unfold DeleteDatas.
  destruct (DeleteDatas_loop (range (DataNames (Status (DataTemplate m)))) m)
    as [m1 [err1 |]] eqn:Hloop; simpl.
  - (* the loop returned an error *)
    destruct (DeleteDatas_loop_calls _ _ _ _ Hloop) as [Hcalls Hnf].
    split; [intros err [= <-]; by apply Hnf |].
    split; [| split; [| split; [apply forgetMachine_spec |]]].
    + intros o d c err Habsent Hget Hnf'. unfold DeleteDatas_body.
      fold refs. rewrite Habsent. unfold doGet. fold namespace.
      rewrite Hget. simpl. by rewrite Hnf'.
    + intros o d c obj c' derr Habsent Hget Hdel Hnf'.
      unfold DeleteDatas_body. fold refs. rewrite Habsent.
      unfold doGet. fold namespace. rewrite Hget. simpl.
      unfold doDelete. simpl. rewrite Hdel. simpl.
      destruct derr as [err |]; [| done]. by rewrite (Hnf' err).
    + split; [done |]. intros err _.
      split; [| done]. by eapply DeleteDatas_loop_LastUpdated.
  - (* the loop ran to its end *)
    destruct (DeleteDatas_loop_calls _ _ _ _ Hloop) as [(cs & Hcs & Hnow) _].
    destruct (DeleteDatas_loop_spec _ _ _ Hloop)
      as (_ & Hparsed & _ & Hgone & Hkept & Hidx).
    fold refs st in Hparsed, Hgone, Hkept, Hidx.
    split; [done |].
    split; [| split; [| split; [apply forgetMachine_spec |]]].
    + intros o d c err Habsent Hget Hnf'. unfold DeleteDatas_body.
      fold refs. rewrite Habsent. unfold doGet. fold namespace.
      rewrite Hget. simpl. by rewrite Hnf'.
    + intros o d c obj c' derr Habsent Hget Hdel Hnf'.
      unfold DeleteDatas_body. fold refs. rewrite Habsent.
      unfold doGet. fold namespace. rewrite Hget. simpl.
      unfold doDelete. simpl. rewrite Hdel. simpl.
      destruct derr as [err |]; [| done]. by rewrite (Hnf' err).
    + split; [| done]. intros _.
      unfold updateStatusTimestamp.
      destruct (metav1_Now (client m1)) as [c now]. simpl.
      split.
      { intros o Ho Habsent.
        apply elem_of_range_keys in Ho. split.
        - destruct (DataTemplate m1). simpl in *. by apply Hgone.
        - intros i Hi Huniq. destruct (DataTemplate m1). simpl in *.
          by apply (Hidx o). }
      split.
      { intros o Hpresent. destruct (DataTemplate m1). simpl in *.
        apply Hkept. intros [_ Habsent]. congruence. }
      split; [destruct (DataTemplate m1); simpl; eauto |].
      exists cs. by rewrite Hcs.
Qed.

End Deletion.

(** ** Mutual consistency of the two maps *)

Section Consistency.
Context `{Schema} `{MapRange} {C : Type} `{Client C}.
Implicit Types (m : DataTemplateManager C)
  (st : Metal3DataTemplate.Metal3DataTemplateStatus).

Lemma consistent_alt st :
  consistent st ↔
  ∀ o, is_Some (DataNames st !! o) ↔ ∃ i, Indexes st !! i = Some o.
Proof.
  unfold consistent. rewrite set_eq.
  by setoid_rewrite elem_of_dom; setoid_rewrite elem_of_map_img.
Qed.

Lemma consistent_indexedOwnersNamed st : consistent st → indexedOwnersNamed st.
Proof. rewrite consistent_alt. intros Hc i o Hi. apply Hc. eauto. Qed.

Lemma oneIndexPerOwner_NoDup st :
  NoDup (map_to_list (Indexes st)).*2 → oneIndexPerOwner st.
Proof.
  intros Hnd i j o Hi Hj.
  apply elem_of_map_to_list in Hi, Hj.
  induction (map_to_list (Indexes st)) as [|[a b] l IH]; simpl in *.
  - by apply elem_of_nil in Hi.
  - apply NoDup_cons in Hnd as [Hb Hnd].
    apply elem_of_cons in Hi as [Hi | Hi], Hj as [Hj | Hj].
    + congruence.
    + destruct Hb. simplify_eq. apply list_elem_of_fmap. by exists (j, b).
    + destruct Hb. simplify_eq. apply list_elem_of_fmap. by exists (i, b).
    + by apply IH.
Qed.

(** Recording a free index for an owner without entry keeps the maps
    consistent. *)
Lemma recordIndex_consistent st k o dataName :
  Indexes st !! k = None → DataNames st !! o = None →
  consistent st → oneIndexPerOwner st →
  consistent (recordIndex st k o dataName) ∧
  oneIndexPerOwner (recordIndex st k o dataName).
Proof.
  rewrite !consistent_alt. intros Hk Ho Hc Hone. split.
  - intros x. simpl. rewrite lookup_insert_is_Some'. split.
    + intros [<- | Hx].
      * exists k. apply lookup_insert_eq.
      * apply Hc in Hx as [i Hi]. exists i.
        rewrite lookup_insert_ne; [done | congruence].
    + intros [i Hi]. apply lookup_insert_Some in Hi as [[_ ->] | [_ Hi]].
      * by left.
      * right. apply Hc. eauto.
  - intros i j x. simpl. rewrite !lookup_insert_Some.
    intros [[<- <-] | [Hik Hi]] [[<- Hx] | [Hjk Hj]]; try done.
    + assert (is_Some (DataNames st !! o)) as [? ?] by (apply Hc; eauto).
      congruence.
    + subst x.
      assert (is_Some (DataNames st !! o)) as [? ?] by (apply Hc; eauto).
      congruence.
    + by eapply Hone.
Qed.

Lemma recordIndex_indexedOwnersNamed st k o dataName :
  indexedOwnersNamed st → indexedOwnersNamed (recordIndex st k o dataName).
Proof.
  intros Hn i x. simpl. rewrite lookup_insert_Some, lookup_insert_is_Some'.
  intros [[_ ->] | [_ Hi]]; [by left | right; eauto].
Qed.

(** Forgetting an owner that has a name keeps the maps consistent. *)
Lemma forgetMachine_consistent st o :
  is_Some (DataNames st !! o) →
  consistent st → oneIndexPerOwner st →
  consistent (forgetMachine st o) ∧ oneIndexPerOwner (forgetMachine st o).
Proof.
  rewrite !consistent_alt. intros Ho Hc Hone.
  apply Hc in Ho as [i Hi].
  pose proof (findDeletionIndex_found _ _ _ Hi) as Hdi.
  set (di := findDeletionIndex (range (Indexes st)) o) in *.
  unfold forgetMachine. fold di. split.
  - intros x. simpl. split.
    + intros [n Hn]. apply lookup_delete_Some in Hn as [Hne Hn].
      destruct (Hc x) as [[j Hj] _]; [eauto |].
      exists j. rewrite lookup_delete_ne; [done |]. congruence.
    + intros [j Hj]. apply lookup_delete_Some in Hj as [Hne Hj].
      assert (x ≠ o) as Hxo.
      { intros ->. apply Hne. by eapply Hone. }
      rewrite lookup_delete_ne by done. apply Hc. eauto.
  - intros a b x. simpl. rewrite !lookup_delete_Some.
    intros [_ Ha] [_ Hb]. by eapply Hone.
Qed.

Lemma RecreateStatus_indexedOwnersNamed m :
  indexedOwnersNamed (Status (DataTemplate (RecreateStatus m).1)).
Proof.
  destruct (client_List (client m)
              (Metal3DataTemplate.Namespace (DataTemplate m)))
    as [c [err | items]] eqn:Hlist.
  - rewrite (RecreateStatus_failed _ _ _ Hlist). simpl.
    intros i o. simpl. by rewrite lookup_empty.
  - rewrite (RecreateStatus_listed _ _ _ Hlist). simpl.
    intros i o. simpl. apply foldl_recordData_img_dom.
    intros k x. simpl. by rewrite lookup_empty.
Qed.

Lemma CreateDatas_body_indexedOwnersNamed ref rq m :
  indexedOwnersNamed (Status (DataTemplate m)) →
  indexedOwnersNamed (Status (DataTemplate (CreateDatas_body ref rq m).1)).
Proof.
  intros Hn. unfold CreateDatas_body.
  destruct (ParseGroupVersion (OwnerReference.APIVersion ref)) as [msg | gv];
    [done |].
  destruct (isMetal3Machine ref gv); simpl; [| done].
  case_bool_decide; [done |].
  unfold doGetM3Machine.
  destruct (getM3Machine _ _ _ _) as [c2 [err | [mach |]]]; simpl;
    [done | | done].
  destruct (Metal3DataTemplate.Labels (DataTemplate m) !! ClusterLabelName)
    as [clusterName |]; [| done].
  unfold doCreate. simpl.
  destruct (createObject _ _) as [c3 [err |]]; simpl.
  - destruct (HasRequeueAfterError err).
    + match goal with |- context [RecreateStatus ?x] =>
        pose proof (RecreateStatus_indexedOwnersNamed x) as Hr;
        destruct (RecreateStatus x) as [m2 [lerr |]] end; exact Hr.
    + simpl. by apply recordIndex_indexedOwnersNamed.
  - by apply recordIndex_indexedOwnersNamed.
Qed.

Lemma CreateDatas_loop_indexedOwnersNamed refs rq m :
  indexedOwnersNamed (Status (DataTemplate m)) →
  indexedOwnersNamed (Status (DataTemplate (CreateDatas_loop refs rq m).1)).
Proof.
  revert rq m. induction refs as [|ref refs IH]; intros rq m Hn; simpl;
    [done |].
  pose proof (CreateDatas_body_indexedOwnersNamed ref rq m Hn) as Hb.
  destruct (CreateDatas_body ref rq m) as [m1 [rq1 | err]]; [| done].
  by apply IH.
Qed.

(** Without a conflict the loop of CreateDatas keeps the maps
    consistent. *)
Lemma CreateDatas_loop_consistent refs rq m m' :
  CreateDatas_loop refs rq m = (m', Next false) →
  consistent (Status (DataTemplate m)) →
  oneIndexPerOwner (Status (DataTemplate m)) →
  consistent (Status (DataTemplate m')) ∧
  oneIndexPerOwner (Status (DataTemplate m')).
Proof.
  revert rq m. induction refs as [|ref refs IH]; intros rq m; simpl.
  - by intros [= <- _].
  - destruct (CreateDatas_body ref rq m) as [m1 [rq1 | err]] eqn:Hbody;
      [| done].
    intros Hloop Hc Hone. destruct rq1.
    { by apply CreateDatas_loop_requeue in Hloop. }
    apply CreateDatas_body_quiet in Hbody as [Hd | (Hnew & dataName & Hd)];
      (eapply IH; [exact Hloop | |]); rewrite Hd; try done.
    + destruct (DataTemplate m). simpl in *.
      by apply recordIndex_consistent; [apply nextIndex_free | ..].
    + destruct (DataTemplate m). simpl in *.
      by apply recordIndex_consistent; [apply nextIndex_free | ..].
Qed.

(** The loop of DeleteDatas keeps the maps consistent. *)
Lemma DeleteDatas_loop_consistent entries m m' :
  NoDup entries.*1 →
  (∀ o, o ∈ entries.*1 → is_Some (DataNames (Status (DataTemplate m)) !! o)) →
  DeleteDatas_loop entries m = (m', None) →
  consistent (Status (DataTemplate m)) →
  oneIndexPerOwner (Status (DataTemplate m)) →
  consistent (Status (DataTemplate m')) ∧
  oneIndexPerOwner (Status (DataTemplate m')).
Proof.
  revert m. induction entries as [|[o d] entries IH]; intros m; simpl.
  - by intros _ _ [= <-].
  - intros [Ho Hnd]%NoDup_cons Hnamed.
    destruct (DeleteDatas_body o d m) as [m1 [err |]] eqn:Hbody; [done |].
    intros Hloop Hc Hone.
    destruct (DeleteDatas_body_cases _ _ _ _ _ Hbody)
      as [_ [[_ Hd] | [_ Hd]]].
    + apply (IH m1); rewrite ?Hd; try done.
      intros o' Ho'. apply Hnamed. by right.
    + assert (Hforget :
        consistent (forgetMachine (Status (DataTemplate m)) o) ∧
        oneIndexPerOwner (forgetMachine (Status (DataTemplate m)) o)).
      { apply forgetMachine_consistent; [apply Hnamed; left | done | done]. }
      apply (IH m1); rewrite ?Hd; try done.
      * intros o' Ho'. destruct (DataTemplate m). simpl.
        rewrite lookup_delete_ne; [apply Hnamed; by right |].
        intros ->. done.
      * destruct (DataTemplate m). simpl in *. tauto.
      * destruct (DataTemplate m). simpl in *. tauto.
Qed.

(** C2 (amended). If the two maps name the same owners and no owner holds
    two indexes, then this is again so after a creation pass that returns
    nil and after a deletion pass that returns nil.  Whatever a creation
    pass returns, hence also when it ends in a requeue after a conflict,
    every owner that holds an index has a name. *)
Theorem C2_passes_keep_consistency m :
  consistent (Status (DataTemplate m)) →
  oneIndexPerOwner (Status (DataTemplate m)) →
  ((CreateDatas m).2 = None →
   consistent (Status (DataTemplate (CreateDatas m).1)) ∧
   oneIndexPerOwner (Status (DataTemplate (CreateDatas m).1))) ∧
  ((DeleteDatas m).2 = None →
   consistent (Status (DataTemplate (DeleteDatas m).1)) ∧
   oneIndexPerOwner (Status (DataTemplate (DeleteDatas m).1))) ∧
  indexedOwnersNamed (Status (DataTemplate (CreateDatas m).1)).
Proof.
  intros Hc Hone. split; [| split].
  - unfold CreateDatas.
    destruct (CreateDatas_loop _ false m) as [m1 [rq1 | err]] eqn:Hloop;
      [| done].
    destruct rq1; [done |]. intros _.
    destruct (CreateDatas_loop_consistent _ _ _ _ Hloop Hc Hone) as [Hc1 Hone1].
    unfold updateStatusTimestamp. destruct (metav1_Now (client m1)) as [c now].
    simpl. by destruct (DataTemplate m1).
  - unfold DeleteDatas.
    destruct (DeleteDatas_loop _ m) as [m1 [err |]] eqn:Hloop; [done |].
    intros _.
    destruct (DeleteDatas_loop_consistent _ _ _ (NoDup_range_keys _)
                (λ o Ho, proj1 (elem_of_range_keys _ o) Ho) Hloop Hc Hone)
      as [Hc1 Hone1].
    unfold updateStatusTimestamp. destruct (metav1_Now (client m1)) as [c now].
    simpl. by destruct (DataTemplate m1).
  - pose proof (CreateDatas_loop_indexedOwnersNamed
                  (Metal3DataTemplate.OwnerReferences (DataTemplate m)) false m
                  (consistent_indexedOwnersNamed _ Hc)) as Hn.
    unfold CreateDatas.
    destruct (CreateDatas_loop _ false m) as [m1 [rq1 | err]]; [| done].
    assert (indexedOwnersNamed
              (Status (DataTemplate (updateStatusTimestamp m1)))) as Hn'.
    { unfold updateStatusTimestamp.
      destruct (metav1_Now (client m1)) as [c now]. simpl in *.
      destruct (DataTemplate m1). exact Hn. }
    by destruct rq1.
Qed.

End Consistency.

Section DeletionExamples.
Local Existing Instances k8sParseGroupVersion listOrder fakeClient.

Example DeleteDatas_not_found_on_get :
  (client_Get (client goneManager) (ObjectKey.mk "tpl-0" "ns")).2
    = inl (StatusNotFound "tpl-0") ∧
  (DeleteDatas goneManager).2 = None ∧
  Indexes (Status (DataTemplate (DeleteDatas goneManager).1)) = ∅ ∧
  DataNames (Status (DataTemplate (DeleteDatas goneManager).1)) = ∅ ∧
  calls (DeleteDatas goneManager).1
    = [CallNow; CallGet (ObjectKey.mk "tpl-0" "ns")].
Proof. vm_compute. done. Qed.

Example DeleteDatas_not_found_on_delete :
  (DeleteDatas raceManager).2 = None ∧
  Indexes (Status (DataTemplate (DeleteDatas raceManager).1)) = ∅ ∧
  DataNames (Status (DataTemplate (DeleteDatas raceManager).1)) = ∅ ∧
  calls (DeleteDatas raceManager).1
    = [CallNow; CallDelete (sampleData "tpl-0" 0 "tpl" (Some "m1"));
       CallGet (ObjectKey.mk "tpl-0" "ns")].
Proof. vm_compute. done. Qed.

End DeletionExamples.

Section ConsistencyExamples.
Local Existing Instances k8sParseGroupVersion listOrder fakeClient.

Lemma C2_passes_keep_consistency_witness :
  consistent (Status (DataTemplate provisionedManager)) ∧
  oneIndexPerOwner (Status (DataTemplate provisionedManager)) ∧
  ((CreateDatas provisionedManager).2 = None →
   consistent (Status (DataTemplate (CreateDatas provisionedManager).1)) ∧
   oneIndexPerOwner (Status (DataTemplate (CreateDatas provisionedManager).1))) ∧
  ((DeleteDatas provisionedManager).2 = None →
   consistent (Status (DataTemplate (DeleteDatas provisionedManager).1)) ∧
   oneIndexPerOwner (Status (DataTemplate (DeleteDatas provisionedManager).1))) ∧
  indexedOwnersNamed (Status (DataTemplate (CreateDatas provisionedManager).1)).
Proof.
  assert (Hc : consistent (Status (DataTemplate provisionedManager)))
    by (unfold consistent; vm_compute; reflexivity).
  assert (Hone : oneIndexPerOwner (Status (DataTemplate provisionedManager))).
  { apply oneIndexPerOwner_NoDup.
    apply (bool_decide_unpack _). vm_compute. exact I. }
  split; [exact Hc |]. split; [exact Hone |].
  exact (C2_passes_keep_consistency provisionedManager Hc Hone).
Defined.

(** C2 as stated fails on both passes.  A creation pass that meets a
    conflict ends in a requeue, no hard error, with the status rebuilt from
    the world: when two Metal3Data share an index, the owner of the first
    has a name and no index.  A deletion pass removes one index entry per
    owner: when the owner held two, the other entry stays without a
    name. *)
Lemma C2_counterexample :
  (consistent (Status (DataTemplate sharedIndexManager)) ∧
   oneIndexPerOwner (Status (DataTemplate sharedIndexManager)) ∧
   noHardError (CreateDatas sharedIndexManager).2 = true ∧
   ¬ consistent (Status (DataTemplate (CreateDatas sharedIndexManager).1))) ∧
  (consistent (Status (DataTemplate twoIndexesManager)) ∧
   (DeleteDatas twoIndexesManager).2 = None ∧
   ¬ consistent (Status (DataTemplate (DeleteDatas twoIndexesManager).1))).
Proof.
  split; [split; [| split; [| split]] | split; [| split]].
  - unfold consistent. vm_compute. reflexivity.
  - intros i j o Hi. simpl in Hi. by rewrite lookup_empty in Hi.
  - reflexivity.
  - unfold consistent. intros He.
    apply (bool_decide_eq_true_2 _) in He. vm_compute in He. discriminate.
  - unfold consistent. vm_compute. reflexivity.
  - reflexivity.
  - unfold consistent. intros He.
    apply (bool_decide_eq_true_2 _) in He. vm_compute in He. discriminate.
Qed.

End ConsistencyExamples.

(** ** Deletion readiness *)

(** C4. What DeleteReady computes: a single owner reference that parses
    blocks the deletion as soon as its kind is Metal3Machine or its group
    is the expected one.  On a template whose only owner is a Metal3Cluster
    of the group, which is no Metal3Machine reference for CreateDatas and
    DeleteDatas, DeleteReady answers false. *)
Theorem C4_DeleteReady_blocks_on_either :
  (∀ (parse : Schema) (C : Type) (m : DataTemplateManager C) ref gv,
     Metal3DataTemplate.OwnerReferences (DataTemplate m) = [ref] →
     parse (OwnerReference.APIVersion ref) = inr gv →
     DeleteReady m =
       (negb (bool_decide (OwnerReference.Kind ref = "Metal3Machine") ||
              bool_decide (GroupVersion.Group gv =
                           GroupVersion.Group capm3_GroupVersion)), None)) ∧
  Metal3DataTemplate.OwnerReferences (DataTemplate clusterOwnedManager)
    = [clusterRef] ∧
  k8sParseGroupVersion (OwnerReference.APIVersion clusterRef)
    = inr capm3_GroupVersion ∧
  isMetal3Machine clusterRef capm3_GroupVersion = false ∧
  @DeleteReady k8sParseGroupVersion FakeClient clusterOwnedManager
    = (false, None).
Proof.
  split; [| by vm_compute].
  intros parse C m ref gv Hrefs Hparse. unfold DeleteReady. rewrite Hrefs.
  simpl. unfold ParseGroupVersion. rewrite Hparse.
  by destruct (_ || _).
Qed.

(** ** End to end *)

Section EndToEnd.
Context `{Schema} `{MapRange} {C : Type} `{Client C}.
Implicit Types (m : DataTemplateManager C).

Lemma DeleteDatas_body_present o d m :
  ownerPresent (Metal3DataTemplate.OwnerReferences (DataTemplate m)) o
    = inr true →
  DeleteDatas_body o d m = (m, None).
Proof. intros Hp. unfold DeleteDatas_body. by rewrite Hp. Qed.

(** C6 (amended). End to end: for a template named [tpl] that carries the
    cluster label, owned by the Metal3Machines [m1] and [m2], with empty
    maps, on a server on which both machines resolve and both create calls
    succeed, CreateDatas returns nil and leaves
    indexes = {0: m1, 1: m2} and dataNames = {m1: tpl-0, m2: tpl-1}.  When
    [m1] is then removed from the owner references and the fetch and the
    delete of [tpl-0] succeed, DeleteDatas returns nil, leaves
    indexes = {1: m2} and dataNames = {m2: tpl-1}, and has called Delete on
    the object fetched under the name [tpl-0]. *)
Theorem C6_end_to_end m r1 r2 gv1 gv2 clusterName c1 mach1 c2 c3 mach2 c4 :
  Metal3DataTemplate.Name (DataTemplate m) = "tpl" →
  Metal3DataTemplate.OwnerReferences (DataTemplate m) = [r1; r2] →
  OwnerReference.Name r1 = "m1" → OwnerReference.Name r2 = "m2" →
  ParseGroupVersion (OwnerReference.APIVersion r1) = inr gv1 →
  isMetal3Machine r1 gv1 = true →
  ParseGroupVersion (OwnerReference.APIVersion r2) = inr gv2 →
  isMetal3Machine r2 gv2 = true →
  Indexes (Status (DataTemplate m)) = ∅ →
  DataNames (Status (DataTemplate m)) = ∅ →
  Metal3DataTemplate.Labels (DataTemplate m) !! ClusterLabelName
    = Some clusterName →
  let namespace := Metal3DataTemplate.Namespace (DataTemplate m) in
  let d1 := Metal3DataTemplate.setStatus
              (Metal3DataTemplate.mkStatus {[ "0" := "m1" ]}
                 {[ "m1" := "tpl-0" ]}
                 (LastUpdated (Status (DataTemplate m)))) (DataTemplate m) in
  getM3Machine (client m) "m1" namespace (DataTemplate m)
    = (c1, inr (Some mach1)) →
  createObject c1 (newMetal3Data (DataTemplate m) r1 clusterName 0 "tpl-0")
    = (c2, None) →
  getM3Machine c2 "m2" namespace d1 = (c3, inr (Some mach2)) →
  createObject c3 (newMetal3Data (DataTemplate m) r2 clusterName 1 "tpl-1")
    = (c4, None) →
  ((CreateDatas m).2 = None ∧
   Indexes (Status (DataTemplate (CreateDatas m).1))
     = {[ "0" := "m1"; "1" := "m2" ]} ∧
   DataNames (Status (DataTemplate (CreateDatas m).1))
     = {[ "m1" := "tpl-0"; "m2" := "tpl-1" ]}) ∧
  ∀ c5 obj c6,
    client_Get (client (CreateDatas m).1) (ObjectKey.mk "tpl-0" namespace)
      = (c5, inr obj) →
    client_Delete c5 obj = (c6, None) →
    let m' := DeleteDatas (withOwnerReferences [r2] (CreateDatas m).1) in
    m'.2 = None ∧
    Indexes (Status (DataTemplate m'.1)) = {[ "1" := "m2" ]} ∧
    DataNames (Status (DataTemplate m'.1)) = {[ "m2" := "tpl-1" ]} ∧
    CallDelete obj ∈ calls m'.1.
Proof.
  intros Hname Hrefs Hn1 Hn2 Hp1 Hm1 Hp2 Hm2 Hidx Hnames Hlabel namespace d1
    Hget1 Hcreate1 Hget2 Hcreate2.
  set (obj0 := newMetal3Data (DataTemplate m) r1 clusterName 0 "tpl-0") in *.
  set (obj1 := newMetal3Data (DataTemplate m) r2 clusterName 1 "tpl-1") in *.
  set (mc1 := mkManager c2 d1
                (CallCreate obj0 :: CallGetM3Machine "m1" namespace :: calls m)).
  set (d2 := Metal3DataTemplate.setStatus
               (Metal3DataTemplate.mkStatus {[ "0" := "m1"; "1" := "m2" ]}
                  {[ "m1" := "tpl-0"; "m2" := "tpl-1" ]}
                  (LastUpdated (Status (DataTemplate m)))) (DataTemplate m)).
  set (mc2 := mkManager c4 d2
                (CallCreate obj1 :: CallGetM3Machine "m2" namespace :: calls mc1)).
  assert (Hb1 : CreateDatas_body r1 false m = (mc1, Next false)).
  { rewrite <- Hn1 in Hget1.
    rewrite (CreateDatas_body_create r1 false m gv1 c1 mach1 clusterName
               Hp1 Hm1); [| by rewrite Hnames | done | done].
    cbv zeta. rewrite Hidx, Hname, Hn1.
    change (nextIndex ∅) with 0. change ("tpl" +:+ "-" +:+ Itoa 0) with "tpl-0".
    change (newMetal3Data _ r1 clusterName 0 "tpl-0") with obj0.
    rewrite Hcreate1. simpl. unfold mc1, d1, recordIndex.
    rewrite Hidx, Hnames. done. }
  assert (Hb2 : CreateDatas_body r2 false mc1 = (mc2, Next false)).
  { rewrite <- Hn2 in Hget2.
    rewrite (CreateDatas_body_create r2 false mc1 gv2 c3 mach2 clusterName
               Hp2 Hm2); [| by rewrite Hn2 | done | done].
    cbv zeta. simpl. rewrite Hname, Hn2.
    change (nextIndex {[ "0" := "m1" ]}) with 1.
    change ("tpl" +:+ "-" +:+ Itoa 1) with "tpl-1".
    change (newMetal3Data _ r2 clusterName 1 "tpl-1") with obj1.
    rewrite Hcreate2. simpl. unfold mc2, d2, recordIndex. simpl.
    reflexivity. }
  assert (Hrun : CreateDatas m = (updateStatusTimestamp mc2, None)).
  { unfold CreateDatas. rewrite Hrefs. simpl. by rewrite Hb1, Hb2. }
  rewrite Hrun. unfold updateStatusTimestamp.
  destruct (metav1_Now (client mc2)) as [cn now] eqn:Hnow. simpl.
  split; [done |].
  intros c5 obj c6 Hget Hdel.
  set (stB := Metal3DataTemplate.mkStatus {[ "0" := "m1"; "1" := "m2" ]}
                {[ "m1" := "tpl-0"; "m2" := "tpl-1" ]} (Some now)).
  set (mB := withOwnerReferences [r2] _).
  assert (HrefsB : Metal3DataTemplate.OwnerReferences (DataTemplate mB) = [r2])
    by done.
  assert (HstB : Status (DataTemplate mB) = stB) by done.
  assert (Habsent : ownerPresent [r2] "m1" = inr false).
  { simpl. by rewrite Hp2, Hm2, Hn2. }
  assert (Hpresent : ownerPresent [r2] "m2" = inr true).
  { simpl. by rewrite Hp2, Hm2, Hn2. }
  assert (Hdi : findDeletionIndex (range (Indexes stB)) "m1" = "0").
  { assert (Indexes stB !! findDeletionIndex (range (Indexes stB)) "m1"
            = Some "m1") as Hfound
      by (by apply (findDeletionIndex_found _ _ "0")).
    simpl in Hfound.
    apply lookup_insert_Some in Hfound as [[Hzero _] | [_ Hfound]];
      [symmetry; exact Hzero |].
    by apply lookup_singleton_Some in Hfound as [_ ?]. }
  set (mF := mkManager c6
               (Metal3DataTemplate.setStatus
                  (Metal3DataTemplate.mkStatus {[ "1" := "m2" ]}
                     {[ "m2" := "tpl-1" ]} (Some now)) (DataTemplate mB))
               (CallDelete obj ::
                CallGet (ObjectKey.mk "tpl-0" namespace) :: calls mB)).
  assert (Hbody1 : DeleteDatas_body "m1" "tpl-0" mB = (mF, None)).
  { unfold DeleteDatas_body. rewrite HrefsB, Habsent. unfold doGet.
    change (Metal3DataTemplate.Namespace (DataTemplate mB)) with namespace.
    change (client mB) with cn. rewrite Hget. simpl.
    unfold doDelete. simpl. rewrite Hdel. simpl.
    unfold setStatus, setDataTemplate, forgetMachine. cbn [DataTemplate].
    rewrite Hdi. reflexivity. }
  assert (Hbody2 : ∀ mX, Metal3DataTemplate.OwnerReferences (DataTemplate mX)
                         = [r2] →
                         DeleteDatas_body "m2" "tpl-1" mX = (mX, None)).
  { intros mX HX. apply DeleteDatas_body_present. by rewrite HX. }
  assert (Hloop : DeleteDatas_loop (range (DataNames (Status (DataTemplate mB))))
                    mB = (mF, None)).
  { set (entries := range (DataNames (Status (DataTemplate mB)))).
    assert (Hperm : [("m1", "tpl-0"); ("m2", "tpl-1")] ≡ₚ entries)
      by (symmetry; apply range_perm).
    clearbody entries.
    apply Permutation.Permutation_length_2_inv in Hperm as [-> | ->]; simpl.
    - by rewrite Hbody1, Hbody2.
    - by rewrite Hbody2, Hbody1. }
  unfold DeleteDatas. rewrite Hloop. unfold updateStatusTimestamp.
  destruct (metav1_Now (client mF)) as [cn' now']. simpl.
  split_and!; [done | done | done |].
  right. left.
Qed.
End EndToEnd.

Section EndToEndExamples.
Local Existing Instances k8sParseGroupVersion listOrder fakeClient.

Lemma C6_end_to_end_witness :
  (CreateDatas endToEndManager).2 = None ∧
  Indexes (Status (DataTemplate (CreateDatas endToEndManager).1))
    = {[ "0" := "m1"; "1" := "m2" ]} ∧
  DataNames (Status (DataTemplate (CreateDatas endToEndManager).1))
    = {[ "m1" := "tpl-0"; "m2" := "tpl-1" ]} ∧
  (DeleteDatas (withOwnerReferences [machineRef "m2"]
                  (CreateDatas endToEndManager).1)).2 = None ∧
  Indexes (Status (DataTemplate
             (DeleteDatas (withOwnerReferences [machineRef "m2"]
                             (CreateDatas endToEndManager).1)).1))
    = {[ "1" := "m2" ]} ∧
  DataNames (Status (DataTemplate
               (DeleteDatas (withOwnerReferences [machineRef "m2"]
                               (CreateDatas endToEndManager).1)).1))
    = {[ "m2" := "tpl-1" ]} ∧
  CallDelete firstData
    ∈ calls (DeleteDatas (withOwnerReferences [machineRef "m2"]
                            (CreateDatas endToEndManager).1)).1.
Proof.
  edestruct (C6_end_to_end endToEndManager (machineRef "m1") (machineRef "m2"))
    as [(Hr & Hi & Hd) Hdel]; [reflexivity .. |].
  edestruct (Hdel (client (CreateDatas endToEndManager).1) firstData)
    as (Hr' & Hi' & Hd' & Hc'); [reflexivity .. |].
  split; [exact Hr |]. split; [exact Hi |]. split; [exact Hd |].
  split; [exact Hr' |]. split; [exact Hi' |]. split; [exact Hd' | exact Hc'].
Defined.

Example end_to_end_server :
  Metal3Data.Name <$>
    fakeDatas (client (DeleteDatas (withOwnerReferences [machineRef "m2"]
                                      (CreateDatas endToEndManager).1)).1)
  = ["tpl-1"].
Proof. reflexivity. Qed.

(** C6 as stated fails on templates and servers it does not exclude.  A
    template [tpl] owned by [m1] and [m2], both resolving, with empty
    status but without the cluster label: the creation pass returns the
    configuration error and records nothing.  With the label, on a server
    that already holds [tpl-0]: the creation pass ends in a requeue with
    other maps.  After a creation pass that went well, on a server whose
    Get fails: the deletion pass returns that error and removes nothing. *)
Lemma C6_counterexample :
  (Metal3DataTemplate.Name (DataTemplate unlabelledManager) = "tpl" ∧
   Metal3DataTemplate.OwnerReferences (DataTemplate unlabelledManager)
     = [machineRef "m1"; machineRef "m2"] ∧
   ParseGroupVersion (OwnerReference.APIVersion (machineRef "m1"))
     = inr capm3_GroupVersion ∧
   isMetal3Machine (machineRef "m1") capm3_GroupVersion = true ∧
   ParseGroupVersion (OwnerReference.APIVersion (machineRef "m2"))
     = inr capm3_GroupVersion ∧
   isMetal3Machine (machineRef "m2") capm3_GroupVersion = true ∧
   (getM3Machine (client unlabelledManager) "m1" "ns"
      (DataTemplate unlabelledManager)).2
     = inr (Some (Metal3Machine.mk "m1" "ns")) ∧
   (getM3Machine (client unlabelledManager) "m2" "ns"
      (DataTemplate unlabelledManager)).2
     = inr (Some (Metal3Machine.mk "m2" "ns")) ∧
   Status (DataTemplate unlabelledManager) = emptyStatus ∧
   (CreateDatas unlabelledManager).2
     = Some (ErrorString "No cluster name found on Metal3DataTemplate object") ∧
   Indexes (Status (DataTemplate (CreateDatas unlabelledManager).1)) = ∅) ∧
  (Metal3DataTemplate.Name (DataTemplate conflictManager) = "tpl" ∧
   Metal3DataTemplate.OwnerReferences (DataTemplate conflictManager)
     = [machineRef "m1"; machineRef "m2"] ∧
   (getM3Machine (client conflictManager) "m1" "ns"
      (DataTemplate conflictManager)).2
     = inr (Some (Metal3Machine.mk "m1" "ns")) ∧
   (getM3Machine (client conflictManager) "m2" "ns"
      (DataTemplate conflictManager)).2
     = inr (Some (Metal3Machine.mk "m2" "ns")) ∧
   Status (DataTemplate conflictManager) = emptyStatus ∧
   (CreateDatas conflictManager).2 = Some RequeueAfterError ∧
   Indexes (Status (DataTemplate (CreateDatas conflictManager).1))
     = {[ "0" := "m0"; "1" := "m2" ]}) ∧
  (Indexes (Status (DataTemplate getFailsManager))
     = {[ "0" := "m1"; "1" := "m2" ]} ∧
   DataNames (Status (DataTemplate getFailsManager))
     = {[ "m1" := "tpl-0"; "m2" := "tpl-1" ]} ∧
   Metal3DataTemplate.OwnerReferences (DataTemplate getFailsManager)
     = [machineRef "m2"] ∧
   (DeleteDatas getFailsManager).2 = Some (ErrorString "get failed") ∧
   Indexes (Status (DataTemplate (DeleteDatas getFailsManager).1))
     = {[ "0" := "m1"; "1" := "m2" ]}).
Proof. vm_compute. done. Qed.

End EndToEndExamples.

(** * Further properties *)

(** ** More on the index allocation *)

Section AllocatorMore.
Implicit Types (indexes : gmap string string) (i j k : Z).

(** The allocated index is the only non-negative integer that is free with
    everything below it taken. *)
Lemma nextIndex_unique indexes k :
  0 ≤ k → indexes !! Itoa k = None →
  (∀ j, 0 ≤ j < k → is_Some (indexes !! Itoa j)) →
  nextIndex indexes = k.
Proof.
  intros Hk Hfree Hbelow.
  pose proof (nextIndex_range indexes) as Hrange.
  pose proof (nextIndex_free indexes) as Hfree'.
  destruct (Z.lt_trichotomy (nextIndex indexes) k) as [Hlt | [Heq | Hgt]];
    [| done |].
  - destruct (Hbelow (nextIndex indexes)) as [x Hx]; [lia | congruence].
  - destruct (nextIndex_below indexes k) as [x Hx]; [lia | congruence].
Qed.


(** X2. Freed indexes are reused first: after the entry of a non-negative
    index [i] is deleted, the index allocated is the smaller of [i] and the
    index that would have been allocated before. *)
Theorem X2_deleted_index_is_reused indexes i :
  0 ≤ i →
  nextIndex (delete (Itoa i) indexes) = Z.min i (nextIndex indexes).
Proof.
  intros Hi.
  pose proof (nextIndex_range indexes) as Hrange.
  apply nextIndex_unique.
  - lia.
  - destruct (Z_le_gt_dec i (nextIndex indexes)) as [Hle | Hgt].
    + rewrite Z.min_l by done. apply lookup_delete_eq.
    + rewrite Z.min_r by lia. rewrite lookup_delete_ne.
      * apply nextIndex_free.
      * intros Heq. apply (inj Itoa) in Heq. lia.
  - intros j Hj. rewrite lookup_delete_ne.
    + apply nextIndex_below. lia.
    + intros Heq. apply (inj Itoa) in Heq. lia.
Qed.

(** X3. The index allocated depends on the keys of the map only, not on
    the owners recorded under them. *)
Theorem X3_allocation_depends_on_keys indexes1 indexes2 :
  dom indexes1 = dom indexes2 → nextIndex indexes1 = nextIndex indexes2.
Proof.
  intros Hdom. symmetry. apply nextIndex_unique.
  - apply nextIndex_range.
  - apply not_elem_of_dom. rewrite <- Hdom. apply not_elem_of_dom.
    apply nextIndex_free.
  - intros j Hj. apply elem_of_dom. rewrite <- Hdom. apply elem_of_dom.
    by apply nextIndex_below.
Qed.

End AllocatorMore.


(** ** More on the deletion pass *)

Section DeletionMore.
Context `{Schema} `{MapRange} {C : Type} `{Client C}.
Implicit Types (m : DataTemplateManager C)
  (st : Metal3DataTemplate.Metal3DataTemplateStatus).

(** X4. The scan of the owner references made for each [DataNames] entry
    (lines 277-296): it answers present exactly when a Metal3Machine
    reference of the group bears the name and every reference before it
    parses; it answers absent exactly when all references parse and none is
    such a reference; otherwise it returns the error of a reference that
    does not parse. *)
Theorem X4_ownerPresent_cases (refs : list OwnerReference.t) (o : string) :
  match ownerPresent refs o with
  | inr true =>
      ∃ pre ref post gv,
        refs = pre ++ ref :: post ∧
        (∀ r, r ∈ pre → ∃ gv', ParseGroupVersion (OwnerReference.APIVersion r)
                               = inr gv') ∧
        ParseGroupVersion (OwnerReference.APIVersion ref) = inr gv ∧
        isMetal3Machine ref gv = true ∧ OwnerReference.Name ref = o
  | inr false =>
      ∀ ref, ref ∈ refs →
        ∃ gv, ParseGroupVersion (OwnerReference.APIVersion ref) = inr gv ∧
              (isMetal3Machine ref gv = false ∨ OwnerReference.Name ref ≠ o)
  | inl err =>
      ∃ pre ref post msg,
        refs = pre ++ ref :: post ∧
        ParseGroupVersion (OwnerReference.APIVersion ref) = inl msg ∧
        err = ErrorString msg ∧
        ∀ r, r ∈ pre →
          ∃ gv, ParseGroupVersion (OwnerReference.APIVersion r) = inr gv ∧
                (isMetal3Machine r gv = false ∨ OwnerReference.Name r ≠ o)
  end.
Proof.
  induction refs as [|ref refs IH]; simpl.
  - intros ref Href. by apply elem_of_nil in Href.
  - destruct (ParseGroupVersion (OwnerReference.APIVersion ref))
      as [msg | gv] eqn:Hparse.
    + exists [], ref, refs, msg. split_and!; try done.
      intros r Hr. by apply elem_of_nil in Hr.
    + assert (Hstep :
        isMetal3Machine ref gv = false ∨ OwnerReference.Name ref ≠ o →
        match ownerPresent refs o with
        | inr true =>
            ∃ pre ref0 post gv0,
              ref :: refs = pre ++ ref0 :: post ∧
              (∀ r, r ∈ pre →
                    ∃ gv', ParseGroupVersion (OwnerReference.APIVersion r)
                           = inr gv') ∧
              ParseGroupVersion (OwnerReference.APIVersion ref0) = inr gv0 ∧
              isMetal3Machine ref0 gv0 = true ∧ OwnerReference.Name ref0 = o
        | inr false =>
            ∀ ref0, ref0 ∈ ref :: refs →
              ∃ gv0, ParseGroupVersion (OwnerReference.APIVersion ref0)
                     = inr gv0 ∧
                     (isMetal3Machine ref0 gv0 = false ∨
                      OwnerReference.Name ref0 ≠ o)
        | inl err =>
            ∃ pre ref0 post msg,
              ref :: refs = pre ++ ref0 :: post ∧
              ParseGroupVersion (OwnerReference.APIVersion ref0) = inl msg ∧
              err = ErrorString msg ∧
              ∀ r, r ∈ pre →
                ∃ gv0, ParseGroupVersion (OwnerReference.APIVersion r)
                       = inr gv0 ∧
                       (isMetal3Machine r gv0 = false ∨
                        OwnerReference.Name r ≠ o)
        end).
      { intros Hskip. destruct (ownerPresent refs o) as [err | [|]].
        - destruct IH as (pre & ref0 & post & msg & -> & Hp & He & Hpre).
          exists (ref :: pre), ref0, post, msg. split_and!; try done.
          intros r [-> | Hr]%elem_of_cons; [eauto | by apply Hpre].
        - destruct IH as (pre & ref0 & post & gv0 & -> & Hpre & Hp & Hm & Hn).
          exists (ref :: pre), ref0, post, gv0. split_and!; try done.
          intros r [-> | Hr]%elem_of_cons; [eauto | by apply Hpre].
        - intros ref0 [-> | Hr]%elem_of_cons; [eauto | by apply IH]. }
      destruct (isMetal3Machine ref gv) eqn:Hm; simpl.
      * case_bool_decide as Hname.
        -- exists [], ref, refs, gv. split_and!; try done.
           intros r Hr. by apply elem_of_nil in Hr.
        -- apply Hstep. right. congruence.
      * apply Hstep. by left.
Qed.



Lemma DeleteDatas_body_calls o d m :
  ∃ cs, calls (DeleteDatas_body o d m).1 = cs ++ calls m ∧
        Forall (λ c, isCallGetOrDelete c = true) cs.
Proof.
  unfold DeleteDatas_body.
  destruct (ownerPresent _ o) as [err | [|]]; [by exists [] | by exists [] |].
  unfold doGet. destruct (client_Get _ _) as [c [err | obj]]; simpl.
  - exists [CallGet (ObjectKey.mk d (Metal3DataTemplate.Namespace
                                        (DataTemplate m)))].
    split; [by destruct (IsNotFound err) | by repeat constructor].
  - unfold doDelete. simpl. destruct (client_Delete c obj) as [c' [err |]];
      simpl;
      (exists [CallDelete obj;
               CallGet (ObjectKey.mk d (Metal3DataTemplate.Namespace
                                          (DataTemplate m)))];
       split; [try destruct (IsNotFound err); done | by repeat constructor]).
Qed.

(** In every case the loop only removes entries, touches nothing of the
    template but its status, and calls nothing but Get and Delete. *)
Lemma DeleteDatas_loop_shrinks entries m :
  let m' := (DeleteDatas_loop entries m).1 in
  Metal3DataTemplate.setStatus (Status (DataTemplate m)) (DataTemplate m')
    = DataTemplate m ∧
  Indexes (Status (DataTemplate m')) ⊆ Indexes (Status (DataTemplate m)) ∧
  DataNames (Status (DataTemplate m')) ⊆ DataNames (Status (DataTemplate m)) ∧
  ∃ cs, calls m' = cs ++ calls m ∧
        Forall (λ c, isCallGetOrDelete c = true) cs.
Proof.
  revert m. induction entries as [|[o d] entries IH]; intros m; simpl.
  - split; [apply setStatus_Status |]. split; [done |]. split; [done |].
    by exists [].
  - destruct (DeleteDatas_body_calls o d m) as (cs1 & Hcs1 & Hall1).
    destruct (DeleteDatas_body o d m) as [m1 [err |]] eqn:Hbody; simpl in *.
    + destruct (DeleteDatas_body_cases _ _ _ _ _ Hbody) as [_ [_ ->]].
      split; [apply setStatus_Status |]. split; [done |]. split; [done |].
      eauto.
    + destruct (IH m1) as (Hframe & Hidx & Hnames & cs & Hcs & Hall).
      assert (Hstep :
        Metal3DataTemplate.setStatus (Status (DataTemplate m)) (DataTemplate m1)
          = DataTemplate m ∧
        Indexes (Status (DataTemplate m1)) ⊆ Indexes (Status (DataTemplate m)) ∧
        DataNames (Status (DataTemplate m1))
          ⊆ DataNames (Status (DataTemplate m))).
      { destruct (DeleteDatas_body_cases _ _ _ _ _ Hbody)
          as [_ [[_ ->] | [_ ->]]].
        - split; [apply setStatus_Status | done].
        - destruct (DataTemplate m). simpl.
          split; [done |]. split; apply delete_subseteq. }
      destruct Hstep as (Hframe1 & Hidx1 & Hnames1).
      split.
      { rewrite <- Hframe1 at 2. rewrite <- Hframe.
        by destruct (DataTemplate (DeleteDatas_loop entries m1).1). }
      split; [by etrans |]. split; [by etrans |].
      exists (cs ++ cs1). rewrite Hcs, Hcs1, <- app_assoc.
      split; [done | by apply Forall_app].
Qed.

(** X5. Whatever it returns, DeleteDatas only removes entries from the two
    maps, changes nothing of the template but its status, and calls
    nothing but Get, Delete and, last, the clock: it never lists and never
    creates. *)
Theorem X5_DeleteDatas_only_removes m :
  let m' := (DeleteDatas m).1 in
  Metal3DataTemplate.setStatus (Status (DataTemplate m)) (DataTemplate m')
    = DataTemplate m ∧
  Indexes (Status (DataTemplate m')) ⊆ Indexes (Status (DataTemplate m)) ∧
  DataNames (Status (DataTemplate m')) ⊆ DataNames (Status (DataTemplate m)) ∧
  ∃ cs, calls m' =
          match (DeleteDatas m).2 with None => [CallNow] | Some _ => [] end
          ++ cs ++ calls m ∧
        Forall (λ c, isCallGetOrDelete c = true) cs.
Proof.
  unfold DeleteDatas.
  destruct (DeleteDatas_loop_shrinks
              (range (DataNames (Status (DataTemplate m)))) m)
    as (Hframe & Hidx & Hnames & cs & Hcs & Hall).
  destruct (DeleteDatas_loop _ m) as [m1 [err |]]; simpl in *.
  - split; [done |]. split; [done |]. split; [done |]. eauto.
  - unfold updateStatusTimestamp. destruct (metav1_Now (client m1)) as [c now].
    simpl. split.
    { rewrite <- Hframe. by destruct (DataTemplate m1). }
    split; [by destruct (DataTemplate m1) |].
    split; [by destruct (DataTemplate m1) |].
    exists cs. by rewrite Hcs.
Qed.

(** A loop over entries whose owners are all present changes nothing. *)
Lemma DeleteDatas_loop_all_present entries m :
  (∀ o, o ∈ entries.*1 →
        ownerPresent (Metal3DataTemplate.OwnerReferences (DataTemplate m)) o
          = inr true) →
  DeleteDatas_loop entries m = (m, None).
Proof.
  induction entries as [|[o d] entries IH]; intros Hall; simpl; [done |].
  unfold DeleteDatas_body. rewrite (Hall o) by left.
  apply IH. intros o' Ho'. apply Hall. by right.
Qed.

Lemma updateStatusTimestamp_keeps m :
  Indexes (Status (DataTemplate (updateStatusTimestamp m)))
    = Indexes (Status (DataTemplate m)) ∧
  DataNames (Status (DataTemplate (updateStatusTimestamp m)))
    = DataNames (Status (DataTemplate m)) ∧
  Metal3DataTemplate.OwnerReferences (DataTemplate (updateStatusTimestamp m))
    = Metal3DataTemplate.OwnerReferences (DataTemplate m) ∧
  calls (updateStatusTimestamp m) = CallNow :: calls m.
Proof.
  unfold updateStatusTimestamp. destruct (metav1_Now (client m)) as [c now].
  simpl. by destruct (DataTemplate m).
Qed.

(** After a pass that returned nil every owner left in [DataNames] is
    found present. *)
Lemma DeleteDatas_loop_leaves_present m m1 :
  DeleteDatas_loop (range (DataNames (Status (DataTemplate m)))) m
    = (m1, None) →
  Metal3DataTemplate.OwnerReferences (DataTemplate m1)
    = Metal3DataTemplate.OwnerReferences (DataTemplate m) ∧
  ∀ o, is_Some (DataNames (Status (DataTemplate m1)) !! o) →
       ownerPresent (Metal3DataTemplate.OwnerReferences (DataTemplate m)) o
         = inr true.
Proof.
  intros Hloop.
  destruct (DeleteDatas_loop_spec _ _ _ Hloop)
    as (Hframe & Hparsed & _ & Hgone & _ & _).
  pose proof (DeleteDatas_loop_shrinks
                (range (DataNames (Status (DataTemplate m)))) m) as Hs.
  rewrite Hloop in Hs. simpl in Hs. destruct Hs as (_ & _ & Hnames & _).
  split.
  { rewrite <- Hframe. by destruct (DataTemplate m1). }
  intros o Ho.
  assert (Hin : o ∈ (range (DataNames (Status (DataTemplate m)))).*1).
  { apply elem_of_range_keys. by eapply lookup_weaken_is_Some. }
  destruct (Hparsed o Hin) as [[|] Hb]; [done |].
  rewrite (Hgone o Hin Hb) in Ho. by destruct Ho.
Qed.

(** X6. The deletion pass is idempotent: after a pass that returned nil, a
    second pass over the same owner references fetches and deletes
    nothing, returns nil, and leaves both maps as the first pass left
    them. *)
Theorem X6_DeleteDatas_idempotent m :
  (DeleteDatas m).2 = None →
  let m1 := (DeleteDatas m).1 in
  let m2 := (DeleteDatas m1).1 in
  (DeleteDatas m1).2 = None ∧
  Indexes (Status (DataTemplate m2)) = Indexes (Status (DataTemplate m1)) ∧
  DataNames (Status (DataTemplate m2)) = DataNames (Status (DataTemplate m1)) ∧
  calls m2 = CallNow :: calls m1.
Proof.
  intros Hnil m1 m2.
  assert (Hloop1 : DeleteDatas_loop
                     (range (DataNames (Status (DataTemplate m1)))) m1
                   = (m1, None)).
  { apply DeleteDatas_loop_all_present. intros o Ho.
    apply elem_of_range_keys in Ho.
    subst m1. unfold DeleteDatas in *.
    destruct (DeleteDatas_loop _ m) as [mx [err |]] eqn:Hloop; [done |].
    destruct (DeleteDatas_loop_leaves_present _ _ Hloop) as [Hrefs Hpresent].
    destruct (updateStatusTimestamp_keeps mx) as (_ & Hnames & Hrefs' & _).
    cbn [fst] in *. rewrite Hrefs', Hrefs. apply Hpresent.
    by rewrite <- Hnames. }
  subst m2. unfold DeleteDatas. rewrite Hloop1. cbn [fst snd].
  destruct (updateStatusTimestamp_keeps m1) as (Hi & Hn & _ & Hc).
  done.
Qed.



(** X16. With no [DataNames] entry the deletion pass has nothing to visit:
    it returns nil after reading the clock, whatever the owner references
    are (they are not even parsed) and whatever [Indexes] holds. *)
Theorem X16_DeleteDatas_no_entries m :
  DataNames (Status (DataTemplate m)) = ∅ →
  DeleteDatas m = (updateStatusTimestamp m, None).
Proof.
  intros Hempty. unfold DeleteDatas.
  assert (range (DataNames (Status (DataTemplate m))) = []) as ->; [| done].
  apply Permutation_nil_r. rewrite range_perm, Hempty.
  by rewrite map_to_list_empty.
Qed.

End DeletionMore.

(** ** More on the creation pass *)

Section CreationMore.
Context `{Schema} `{MapRange} {C : Type} `{Client C}.
Implicit Types (m : DataTemplateManager C) (ref : OwnerReference.t)
  (st : Metal3DataTemplate.Metal3DataTemplateStatus).

(** A body that leaves with no requeue needed has either left the template
    alone or recorded, for a Metal3Machine reference of the group without
    entry, the lowest free index and the name made of it. *)
Lemma CreateDatas_body_quiet_named ref rq m m' :
  CreateDatas_body ref rq m = (m', Next false) →
  DataTemplate m' = DataTemplate m ∨
  ∃ gv, ParseGroupVersion (OwnerReference.APIVersion ref) = inr gv ∧
        isMetal3Machine ref gv = true ∧
        DataNames (Status (DataTemplate m)) !! OwnerReference.Name ref = None ∧
        DataTemplate m' =
          Metal3DataTemplate.setStatus
            (recordIndex (Status (DataTemplate m))
               (Itoa (nextIndex (Indexes (Status (DataTemplate m)))))
               (OwnerReference.Name ref)
               (Metal3DataTemplate.Name (DataTemplate m) +:+ "-" +:+
                Itoa (nextIndex (Indexes (Status (DataTemplate m))))))
            (DataTemplate m).
Proof.
  unfold CreateDatas_body.
  destruct (ParseGroupVersion (OwnerReference.APIVersion ref)) as [msg | gv]
    eqn:Hparse; [done |].
  destruct (isMetal3Machine ref gv) eqn:Hm; simpl;
    [| intros [= <- _]; by left].
  case_bool_decide as Hprov; [intros [= <- _]; by left |].
  unfold doGetM3Machine.
  destruct (getM3Machine _ _ _ _) as [c2 [err | [mach |]]]; simpl;
    [done | | intros [= <- _]; by left].
  destruct (Metal3DataTemplate.Labels (DataTemplate m) !! ClusterLabelName)
    as [clusterName |]; [| done].
  unfold doCreate. simpl.
  destruct (createObject _ _) as [c3 [err |]]; simpl.
  - destruct (HasRequeueAfterError err); [| done].
    by destruct (RecreateStatus _) as [m2 [lerr |]].
  - intros [= <- _]. right. exists gv. split_and!; try done.
    by apply eq_None_not_Some.
Qed.

(** Without a conflict the loop only adds entries, and only for
    Metal3Machine references of the group among those it walks. *)
Lemma CreateDatas_loop_quiet_grows refs rq m m' :
  CreateDatas_loop refs rq m = (m', Next false) →
  Metal3DataTemplate.setStatus (Status (DataTemplate m)) (DataTemplate m')
    = DataTemplate m ∧
  Indexes (Status (DataTemplate m)) ⊆ Indexes (Status (DataTemplate m')) ∧
  DataNames (Status (DataTemplate m)) ⊆ DataNames (Status (DataTemplate m')) ∧
  ∀ o, is_Some (DataNames (Status (DataTemplate m')) !! o) →
       is_Some (DataNames (Status (DataTemplate m)) !! o) ∨
       ∃ ref gv, ref ∈ refs ∧
                 ParseGroupVersion (OwnerReference.APIVersion ref) = inr gv ∧
                 isMetal3Machine ref gv = true ∧ OwnerReference.Name ref = o.
Proof.
  revert rq m. induction refs as [|ref refs IH]; intros rq m; simpl.
  - intros [= <- _]. split; [apply setStatus_Status |].
    split; [done |]. split; [done |]. intros o Ho. by left.
  - destruct (CreateDatas_body ref rq m) as [m1 [rq1 | err]] eqn:Hbody;
      [| done].
    intros Hloop. destruct rq1.
    { by apply CreateDatas_loop_requeue in Hloop. }
    destruct (IH _ _ Hloop) as (Hframe & Hidx & Hnames & Hnew). clear IH.
    apply CreateDatas_body_quiet_named in Hbody
      as [Hd | (gv & Hparse & Hm & Hfree & Hd)]; rewrite Hd in *.
    + split; [done |]. split; [done |]. split; [done |].
      intros o Ho. destruct (Hnew o Ho) as [? | (r & g & Hin & ?)];
        [by left | right]. exists r, g. split; [by right | done].
    + clear Hd. split.
      { clear -Hframe. destruct (DataTemplate m), (DataTemplate m').
        simpl in *. by simplify_eq. }
      assert (Hidx1 : Indexes (Status (DataTemplate m))
                ⊆ <[Itoa (nextIndex (Indexes (Status (DataTemplate m))))
                    := OwnerReference.Name ref]>
                    (Indexes (Status (DataTemplate m))))
        by apply insert_subseteq, nextIndex_free.
      unfold recordIndex in *. simpl in *.
      split; [by etrans |].
      split.
      { etrans; [by apply insert_subseteq | done]. }
      intros o Ho. destruct (Hnew o Ho) as [Hold | (r & g & Hin & ?)].
      * apply lookup_insert_is_Some' in Hold as [<- | Hold]; [| by left].
        right. exists ref, gv. split; [left | done].
      * right. exists r, g. split; [by right | done].
Qed.

(** X8. A creation pass that returns nil only adds: every entry of
    [Indexes] and [DataNames] is kept as it was, nothing of the template
    but its status changes, and every owner that gained a name is named by
    a Metal3Machine owner reference of the group. *)
Theorem X8_CreateDatas_only_adds m :
  (CreateDatas m).2 = None →
  let m' := (CreateDatas m).1 in
  Metal3DataTemplate.setStatus (Status (DataTemplate m)) (DataTemplate m')
    = DataTemplate m ∧
  Indexes (Status (DataTemplate m)) ⊆ Indexes (Status (DataTemplate m')) ∧
  DataNames (Status (DataTemplate m)) ⊆ DataNames (Status (DataTemplate m')) ∧
  ∀ o, is_Some (DataNames (Status (DataTemplate m')) !! o) →
       is_Some (DataNames (Status (DataTemplate m)) !! o) ∨
       ∃ ref gv,
         ref ∈ Metal3DataTemplate.OwnerReferences (DataTemplate m) ∧
         ParseGroupVersion (OwnerReference.APIVersion ref) = inr gv ∧
         isMetal3Machine ref gv = true ∧ OwnerReference.Name ref = o.
Proof.
  unfold CreateDatas.
  destruct (CreateDatas_loop _ false m) as [m1 [rq1 | err]] eqn:Hloop;
    [| done].
  destruct rq1; [done |]. intros _.
  destruct (CreateDatas_loop_quiet_grows _ _ _ _ Hloop)
    as (Hframe & Hidx & Hnames & Hnew).
  unfold updateStatusTimestamp. destruct (metav1_Now (client m1)) as [c now].
  simpl. split.
  { rewrite <- Hframe. by destruct (DataTemplate m1). }
  split; [by destruct (DataTemplate m1) |].
  split; [by destruct (DataTemplate m1) |].
  intros o Ho. apply Hnew. by destruct (DataTemplate m1).
Qed.


(** *** Names follow indexes *)

Lemma recordIndex_namesFollowIndexes name st o :
  namesFollowIndexes name st →
  namesFollowIndexes name
    (recordIndex st (Itoa (nextIndex (Indexes st))) o
       (name +:+ "-" +:+ Itoa (nextIndex (Indexes st)))).
Proof.
  intros Hinv o' n. unfold recordIndex. simpl.
  intros [[<- <-] | [Hne Hold]]%lookup_insert_Some.
  - exists (nextIndex (Indexes st)).
    split; [apply nextIndex_range |]. split; [done |]. apply lookup_insert_eq.
  - destruct (Hinv _ _ Hold) as (i & Hi & -> & Hidx).
    exists i. split; [done |]. split; [done |].
    rewrite lookup_insert_ne; [done |].
    intros Heq. rewrite <- Heq, nextIndex_free in Hidx. done.
Qed.

Lemma forgetMachine_namesFollowIndexes name st o :
  namesFollowIndexes name st → is_Some (DataNames st !! o) →
  namesFollowIndexes name (forgetMachine st o).
Proof.
  intros Hinv [n0 Hn0] o' n. unfold forgetMachine. simpl.
  intros [Hne Hold]%lookup_delete_Some.
  destruct (Hinv _ _ Hold) as (i & Hi & -> & Hidx).
  destruct (Hinv _ _ Hn0) as (i0 & _ & _ & Hidx0).
  exists i. split; [done |]. split; [done |].
  rewrite lookup_delete_ne; [done |].
  intros Heq. pose proof (findDeletionIndex_found _ _ _ Hidx0) as Hdi.
  rewrite Heq in Hdi. congruence.
Qed.

Lemma CreateDatas_loop_namesFollowIndexes refs rq m m' :
  CreateDatas_loop refs rq m = (m', Next false) →
  namesFollowIndexes (Metal3DataTemplate.Name (DataTemplate m))
    (Status (DataTemplate m)) →
  namesFollowIndexes (Metal3DataTemplate.Name (DataTemplate m))
    (Status (DataTemplate m')).
Proof.
  revert rq m. induction refs as [|ref refs IH]; intros rq m; simpl.
  - by intros [= <- _].
  - destruct (CreateDatas_body ref rq m) as [m1 [rq1 | err]] eqn:Hbody;
      [| done].
    intros Hloop Hinv. destruct rq1.
    { by apply CreateDatas_loop_requeue in Hloop. }
    pose proof (IH _ _ Hloop) as IH'. clear IH.
    apply CreateDatas_body_quiet_named in Hbody
      as [Hd | (gv & _ & _ & _ & Hd)]; rewrite Hd in IH'.
    + by apply IH'.
    + destruct (DataTemplate m). simpl in *. apply IH'.
      by apply recordIndex_namesFollowIndexes.
Qed.

Lemma DeleteDatas_loop_namesFollowIndexes name entries m m' :
  NoDup entries.*1 →
  (∀ o, o ∈ entries.*1 → is_Some (DataNames (Status (DataTemplate m)) !! o)) →
  DeleteDatas_loop entries m = (m', None) →
  namesFollowIndexes name (Status (DataTemplate m)) →
  namesFollowIndexes name (Status (DataTemplate m')).
Proof.
  revert m. induction entries as [|[o d] entries IH]; intros m; simpl.
  - by intros _ _ [= <-].
  - intros [Ho Hnd]%NoDup_cons Hnamed.
    destruct (DeleteDatas_body o d m) as [m1 [err |]] eqn:Hbody; [done |].
    intros Hloop Hinv.
    destruct (DeleteDatas_body_cases _ _ _ _ _ Hbody)
      as [_ [[_ Hd] | [_ Hd]]].
    + apply (IH m1); rewrite ?Hd; try done.
      intros o' Ho'. apply Hnamed. by right.
    + apply (IH m1); rewrite ?Hd; try done.
      * intros o' Ho'. destruct (DataTemplate m). simpl.
        rewrite lookup_delete_ne; [apply Hnamed; by right |].
        intros ->. done.
      * destruct (DataTemplate m). simpl in *.
        apply forgetMachine_namesFollowIndexes; [done |]. apply Hnamed. left.
Qed.

(** X9. The names recorded follow the indexes: if every [DataNames] entry
    is the template name, a dash and the decimal of a non-negative index
    under which [Indexes] records the same owner, then this is again so
    after a creation pass that returns nil and after a deletion pass that
    returns nil.  In such a status no two owners share a name. *)
Theorem X9_names_follow_indexes m :
  let name := Metal3DataTemplate.Name (DataTemplate m) in
  namesFollowIndexes name (Status (DataTemplate m)) →
  ((CreateDatas m).2 = None →
   namesFollowIndexes name (Status (DataTemplate (CreateDatas m).1))) ∧
  ((DeleteDatas m).2 = None →
   namesFollowIndexes name (Status (DataTemplate (DeleteDatas m).1))) ∧
  (∀ o1 o2 n, DataNames (Status (DataTemplate m)) !! o1 = Some n →
              DataNames (Status (DataTemplate m)) !! o2 = Some n → o1 = o2).
Proof.
  intros name Hinv. split; [| split].
  - unfold CreateDatas.
    destruct (CreateDatas_loop _ false m) as [m1 [rq1 | err]] eqn:Hloop;
      [| done].
    destruct rq1; [done |]. intros _.
    pose proof (CreateDatas_loop_namesFollowIndexes _ _ _ _ Hloop Hinv) as H1'.
    unfold updateStatusTimestamp. destruct (metav1_Now (client m1)) as [c now].
    simpl. by destruct (DataTemplate m1).
  - unfold DeleteDatas.
    destruct (DeleteDatas_loop _ m) as [m1 [err |]] eqn:Hloop; [done |].
    intros _.
    pose proof (DeleteDatas_loop_namesFollowIndexes name _ _ _
                  (NoDup_range_keys _)
                  (λ o Ho, proj1 (elem_of_range_keys _ o) Ho) Hloop Hinv)
      as H1'.
    unfold updateStatusTimestamp. destruct (metav1_Now (client m1)) as [c now].
    simpl. by destruct (DataTemplate m1).
  - intros o1 o2 n Hn1 Hn2.
    destruct (Hinv _ _ Hn1) as (i1 & _ & Hi1 & Hidx1).
    destruct (Hinv _ _ Hn2) as (i2 & _ & Hi2 & Hidx2).
    rewrite Hi1 in Hi2. do 2 apply (inj (String.app _)) in Hi2.
    apply (inj Itoa) in Hi2. subst i2. congruence.
Qed.


(** *** What the pass leaves alone, and what it creates *)

(** Two templates that differ in their status at most. *)
Lemma setStatus_fields (d d' : Metal3DataTemplate.t) :
  Metal3DataTemplate.setStatus (Status d) d' = d →
  Metal3DataTemplate.Name d' = Metal3DataTemplate.Name d ∧
  Metal3DataTemplate.Namespace d' = Metal3DataTemplate.Namespace d ∧
  Metal3DataTemplate.Labels d' = Metal3DataTemplate.Labels d ∧
  Metal3DataTemplate.OwnerReferences d' = Metal3DataTemplate.OwnerReferences d ∧
  ∀ ref clusterName i dataName,
    newMetal3Data d' ref clusterName i dataName
    = newMetal3Data d ref clusterName i dataName.
Proof. intros <-. by destruct d'. Qed.

Lemma setStatus_trans (d d1 d2 : Metal3DataTemplate.t) :
  Metal3DataTemplate.setStatus (Status d) d1 = d →
  Metal3DataTemplate.setStatus (Status d1) d2 = d1 →
  Metal3DataTemplate.setStatus (Status d) d2 = d.
Proof. intros <- <-. by destruct d2. Qed.

(** The body, whatever it returns: it changes nothing of the template but
    its status, and the one object it may ask to create is the Metal3Data
    of the owner reference at the index allocated. *)
Lemma CreateDatas_body_creates ref rq m :
  let m' := (CreateDatas_body ref rq m).1 in
  Metal3DataTemplate.setStatus (Status (DataTemplate m)) (DataTemplate m')
    = DataTemplate m ∧
  ∀ obj, CallCreate obj ∈ calls m' →
    CallCreate obj ∈ calls m ∨
    ∃ gv clusterName i,
      ParseGroupVersion (OwnerReference.APIVersion ref) = inr gv ∧
      isMetal3Machine ref gv = true ∧
      Metal3DataTemplate.Labels (DataTemplate m) !! ClusterLabelName
        = Some clusterName ∧
      0 ≤ i ∧
      obj = newMetal3Data (DataTemplate m) ref clusterName i
              (Metal3DataTemplate.Name (DataTemplate m) +:+ "-" +:+ Itoa i).
Proof.
  unfold CreateDatas_body.
  destruct (ParseGroupVersion (OwnerReference.APIVersion ref)) as [msg | gv]
    eqn:Hparse; simpl.
  { split; [apply setStatus_Status | by left]. }
  destruct (isMetal3Machine ref gv) eqn:Hm; simpl;
    [| split; [apply setStatus_Status | by left]].
  case_bool_decide as Hprov; simpl;
    [split; [apply setStatus_Status | by left] |].
  unfold doGetM3Machine.
  destruct (getM3Machine _ _ _ _) as [c2 [err | [mach |]]]; simpl;
    [split; [apply setStatus_Status | intros obj [[=] | ?]%elem_of_cons; by left] |
     | split; [apply setStatus_Status | intros obj [[=] | ?]%elem_of_cons; by left]].
  destruct (Metal3DataTemplate.Labels (DataTemplate m) !! ClusterLabelName)
    as [clusterName |] eqn:Hlabel; simpl;
    [| split; [apply setStatus_Status | intros obj [[=] | ?]%elem_of_cons; by left]].
  unfold doCreate. simpl.
  set (i := nextIndex (Indexes (Status (DataTemplate m)))).
  set (obj0 := newMetal3Data _ ref clusterName i _).
  assert (Hobj0 : obj0 = newMetal3Data (DataTemplate m) ref clusterName i
                    (Metal3DataTemplate.Name (DataTemplate m) +:+ "-" +:+
                     Itoa i)) by done.
  assert (Hmine : ∀ obj, obj = obj0 →
    ∃ gv0 clusterName0 i0,
      @inr string GroupVersion.t gv = inr gv0 ∧
      isMetal3Machine ref gv0 = true ∧
      Some clusterName = Some clusterName0 ∧ 0 ≤ i0 ∧
      obj = newMetal3Data (DataTemplate m) ref clusterName0 i0
              (Metal3DataTemplate.Name (DataTemplate m) +:+ "-" +:+ Itoa i0)).
  { intros obj ->. exists gv, clusterName, i. split_and!; try done.
    apply nextIndex_range. }
  clearbody obj0.
  destruct (createObject c2 obj0) as [c3 [err |]]; simpl.
  - destruct (HasRequeueAfterError err); simpl.
    + match goal with |- context [RecreateStatus ?x] =>
        pose proof (RecreateStatus_template x) as Hframe;
        pose proof (RecreateStatus_calls x) as Hcalls;
        destruct (RecreateStatus x) as [m2 [lerr |]] end; simpl in *.
      * split.
        { clear -Hframe. destruct (DataTemplate m), (DataTemplate m2).
          simpl in *. by simplify_eq. }
        intros obj. rewrite Hcalls. simpl.
        intros [[=] | [[= ->] | [[=] | Hold]%elem_of_cons]%elem_of_cons]
          %elem_of_cons; [right; by apply Hmine | by left].
      * split.
        { clear -Hframe. destruct (DataTemplate m), (DataTemplate m2).
          simpl in *. by simplify_eq. }
        intros obj. rewrite Hcalls. simpl.
        intros [[=] | [[=] | [[= ->] | [[=] | Hold]%elem_of_cons]%elem_of_cons]
          %elem_of_cons]%elem_of_cons; [right; by apply Hmine | by left].
    + split; [by destruct (DataTemplate m) |].
      intros obj [[= ->] | [[=] | Hold]%elem_of_cons]%elem_of_cons;
        [right; by apply Hmine | by left].
  - split; [by destruct (DataTemplate m) |].
    intros obj [[= ->] | [[=] | Hold]%elem_of_cons]%elem_of_cons;
      [right; by apply Hmine | by left].
Qed.

Lemma CreateDatas_loop_creates refs rq m :
  let m' := (CreateDatas_loop refs rq m).1 in
  Metal3DataTemplate.setStatus (Status (DataTemplate m)) (DataTemplate m')
    = DataTemplate m ∧
  ∀ obj, CallCreate obj ∈ calls m' →
    CallCreate obj ∈ calls m ∨
    ∃ ref gv clusterName i,
      ref ∈ refs ∧
      ParseGroupVersion (OwnerReference.APIVersion ref) = inr gv ∧
      isMetal3Machine ref gv = true ∧
      Metal3DataTemplate.Labels (DataTemplate m) !! ClusterLabelName
        = Some clusterName ∧
      0 ≤ i ∧
      obj = newMetal3Data (DataTemplate m) ref clusterName i
              (Metal3DataTemplate.Name (DataTemplate m) +:+ "-" +:+ Itoa i).
Proof.
  revert rq m. induction refs as [|ref refs IH]; intros rq m; simpl.
  - split; [apply setStatus_Status | by left].
  - destruct (CreateDatas_body_creates ref rq m) as [Hframe1 Hobj1].
    destruct (CreateDatas_body ref rq m) as [m1 [rq1 | err]]; simpl in *.
    + destruct (IH rq1 m1) as [Hframe Hobj]. clear IH.
      split; [by eapply setStatus_trans |].
      destruct (setStatus_fields _ _ Hframe1) as (Hn & _ & Hl & _ & Hnew).
      intros obj Hin.
      destruct (Hobj obj Hin)
        as [Hold | (r & gv & cn & i & Hr & Hp & Hm & Hlab & Hi & ->)].
      * destruct (Hobj1 obj Hold)
          as [? | (gv & cn & i & Hp & Hm & Hlab & Hi & ->)]; [by left |].
        right. exists ref, gv, cn, i. split_and!; try done. left.
      * right. exists r, gv, cn, i. rewrite <- Hl, <- Hn, Hnew.
        split_and!; try done. by right.
    + split; [done |]. intros obj Hin.
      destruct (Hobj1 obj Hin)
        as [? | (gv & cn & i & Hp & Hm & Hlab & Hi & ->)]; [by left |].
      right. exists ref, gv, cn, i. split_and!; try done. left.
Qed.

(** X15. Whatever CreateDatas returns, it changes nothing of the template
    but its status, and every object it asks to create is the Metal3Data of
    a Metal3Machine owner reference of the group, named after the template
    and a non-negative index, pointing to the template and to the machine:
    an object that the loop of RecreateStatus reads back as exactly the two
    entries recorded for it. *)
Theorem X15_CreateDatas_creates_what_RecreateStatus_reads m :
  let d := DataTemplate m in
  let m' := (CreateDatas m).1 in
  Metal3DataTemplate.setStatus (Status d) (DataTemplate m') = d ∧
  ∀ obj, CallCreate obj ∈ calls m' →
    CallCreate obj ∈ calls m ∨
    ∃ ref gv clusterName i,
      ref ∈ Metal3DataTemplate.OwnerReferences d ∧
      ParseGroupVersion (OwnerReference.APIVersion ref) = inr gv ∧
      isMetal3Machine ref gv = true ∧
      Metal3DataTemplate.Labels d !! ClusterLabelName = Some clusterName ∧
      0 ≤ i ∧
      obj = newMetal3Data d ref clusterName i
              (Metal3DataTemplate.Name d +:+ "-" +:+ Itoa i) ∧
      Metal3Data.Namespace obj = Metal3DataTemplate.Namespace d ∧
      ∀ st, recordData (Metal3DataTemplate.Name d) st obj
            = recordIndex st (Itoa i) (OwnerReference.Name ref)
                (Metal3DataTemplate.Name d +:+ "-" +:+ Itoa i).
Proof.
  intros d m'. subst m'. unfold CreateDatas.
  destruct (CreateDatas_loop_creates
              (Metal3DataTemplate.OwnerReferences d) false m) as [Hframe Hobj].
  fold d in Hframe, Hobj.
  assert (Hshape : ∀ obj,
    CallCreate obj ∈ calls (CreateDatas_loop
                              (Metal3DataTemplate.OwnerReferences d) false m).1 →
    CallCreate obj ∈ calls m ∨
    ∃ ref gv clusterName i,
      ref ∈ Metal3DataTemplate.OwnerReferences d ∧
      ParseGroupVersion (OwnerReference.APIVersion ref) = inr gv ∧
      isMetal3Machine ref gv = true ∧
      Metal3DataTemplate.Labels d !! ClusterLabelName = Some clusterName ∧
      0 ≤ i ∧
      obj = newMetal3Data d ref clusterName i
              (Metal3DataTemplate.Name d +:+ "-" +:+ Itoa i) ∧
      Metal3Data.Namespace obj = Metal3DataTemplate.Namespace d ∧
      ∀ st, recordData (Metal3DataTemplate.Name d) st obj
            = recordIndex st (Itoa i) (OwnerReference.Name ref)
                (Metal3DataTemplate.Name d +:+ "-" +:+ Itoa i)).
  { intros obj Hin.
    destruct (Hobj obj Hin)
      as [? | (r & gv & cn & i & Hr & Hp & Hm & Hlab & Hi & ->)]; [by left |].
    right. exists r, gv, cn, i. split_and!; try done.
    intros st. unfold recordData, pointsTo, machineNameOf. simpl.
    by rewrite bool_decide_eq_true_2. }
  destruct (CreateDatas_loop _ false m) as [m1 [rq1 | err]]; simpl in *.
  - assert (Hts : DataTemplate (updateStatusTimestamp m1)
                  = Metal3DataTemplate.setStatus
                      (Status (DataTemplate (updateStatusTimestamp m1)))
                      (DataTemplate m1) ∧
                  calls (updateStatusTimestamp m1) = CallNow :: calls m1).
    { unfold updateStatusTimestamp.
      by destruct (metav1_Now (client m1)) as [c now]. }
    destruct Hts as [Hd Hc].
    assert (Hgoal :
      Metal3DataTemplate.setStatus (Status d)
        (DataTemplate (updateStatusTimestamp m1)) = d ∧
      ∀ obj, CallCreate obj ∈ calls (updateStatusTimestamp m1) →
             CallCreate obj ∈ calls m1).
    { split.
      - rewrite Hd. rewrite <- Hframe at 2. by destruct (DataTemplate m1).
      - intros obj. rewrite Hc. by intros [[=] | ?]%elem_of_cons. }
    destruct Hgoal as [Hg1 Hg2].
    destruct rq1; simpl; (split; [done |]); intros obj Hin;
      by apply Hshape, Hg2.
  - split; [done | exact Hshape].
Qed.

End CreationMore.

Section CreationGuards.
Context `{Schema} `{MapRange} {C : Type} `{Client C}.
Implicit Types (m : DataTemplateManager C) (ref : OwnerReference.t)
  (st : Metal3DataTemplate.Metal3DataTemplateStatus).

(** X12. No index is allocated for an owner before it resolves and the
    cluster label is found.  For a Metal3Machine reference of the group
    without entry, the template is left as it was and nothing is created:
    when [getM3Machine] fails its error is returned; when it finds no
    machine the pass goes on with the references that follow; when it finds
    one and the template has no cluster label the pass returns the error
    "No cluster name found on Metal3DataTemplate object". *)
Theorem X12_unresolved_owner_gets_no_index m pre ref post m1 rq gv :
  Metal3DataTemplate.OwnerReferences (DataTemplate m) = pre ++ ref :: post →
  CreateDatas_loop pre false m = (m1, Next rq) →
  ParseGroupVersion (OwnerReference.APIVersion ref) = inr gv →
  isMetal3Machine ref gv = true →
  DataNames (Status (DataTemplate m1)) !! OwnerReference.Name ref = None →
  let namespace := Metal3DataTemplate.Namespace (DataTemplate m1) in
  let answer := getM3Machine (client m1) (OwnerReference.Name ref) namespace
                  (DataTemplate m1) in
  let mg := mkManager answer.1 (DataTemplate m1)
              (CallGetM3Machine (OwnerReference.Name ref) namespace
               :: calls m1) in
  match answer.2 with
  | inl err => CreateDatas m = (mg, Some err)
  | inr None =>
      CreateDatas_loop (Metal3DataTemplate.OwnerReferences (DataTemplate m))
        false m
      = CreateDatas_loop post rq mg
  | inr (Some _) =>
      Metal3DataTemplate.Labels (DataTemplate m1) !! ClusterLabelName = None →
      CreateDatas m =
        (mg, Some (ErrorString
                     "No cluster name found on Metal3DataTemplate object"))
  end.
Proof.
  intros Hrefs Hpre Hparse Hm Hnew namespace answer mg.
  unfold CreateDatas. rewrite Hrefs, CreateDatas_loop_app, Hpre.
  cbn [CreateDatas_loop]. unfold CreateDatas_body.
  rewrite Hparse, Hm. cbn [negb].
  rewrite bool_decide_eq_false_2 by (rewrite Hnew; by intros [? ?]).
  unfold doGetM3Machine. subst mg answer namespace.
  destruct (getM3Machine _ _ _ _) as [c2 [err | [mach |]]]; cbn [fst snd];
    [done | | done].
  intros Hlabel. cbn [DataTemplate]. by rewrite Hlabel.
Qed.

End CreationGuards.

(** ** More on the deletion readiness *)

Section ReadinessMore.
Context `{Schema} `{MapRange} {C : Type} `{Client C}.
Implicit Types (m : DataTemplateManager C) (ref : OwnerReference.t).

Lemma DeleteReady_loop_cases (refs : list OwnerReference.t) :
  match DeleteReady_loop refs with
  | (true, None) =>
      ∀ ref, ref ∈ refs →
        ∃ gv, ParseGroupVersion (OwnerReference.APIVersion ref) = inr gv ∧
              blocksDeletion ref gv = false
  | (false, None) =>
      ∃ pre ref post gv,
        refs = pre ++ ref :: post ∧
        ParseGroupVersion (OwnerReference.APIVersion ref) = inr gv ∧
        blocksDeletion ref gv = true ∧
        ∀ r, r ∈ pre →
          ∃ gv', ParseGroupVersion (OwnerReference.APIVersion r) = inr gv' ∧
                 blocksDeletion r gv' = false
  | (false, Some err) =>
      ∃ pre ref post msg,
        refs = pre ++ ref :: post ∧
        ParseGroupVersion (OwnerReference.APIVersion ref) = inl msg ∧
        err = ErrorString msg ∧
        ∀ r, r ∈ pre →
          ∃ gv', ParseGroupVersion (OwnerReference.APIVersion r) = inr gv' ∧
                 blocksDeletion r gv' = false
  | (true, Some _) => False
  end.
Proof.
  induction refs as [|ref refs IH].
  - intros ref Href. by apply elem_of_nil in Href.
  - change (DeleteReady_loop (ref :: refs)) with
      (match ParseGroupVersion (OwnerReference.APIVersion ref) with
       | inl err => (false, Some (ErrorString err))
       | inr gv => if blocksDeletion ref gv then (false, None)
                   else DeleteReady_loop refs
       end).
    destruct (ParseGroupVersion (OwnerReference.APIVersion ref))
      as [msg | gv] eqn:Hparse.
    + exists [], ref, refs, msg. split_and!; try done.
      intros r Hr. by apply elem_of_nil in Hr.
    + destruct (blocksDeletion ref gv) eqn:Hb.
      * exists [], ref, refs, gv. split_and!; try done.
        intros r Hr. by apply elem_of_nil in Hr.
      * destruct (DeleteReady_loop refs) as [[|] [err |]]; [done | | |].
        -- intros r [-> | Hr]%elem_of_cons; [eauto | by apply IH].
        -- destruct IH as (pre & r0 & post & msg & -> & Hp & He & Hpre).
           exists (ref :: pre), r0, post, msg. split_and!; try done.
           intros r [-> | Hr]%elem_of_cons; [eauto | by apply Hpre].
        -- destruct IH as (pre & r0 & post & gv0 & -> & Hp & Hbl & Hpre).
           exists (ref :: pre), r0, post, gv0. split_and!; try done.
           intros r [-> | Hr]%elem_of_cons; [eauto | by apply Hpre].
Qed.


(** X13. DeleteReady answers true exactly when every owner reference
    parses and none has the kind Metal3Machine or the expected group; it
    answers false without error at the first reference that has one of
    the two, and false with the parse error at the first that does not
    parse. *)
Theorem X13_DeleteReady_cases m :
  let refs := Metal3DataTemplate.OwnerReferences (DataTemplate m) in
  (DeleteReady m = (true, None) ↔
   ∀ ref, ref ∈ refs →
     ∃ gv, ParseGroupVersion (OwnerReference.APIVersion ref) = inr gv ∧
           blocksDeletion ref gv = false) ∧
  (DeleteReady m = (false, None) ↔
   ∃ pre ref post gv,
     refs = pre ++ ref :: post ∧
     ParseGroupVersion (OwnerReference.APIVersion ref) = inr gv ∧
     blocksDeletion ref gv = true ∧
     ∀ r, r ∈ pre →
       ∃ gv', ParseGroupVersion (OwnerReference.APIVersion r) = inr gv' ∧
              blocksDeletion r gv' = false) ∧
  (∀ err, (DeleteReady m).2 = Some err →
     (DeleteReady m).1 = false ∧
     ∃ pre ref post msg,
       refs = pre ++ ref :: post ∧
       ParseGroupVersion (OwnerReference.APIVersion ref) = inl msg ∧
       err = ErrorString msg ∧
       ∀ r, r ∈ pre →
         ∃ gv', ParseGroupVersion (OwnerReference.APIVersion r) = inr gv' ∧
                blocksDeletion r gv' = false).
Proof.
  intros refs. unfold DeleteReady. fold refs.
  pose proof (DeleteReady_loop_cases refs) as Hcases.
  assert (Hexcl : ∀ pre ref post,
    refs = pre ++ ref :: post →
    (∀ r, r ∈ refs →
       ∃ gv, ParseGroupVersion (OwnerReference.APIVersion r) = inr gv ∧
             blocksDeletion r gv = false) →
    ∃ gv, ParseGroupVersion (OwnerReference.APIVersion ref) = inr gv ∧
          blocksDeletion ref gv = false).
  { intros pre ref post -> Hall. apply Hall. set_solver. }
  assert (Hfirst : ∀ pre1 r1 post1 pre2 r2 post2,
    pre1 ++ r1 :: post1 = pre2 ++ r2 :: post2 →
    (∀ r, r ∈ pre1 →
       ∃ gv, ParseGroupVersion (OwnerReference.APIVersion r) = inr gv ∧
             blocksDeletion r gv = false) →
    (∀ r, r ∈ pre2 →
       ∃ gv, ParseGroupVersion (OwnerReference.APIVersion r) = inr gv ∧
             blocksDeletion r gv = false) →
    (∀ gv, ParseGroupVersion (OwnerReference.APIVersion r1) = inr gv →
           blocksDeletion r1 gv = true) →
    (∀ gv, ParseGroupVersion (OwnerReference.APIVersion r2) = inr gv →
           blocksDeletion r2 gv = true) →
    r1 = r2).
  { induction pre1 as [|a pre1 IHp]; intros r1 post1 [|b pre2] r2 post2;
      simpl; intros [= -> Heq] Hp1 Hp2 Hb1 Hb2.
    - done.
    - destruct (Hp2 b) as (gv & Hgv & Hbl); [left |].
      rewrite (Hb1 gv Hgv) in Hbl. done.
    - destruct (Hp1 r2) as (gv & Hgv & Hbl); [left |].
      rewrite (Hb2 gv Hgv) in Hbl. done.
    - eapply IHp; [exact Heq | | | done | done].
      + intros r Hr. apply Hp1. by right.
      + intros r Hr. apply Hp2. by right. }
  destruct (DeleteReady_loop refs) as [[|] [err |]]; simpl.
  - done.
  - split; [done |]. split; [| done]. split; [done |].
    intros (pre & ref & post & gv & Hrefs & Hp & Hb & _).
    destruct (Hexcl _ _ _ Hrefs Hcases) as (gv' & Hp' & Hb'). congruence.
  - destruct Hcases as (pre & ref & post & msg & Hrefs & Hp & He & Hpre).
    split.
    { split; [done |]. intros Hall.
      destruct (Hexcl _ _ _ Hrefs Hall) as (gv' & Hp' & _). congruence. }
    split.
    { split; [done |].
      intros (pre2 & r2 & post2 & gv2 & Hrefs2 & Hp2 & Hb2 & Hpre2).
      assert (ref = r2) as ->; [| congruence].
      eapply Hfirst; [by rewrite <- Hrefs, <- Hrefs2 | done | done | |].
      - intros gv Hgv. congruence.
      - intros gv Hgv. congruence. }
    intros err' [= <-]. split; [done |]. eauto 10.
  - split.
    { split; [done |]. intros Hall.
      destruct Hcases as (pre & ref & post & gv & Hrefs & Hp & Hb & _).
      destruct (Hexcl _ _ _ Hrefs Hall) as (gv' & Hp' & Hb'). congruence. }
    split; [done | done].
Qed.

(** The owner references DeleteReady lets through name no machine. *)
Lemma unblocked_ownerPresent (refs : list OwnerReference.t) o :
  (∀ ref, ref ∈ refs →
     ∃ gv, ParseGroupVersion (OwnerReference.APIVersion ref) = inr gv ∧
           blocksDeletion ref gv = false) →
  ownerPresent refs o = inr false.
Proof.
  induction refs as [|ref refs IH]; intros Hall; simpl; [done |].
  destruct (Hall ref) as (gv & -> & Hb); [left |].
  unfold blocksDeletion in Hb. apply orb_false_elim in Hb as [Hk _].
  unfold isMetal3Machine. rewrite Hk. simpl.
  apply IH. intros r Hr. apply Hall. by right.
Qed.

(** X14. When DeleteReady answers true the template has no member left:
    every owner is found absent, a creation pass does nothing but read the
    clock and returns nil, and a deletion pass that returns nil leaves
    [DataNames] empty. *)
Theorem X14_ready_template_has_no_member m :
  DeleteReady m = (true, None) →
  (∀ o, ownerPresent (Metal3DataTemplate.OwnerReferences (DataTemplate m)) o
        = inr false) ∧
  CreateDatas m = (updateStatusTimestamp m, None) ∧
  ((DeleteDatas m).2 = None →
   DataNames (Status (DataTemplate (DeleteDatas m).1)) = ∅).
Proof.
  intros Hready. unfold DeleteReady in Hready.
  pose proof (DeleteReady_loop_cases
                (Metal3DataTemplate.OwnerReferences (DataTemplate m))) as Hall.
  rewrite Hready in Hall.
  assert (Habsent : ∀ o,
    ownerPresent (Metal3DataTemplate.OwnerReferences (DataTemplate m)) o
    = inr false) by (intros o; by apply unblocked_ownerPresent).
  split; [done |]. split.
  - unfold CreateDatas.
    destruct (CreateDatas_loop_provisioned
                (Metal3DataTemplate.OwnerReferences (DataTemplate m)) false m)
      as [(msg & _ & ref & Hin & Hparse) | ->]; [| | done].
    + intros ref gv Hin Hparse Hm.
      destruct (Hall ref Hin) as (gv' & Hparse' & Hb).
      unfold blocksDeletion in Hb. apply orb_false_elim in Hb as [Hk _].
      unfold isMetal3Machine in Hm. by rewrite Hk in Hm.
    + destruct (Hall ref Hin) as (gv' & Hparse' & _). congruence.
  - unfold DeleteDatas.
    destruct (DeleteDatas_loop _ m) as [m1 [err |]] eqn:Hloop; [done |].
    intros _.
    destruct (DeleteDatas_loop_spec _ _ _ Hloop)
      as (_ & _ & _ & Hgone & Hkept & _).
    unfold updateStatusTimestamp. destruct (metav1_Now (client m1)) as [c now].
    simpl. apply map_empty. intros o.
    destruct (decide (o ∈ (range (DataNames (Status (DataTemplate m)))).*1))
      as [Hin | Hnin].
    + destruct (DataTemplate m1). simpl in *. by apply Hgone.
    + destruct (DataTemplate m1). simpl in *. rewrite Hkept by tauto.
      apply eq_None_not_Some. intros Hs. apply Hnin.
      by apply elem_of_range_keys.
Qed.

End ReadinessMore.

(** ** More on the reconstruction *)

Section ReconstructionMore.
Context {C : Type} `{Client C}.
Implicit Types (m : DataTemplateManager C).

(** X10. The indexes in use are not handed out again: after RecreateStatus
    has listed the Metal3Data objects, the index that CreateDatas would
    allocate next differs from the index of every listed object that
    points to the template, whether or not the object names a machine. *)
Theorem X10_rebuilt_status_reserves_indexes m c items :
  client_List (client m) (Metal3DataTemplate.Namespace (DataTemplate m))
    = (c, inr items) →
  ∀ d, d ∈ items →
       pointsTo (Metal3DataTemplate.Name (DataTemplate m)) d = true →
       nextIndex (Indexes (Status (DataTemplate (RecreateStatus m).1)))
       ≠ Metal3Data.Index (Metal3Data.Spec d).
Proof.
  intros Hlist d Hd Hp Heq.
  pose proof (nextIndex_free
                (Indexes (Status (DataTemplate (RecreateStatus m).1)))) as Hfree.
  rewrite Heq in Hfree.
  rewrite (RecreateStatus_listed _ _ _ Hlist) in Hfree. simpl in Hfree.
  apply list_elem_of_split in Hd as (l1 & l2 & ->).
  rewrite foldl_app in Hfree. simpl in Hfree.
  assert (is_Some
            (Indexes
               (foldl (recordData (Metal3DataTemplate.Name (DataTemplate m)))
                  (recordData (Metal3DataTemplate.Name (DataTemplate m))
                     (foldl (recordData
                               (Metal3DataTemplate.Name (DataTemplate m)))
                        (Metal3DataTemplate.mkStatus ∅ ∅
                           (LastUpdated (Status (DataTemplate m)))) l1) d) l2)
             !! Itoa (Metal3Data.Index (Metal3Data.Spec d)))) as [x Hx].
  { apply foldl_recordData_Indexes_mono. unfold recordData. rewrite Hp.
    simpl. rewrite lookup_insert_eq. eauto. }
  congruence.
Qed.

(** X11. The conditional reconstruction runs until it has succeeded once.
    With a timestamp set it does nothing.  With none, a run that fails
    leaves none, so that the next call tries again; a run that succeeds
    sets the time read from the clock, after which (the clock never
    reading the zero time) further calls do nothing. *)
Theorem X11_RecreateStatusConditionally_until_success m :
  let m' := (RecreateStatusConditionally m).1 in
  (IsZero (LastUpdated (Status (DataTemplate m))) = false →
   RecreateStatusConditionally m = (m, None)) ∧
  (IsZero (LastUpdated (Status (DataTemplate m))) = true →
   (∀ err, (RecreateStatusConditionally m).2 = Some err →
      LastUpdated (Status (DataTemplate m'))
        = LastUpdated (Status (DataTemplate m)) ∧
      Indexes (Status (DataTemplate m')) = ∅ ∧
      DataNames (Status (DataTemplate m')) = ∅ ∧
      RecreateStatusConditionally m' = RecreateStatus m') ∧
   ((RecreateStatusConditionally m).2 = None →
    ∃ now, LastUpdated (Status (DataTemplate m')) = Some now ∧
           countNow (calls m') = S (countNow (calls m)) ∧
           (now ≠ 0%nat → RecreateStatusConditionally m' = (m', None)))).
Proof.
  intros m'. subst m'. unfold RecreateStatusConditionally.
  destruct (IsZero (LastUpdated (Status (DataTemplate m)))) eqn:Hzero;
    (split; [done |]); [| done].
  intros _.
  destruct (client_List (client m)
              (Metal3DataTemplate.Namespace (DataTemplate m)))
    as [c [err | items]] eqn:Hlist.
  - rewrite (RecreateStatus_failed _ _ _ Hlist). cbn [fst snd].
    set (m' := mkManager _ _ _).
    assert (Hlu : LastUpdated (Status (DataTemplate m'))
                  = LastUpdated (Status (DataTemplate m)))
      by (subst m'; simpl; by destruct (DataTemplate m)).
    split; [| done]. intros err' _.
    split; [done |].
    split; [subst m'; simpl; by destruct (DataTemplate m) |].
    split; [subst m'; simpl; by destruct (DataTemplate m) |].
    by rewrite Hlu, Hzero.
  - rewrite (RecreateStatus_listed _ _ _ Hlist). cbn [fst snd].
    set (m' := mkManager _ _ _).
    assert (Hlu : LastUpdated (Status (DataTemplate m'))
                  = Some (metav1_Now c).2)
      by (subst m'; simpl; by destruct (DataTemplate m)).
    split; [done |]. intros _. exists (metav1_Now c).2.
    split; [done |]. split; [done |].
    intros Hnow. rewrite Hlu. simpl.
    by destruct ((metav1_Now c).2).
Qed.

End ReconstructionMore.

(** ** The two passes together *)

Section PassesTogether.
Context `{Schema} `{MapRange} {C : Type} `{Client C}.
Implicit Types (m : DataTemplateManager C) (ref : OwnerReference.t).

(** An owner found absent is named by no Metal3Machine reference of the
    group. *)
Lemma ownerPresent_absent_inv (refs : list OwnerReference.t) o :
  ownerPresent refs o = inr false →
  ∀ ref gv, ref ∈ refs →
    ParseGroupVersion (OwnerReference.APIVersion ref) = inr gv →
    isMetal3Machine ref gv = true → OwnerReference.Name ref ≠ o.
Proof.
  induction refs as [|r refs IH]; simpl; intros Habsent ref gv Hin Hparse Hm.
  - by apply elem_of_nil in Hin.
  - destruct (ParseGroupVersion (OwnerReference.APIVersion r)) as [msg | gv']
      eqn:Hparse'; [done |].
    apply elem_of_cons in Hin as [-> | Hin].
    + rewrite Hparse in Hparse'. simplify_eq. rewrite Hm in Habsent.
      simpl in Habsent. case_bool_decide; [done | congruence].
    + destruct (negb (isMetal3Machine r gv')); [by eapply IH |].
      case_bool_decide; [done | by eapply IH].
Qed.

(** X17. A deletion pass that follows a creation pass takes back nothing
    of it: when both return nil, every owner that had no name before the
    creation pass has after the deletion pass the name the creation pass
    gave it. *)
Theorem X17_deletion_keeps_what_creation_added m :
  (CreateDatas m).2 = None →
  (DeleteDatas (CreateDatas m).1).2 = None →
  ∀ o, DataNames (Status (DataTemplate m)) !! o = None →
       DataNames (Status (DataTemplate (DeleteDatas (CreateDatas m).1).1)) !! o
       = DataNames (Status (DataTemplate (CreateDatas m).1)) !! o.
Proof.
  intros Hnil.
  assert (∃ mc, CreateDatas_loop
                  (Metal3DataTemplate.OwnerReferences (DataTemplate m)) false m
                = (mc, Next false) ∧
                CreateDatas m = (updateStatusTimestamp mc, None))
    as (mc & Hcreate & Hrun).
  { unfold CreateDatas in *.
    destruct (CreateDatas_loop _ false m) as [mc [[|] | err]]; try done.
    by exists mc. }
  rewrite Hrun. clear Hnil Hrun. cbn [fst snd].
  destruct (CreateDatas_loop_quiet_grows _ _ _ _ Hcreate)
    as (Hframe & _ & _ & Hnew).
  destruct (updateStatusTimestamp_keeps mc) as (_ & Hnames & Hrefs & _).
  set (m1 := updateStatusTimestamp mc) in *.
  assert (Hrefs1 : Metal3DataTemplate.OwnerReferences (DataTemplate m1)
                   = Metal3DataTemplate.OwnerReferences (DataTemplate m)).
  { rewrite Hrefs, <- Hframe. by destruct (DataTemplate mc). }
  unfold DeleteDatas.
  destruct (DeleteDatas_loop _ m1) as [md [err |]] eqn:Hdelete; [done |].
  cbn [fst snd]. intros _ o Hfresh.
  destruct (DeleteDatas_loop_spec _ _ _ Hdelete)
    as (_ & Hparsed & _ & Hgone & Hkept & _).
  destruct (updateStatusTimestamp_keeps md) as (_ & -> & _ & _).
  apply Hkept. intros [Hin Habsent].
  apply elem_of_range_keys in Hin. rewrite Hnames in Hin.
  destruct (Hnew o Hin) as [[n Hn] | (ref & gv & Href & Hparse & Hm & Hname)];
    [congruence |].
  rewrite Hrefs1 in Habsent.
  by eapply ownerPresent_absent_inv.
Qed.

End PassesTogether.

(** ** The further properties at work *)

Section FurtherExamples.
Local Existing Instances k8sParseGroupVersion listOrder fakeClient.

Lemma X2_deleted_index_is_reused_witness :
  0 ≤ 1 ∧
  nextIndex (delete (Itoa 1) {[ "0" := "a"; "1" := "b"; "2" := "c" ]})
  = Z.min 1 (nextIndex {[ "0" := "a"; "1" := "b"; "2" := "c" ]}).
Proof.
  assert (H01 : 0 ≤ 1) by lia.
  split; [exact H01 | exact (X2_deleted_index_is_reused _ 1 H01)].
Defined.

Lemma X3_allocation_depends_on_keys_witness :
  dom ({[ "0" := "a"; "2" := "b" ]} : gmap string string)
    = dom ({[ "0" := "x"; "2" := "y" ]} : gmap string string) ∧
  nextIndex {[ "0" := "a"; "2" := "b" ]}
    = nextIndex {[ "0" := "x"; "2" := "y" ]}.
Proof.
  assert (Hdom : dom ({[ "0" := "a"; "2" := "b" ]} : gmap string string)
                 = dom ({[ "0" := "x"; "2" := "y" ]} : gmap string string))
    by (vm_compute; reflexivity).
  split; [exact Hdom | exact (X3_allocation_depends_on_keys _ _ Hdom)].
Defined.

Lemma X6_DeleteDatas_idempotent_witness :
  (DeleteDatas goneManager).2 = None ∧
  (DeleteDatas (DeleteDatas goneManager).1).2 = None ∧
  Indexes (Status (DataTemplate (DeleteDatas (DeleteDatas goneManager).1).1))
    = Indexes (Status (DataTemplate (DeleteDatas goneManager).1)) ∧
  DataNames (Status (DataTemplate (DeleteDatas (DeleteDatas goneManager).1).1))
    = DataNames (Status (DataTemplate (DeleteDatas goneManager).1)) ∧
  calls (DeleteDatas (DeleteDatas goneManager).1).1
    = CallNow :: calls (DeleteDatas goneManager).1.
Proof.
  assert (Hnil : (DeleteDatas goneManager).2 = None) by reflexivity.
  split; [exact Hnil | exact (X6_DeleteDatas_idempotent goneManager Hnil)].
Defined.


Lemma X8_CreateDatas_only_adds_witness :
  (CreateDatas endToEndManager).2 = None ∧
  Indexes (Status (DataTemplate endToEndManager))
    ⊆ Indexes (Status (DataTemplate (CreateDatas endToEndManager).1)) ∧
  DataNames (Status (DataTemplate endToEndManager))
    ⊆ DataNames (Status (DataTemplate (CreateDatas endToEndManager).1)).
Proof.
  assert (Hnil : (CreateDatas endToEndManager).2 = None) by reflexivity.
  destruct (X8_CreateDatas_only_adds endToEndManager Hnil)
    as (_ & Hi & Hd & _).
  split; [exact Hnil |]. split; [exact Hi | exact Hd].
Defined.

Lemma X9_names_follow_indexes_witness :
  namesFollowIndexes "tpl" (Status (DataTemplate provisionedManager)) ∧
  ((CreateDatas provisionedManager).2 = None →
   namesFollowIndexes "tpl"
     (Status (DataTemplate (CreateDatas provisionedManager).1))) ∧
  ((DeleteDatas provisionedManager).2 = None →
   namesFollowIndexes "tpl"
     (Status (DataTemplate (DeleteDatas provisionedManager).1))).
Proof.
  assert (Hinv : namesFollowIndexes
                   (Metal3DataTemplate.Name (DataTemplate provisionedManager))
                   (Status (DataTemplate provisionedManager))).
  { intros o n Hn. simpl in Hn.
    apply lookup_singleton_Some in Hn as [<- <-].
    exists 0. split; [lia |]. split; reflexivity. }
  destruct (X9_names_follow_indexes provisionedManager Hinv) as (Hc & Hd & _).
  split; [exact Hinv |]. split; [exact Hc | exact Hd].
Defined.

Lemma X10_rebuilt_status_reserves_indexes_witness :
  client_List (client mixedManager) "ns" = (client mixedManager, inr mixedDatas) ∧
  sampleData "tpl-0" 0 "tpl" (Some "m1") ∈ mixedDatas ∧
  pointsTo "tpl" (sampleData "tpl-0" 0 "tpl" (Some "m1")) = true ∧
  nextIndex (Indexes (Status (DataTemplate (RecreateStatus mixedManager).1)))
    ≠ 0.
Proof.
  assert (Hlist : client_List (client mixedManager)
            (Metal3DataTemplate.Namespace (DataTemplate mixedManager))
          = (client mixedManager, inr mixedDatas)) by reflexivity.
  assert (Hin : sampleData "tpl-0" 0 "tpl" (Some "m1") ∈ mixedDatas) by left.
  assert (Hp : pointsTo
                 (Metal3DataTemplate.Name (DataTemplate mixedManager))
                 (sampleData "tpl-0" 0 "tpl" (Some "m1")) = true)
    by reflexivity.
  split; [exact Hlist |]. split; [exact Hin |]. split; [exact Hp |].
  exact (X10_rebuilt_status_reserves_indexes mixedManager _ _ Hlist _ Hin Hp).
Defined.

Lemma X12_unresolved_owner_gets_no_index_witness :
  Metal3DataTemplate.OwnerReferences (DataTemplate unlabelledManager)
    = [] ++ machineRef "m1" :: [machineRef "m2"] ∧
  CreateDatas_loop [] false unlabelledManager
    = (unlabelledManager, Next false) ∧
  ParseGroupVersion (OwnerReference.APIVersion (machineRef "m1"))
    = inr capm3_GroupVersion ∧
  isMetal3Machine (machineRef "m1") capm3_GroupVersion = true ∧
  DataNames (Status (DataTemplate unlabelledManager)) !! "m1" = None ∧
  Metal3DataTemplate.Labels (DataTemplate unlabelledManager)
    !! ClusterLabelName = None ∧
  CreateDatas unlabelledManager
  = (mkManager (client unlabelledManager) (DataTemplate unlabelledManager)
       [CallGetM3Machine "m1" "ns"],
     Some (ErrorString "No cluster name found on Metal3DataTemplate object")).
Proof.
  pose proof (X12_unresolved_owner_gets_no_index unlabelledManager []
                (machineRef "m1") [machineRef "m2"] unlabelledManager false
                capm3_GroupVersion eq_refl eq_refl eq_refl eq_refl eq_refl)
    as Hguard.
  do 6 (split; [reflexivity |]).
  exact (Hguard eq_refl).
Defined.

Lemma X14_ready_template_has_no_member_witness :
  DeleteReady capiOwnedManager = (true, None) ∧
  CreateDatas capiOwnedManager
    = (updateStatusTimestamp capiOwnedManager, None) ∧
  ((DeleteDatas capiOwnedManager).2 = None →
   DataNames (Status (DataTemplate (DeleteDatas capiOwnedManager).1)) = ∅).
Proof.
  assert (Hready : DeleteReady capiOwnedManager = (true, None))
    by reflexivity.
  destruct (X14_ready_template_has_no_member capiOwnedManager Hready)
    as (_ & Hc & Hd).
  split; [exact Hready |]. split; [exact Hc | exact Hd].
Defined.

Lemma X16_DeleteDatas_no_entries_witness :
  DataNames (Status (DataTemplate endToEndManager)) = ∅ ∧
  DeleteDatas endToEndManager = (updateStatusTimestamp endToEndManager, None).
Proof.
  assert (Hempty : DataNames (Status (DataTemplate endToEndManager)) = ∅)
    by reflexivity.
  split; [exact Hempty | exact (X16_DeleteDatas_no_entries _ Hempty)].
Defined.

Lemma X17_deletion_keeps_what_creation_added_witness :
  (CreateDatas endToEndManager).2 = None ∧
  (DeleteDatas (CreateDatas endToEndManager).1).2 = None ∧
  DataNames (Status (DataTemplate endToEndManager)) !! "m1" = None ∧
  DataNames (Status (DataTemplate
                       (DeleteDatas (CreateDatas endToEndManager).1).1)) !! "m1"
  = DataNames (Status (DataTemplate (CreateDatas endToEndManager).1)) !! "m1".
Proof.
  assert (Hc : (CreateDatas endToEndManager).2 = None) by reflexivity.
  assert (Hd : (DeleteDatas (CreateDatas endToEndManager).1).2 = None)
    by reflexivity.
  assert (Hfresh : DataNames (Status (DataTemplate endToEndManager)) !! "m1"
                   = None) by reflexivity.
  split; [exact Hc |]. split; [exact Hd |]. split; [exact Hfresh |].
  exact (X17_deletion_keeps_what_creation_added endToEndManager Hc Hd "m1"
           Hfresh).
Defined.

End FurtherExamples.
